(** * HitBTC market connector: order reconciliation, submission and cancellation

    A shallow embedding of [hummingbot/market/hitbtc/hitbtc_market.pyx]
    (class [HitBTCMarket]) and the properties of its order life cycle, of
    its trading rules and balances, and of its clock and network tasks.

    Conventions of the embedding:
    - the connector object is a record [Market]; every method is a function
      that takes the market and returns the market it leaves behind;
    - [c_trigger_event] appends to the trace [events], [logger()] calls append
      to [log], and every call that reaches [_api_request] appends to
      [requests];
    - each [await] on the venue is resolved by an explicit argument carrying
      what the venue answered (or that it raised);
    - Python exceptions are values of [Exn], carried by [Outcome]. *)

From Stdlib Require Import ZArith QArith Qpower Qround Lia Lqa.
From Stdlib Require Import SpecFloat.
From Stdlib Require Import List String Ascii Bool.
From Stdlib Require Import DecimalString DecimalZ.
From Stdlib Require Import Permutation.
Import ListNotations.

Local Open Scope Z_scope.

(** ** Decimal numbers

    Python's [Decimal] is a coefficient and a power of ten.  Sums,
    differences and products are computed exactly, as the [decimal] module
    does whenever the result fits the context precision (28 significant
    digits by default); comparisons are by numerical value, so that
    [Decimal("1.0") == Decimal("1")]. *)

Module Dec.

Record t : Type := mk { coef : Z; expo : Z }.

Definition zero : t := mk 0 0.

(** Both coefficients brought to the smaller of the two exponents. *)
Definition align (a b : t) : Z * Z * Z :=
  let m := Z.min (expo a) (expo b) in
  (coef a * 10 ^ (expo a - m), coef b * 10 ^ (expo b - m), m).

Definition add (a b : t) : t :=
  let '(ca, cb, m) := align a b in mk (ca + cb) m.

Definition sub (a b : t) : t :=
  let '(ca, cb, m) := align a b in mk (ca - cb) m.

Definition mul (a b : t) : t :=
  mk (coef a * coef b) (expo a + expo b).

Definition ltb (a b : t) : bool :=
  let '(ca, cb, _) := align a b in ca <? cb.

Definition eqb (a b : t) : bool :=
  let '(ca, cb, _) := align a b in ca =? cb.

Definition gtb (a b : t) : bool := ltb b a.

(** The number a decimal denotes. *)
Definition to_Q (d : t) : Q := inject_Z (coef d) * (10 # 1) ^ expo d.

Definition sum (l : list t) : t := fold_right add zero l.

End Dec.

Abbreviation Decimal := Dec.t.

Declare Scope dec_scope.
Delimit Scope dec_scope with dec.
Infix "+" := Dec.add : dec_scope.
Infix "-" := Dec.sub : dec_scope.
Infix "*" := Dec.mul : dec_scope.
Infix "<?" := Dec.ltb : dec_scope.
Infix ">?" := Dec.gtb : dec_scope.
Infix "==?" := Dec.eqb (at level 70) : dec_scope.

(** [Decimal("0")], the module constant [s_decimal_0]. *)
Definition s_decimal_0 : Decimal := Dec.zero.

(** [dec c k] is the decimal written with coefficient [c] and [k] digits
    after the point: [dec 4 1] is [Decimal("0.4")]. *)
Definition dec (c : Z) (k : Z) : Decimal := Dec.mk c (- k).


Local Open Scope string_scope.
Local Open Scope list_scope.

(** ** Python values *)

(** Parsed JSON, as far as the connector looks into it. *)
#[local] Unset Elimination Schemes.
Inductive Json : Type :=
| JNull
| JBool (b : bool)
| JNum (n : Z)
| JStr (s : string)
| JList (l : list Json)
| JDict (items : list (string * Json)).
#[local] Set Elimination Schemes.

(** Exceptions the connector raises, catches or lets through.
    [CancelledError] is asyncio's task-cancellation signal. *)
Inductive Exn : Type :=
| CancelledError
| KeyError
| IndexError
| ValueError
| TypeError
| AttributeError
| TimeoutError
| IOError
| HitBTCAPIError (error_payload : Json)
| OtherException.

Inductive Outcome (A : Type) : Type :=
| Ok (a : A)
| Raise (e : Exn).

Arguments Ok {A} a.
Arguments Raise {A} e.

Definition bind {A B : Type} (m : Outcome A) (k : A -> Outcome B) : Outcome B :=
  match m with
  | Ok a => k a
  | Raise e => Raise e
  end.

Notation "x <- m ;; k" := (bind m (fun x => k))
  (at level 61, m at next level, right associativity).

(** What an [await] on the request layer produced: the parsed answer, or the
    exception [_api_request] raised. *)
Inductive ApiResult (A : Type) : Type :=
| Response (a : A)
| Failure (e : Exn).

Arguments Response {A} a.
Arguments Failure {A} e.

(** A Python [str] object.  [x is "lit"] compares object identity: the
    literal is an interned constant, so the test holds exactly for the
    interned string of the same characters, and fails for a string object
    built at run time (for instance by a JSON decoder). *)
Record PyStr : Type := mkPyStr { str_chars : string; str_interned : bool }.

Definition py_is (x : option PyStr) (literal : string) : bool :=
  match x with
  | Some s => str_interned s && String.eqb (str_chars s) literal
  | None => false
  end.

Definition json_get (key : string) (j : Json) : Outcome Json :=
  match j with
  | JDict items =>
      match find (fun kv => String.eqb (fst kv) key) items with
      | Some kv => Ok (snd kv)
      | None => Ok JNull
      end
  | _ => Raise AttributeError
  end.

Definition is_substring (needle s : string) : bool :=
  match String.index 0 needle s with
  | Some _ => true
  | None => false
  end.

(** [needle in container] for a string [needle]: key membership for a
    dict, element membership for a list, substring for a string. *)
Definition py_in (needle : string) (container : Json) : Outcome bool :=
  match container with
  | JDict items => Ok (existsb (fun kv => String.eqb (fst kv) needle) items)
  | JList l =>
      Ok (existsb (fun x => match x with
                            | JStr s => String.eqb s needle
                            | _ => false
                            end) l)
  | JStr s => Ok (is_substring needle s)
  | JNull | JBool _ | JNum _ => Raise TypeError
  end.

(** [HitBTCAPIError.__init__]: keeps the ["error"] entry of its argument. *)
Definition HitBTCAPIError_init (error_payload : list (string * Json)) : Exn :=
  match json_get "error" (JDict error_payload) with
  | Ok v => HitBTCAPIError v
  | Raise e => e
  end.

(** The tail of [_api_request]: a body that does not parse is an [IOError];
    a null body or a status other than 200 is a [HitBTCAPIError] that wraps
    the parsed body. *)
Definition api_response (http_status : Z) (parsed_response : option Json)
  : ApiResult Json :=
  match parsed_response with
  | None => Failure IOError
  | Some data =>
      match data with
      | JNull => Failure (HitBTCAPIError_init [("error", data)])
      | _ =>
          if negb (http_status =? 200)%Z
          then Failure (HitBTCAPIError_init [("error", data)])
          else Response data
      end
  end.

(** ** Python dicts, in insertion order *)

Section Dict.
Context {V : Type}.

Fixpoint dict_get (k : string) (d : list (string * V)) : option V :=
  match d with
  | [] => None
  | (k', v) :: rest => if String.eqb k' k then Some v else dict_get k rest
  end.

Fixpoint dict_set (k : string) (v : V) (d : list (string * V))
  : list (string * V) :=
  match d with
  | [] => [(k, v)]
  | (k', v') :: rest =>
      if String.eqb k' k then (k', v) :: rest
      else (k', v') :: dict_set k v rest
  end.

Definition dict_del (k : string) (d : list (string * V)) : list (string * V) :=
  filter (fun kv => negb (String.eqb (fst kv) k)) d.

Definition dict_values (d : list (string * V)) : list V := map snd d.

Definition dict_mem (k : string) (d : list (string * V)) : bool :=
  match dict_get k d with Some _ => true | None => false end.

End Dict.

(** ** Orders, rules, events *)

Inductive OrderType : Type := LIMIT | MARKET.
Inductive TradeType : Type := BUY | SELL.

Record TradeFee : Type := mkTradeFee { percent : Decimal }.

Record TradingRule : Type := mkTradingRule {
  rule_trading_pair : string;
  min_order_size : Decimal;
  max_order_size : Decimal;
  min_price_increment : Decimal;
  min_base_amount_increment : Decimal;
  min_quote_amount_increment : Decimal
}.

(** The attributes of [HitBTCInFlightOrder] the connector reads and writes. *)
Record InFlightOrder : Type := mkInFlightOrder {
  client_order_id : string;
  exchange_order_id : string;
  trading_pair : string;
  order_type : OrderType;
  trade_type : TradeType;
  price : Decimal;
  amount : Decimal;
  executed_amount_base : Decimal;
  executed_amount_quote : Decimal;
  fee_asset : option string;
  fee_paid : Decimal;
  last_state : string
}.

(** An asset name.  [base_asset] and [quote_asset] are properties the order
    class derives from the trading pair; they are kept symbolic. *)
Inductive Asset : Type :=
| BaseOf (pair : string)
| QuoteOf (pair : string)
| Named (name : string).

Definition base_asset (o : InFlightOrder) : Asset := BaseOf (trading_pair o).
Definition quote_asset (o : InFlightOrder) : Asset := QuoteOf (trading_pair o).

(** [tracked_order.fee_asset or other]. *)
Definition fee_asset_or (o : InFlightOrder) (other : Asset) : Asset :=
  match fee_asset o with
  | Some name => if String.eqb name "" then other else Named name
  | None => other
  end.

Definition set_last_state (o : InFlightOrder) (s : string) : InFlightOrder :=
  mkInFlightOrder (client_order_id o) (exchange_order_id o) (trading_pair o)
    (order_type o) (trade_type o) (price o) (amount o)
    (executed_amount_base o) (executed_amount_quote o) (fee_asset o)
    (fee_paid o) s.

Definition set_executed (o : InFlightOrder) (base quote : Decimal)
  : InFlightOrder :=
  mkInFlightOrder (client_order_id o) (exchange_order_id o) (trading_pair o)
    (order_type o) (trade_type o) (price o) (amount o)
    base quote (fee_asset o) (fee_paid o) (last_state o).

Definition set_fee_paid (o : InFlightOrder) (fee : Decimal) : InFlightOrder :=
  mkInFlightOrder (client_order_id o) (exchange_order_id o) (trading_pair o)
    (order_type o) (trade_type o) (price o) (amount o)
    (executed_amount_base o) (executed_amount_quote o) (fee_asset o)
    fee (last_state o).

(** Modelled from the spec: the state predicates of [HitBTCInFlightOrder],
    whose class is not part of the connector file.  The spec's data model has
    New, Suspended and PartiallyFilled open, Filled, Cancelled and Expired
    terminal, and Expired handled like Cancelled. *)
Definition is_open (o : InFlightOrder) : bool :=
  existsb (String.eqb (last_state o)) ["new"; "suspended"; "partiallyFilled"].

Definition is_done (o : InFlightOrder) : bool :=
  existsb (String.eqb (last_state o)) ["filled"; "canceled"; "expired"].

Definition is_cancelled (o : InFlightOrder) : bool :=
  existsb (String.eqb (last_state o)) ["canceled"; "expired"].

(** Modelled from the spec: the constructor of [HitBTCInFlightOrder], which
    creates the order in the New state with nothing executed. *)
Definition HitBTCInFlightOrder
  (client_order_id exchange_order_id trading_pair : string)
  (order_type : OrderType) (trade_type : TradeType) (price amount : Decimal)
  : InFlightOrder :=
  mkInFlightOrder client_order_id exchange_order_id trading_pair
    order_type trade_type price amount
    s_decimal_0 s_decimal_0 None s_decimal_0 "new".

(** Events handed to [c_trigger_event]; the constructor stands for the event
    tag, the arguments are those of the event object, in its order. *)
Inductive MarketEvent : Type :=
| OrderFilledEvent (timestamp : Q) (order_id : string) (pair : string)
    (trade : TradeType) (kind : OrderType) (fill_price fill_amount : Decimal)
    (fee : TradeFee) (exchange_trade_id : string)
| BuyOrderCompletedEvent (timestamp : Q) (order_id : string)
    (base quote fee_in : Asset) (base_amount quote_amount fee_amount : Decimal)
    (kind : OrderType)
| SellOrderCompletedEvent (timestamp : Q) (order_id : string)
    (base quote fee_in : Asset) (base_amount quote_amount fee_amount : Decimal)
    (kind : OrderType)
| OrderCancelledEvent (timestamp : Q) (order_id : string)
| MarketOrderFailureEvent (timestamp : Q) (order_id : string) (kind : OrderType)
| BuyOrderCreatedEvent (timestamp : Q) (kind : OrderType) (pair : string)
    (order_amount order_price : Decimal) (order_id : string)
| SellOrderCreatedEvent (timestamp : Q) (kind : OrderType) (pair : string)
    (order_amount order_price : Decimal) (order_id : string).

Inductive LogLevel : Type := DEBUG | INFO | WARNING | ERROR | NETWORK.

(** The message templates of the logging calls that are modelled. *)
Inductive LogMessage : Type :=
| UnrecognizedOrderUpdate
| OrderFailedPerStatusApi
| ErrorFetchingStatusUpdate
| FilledAmount (diff : Decimal)
| BuyOrderCompleted
| SellOrderCompleted
| OrderCancelledPerStatusApi
| CreatedOrder
| ErrorSubmittingOrder
| OrderDoesNotExist
| FailedToCancelOrder
| CancelOrderIds
| FailedToCancelAllOrders.

Record LogRecord : Type := mkLog {
  level : LogLevel;
  message : LogMessage;
  about : string
}.

(** The [data] of a placement request. *)
Record OrderParams : Type := mkOrderParams {
  param_clientOrderId : string;
  param_symbol : string;
  param_side : string;
  param_type : string;
  param_quantity : Decimal;
  param_price : Decimal
}.

Record ApiRequest : Type := mkApiRequest {
  method : string;
  path_url : string;
  params : list (string * string);
  data : option OrderParams;
  is_auth_required : bool
}.

(** ** The connector *)

Record Market : Type := mkMarket {
  in_flight_orders : list (string * InFlightOrder);
  trading_rules : list (string * TradingRule);
  current_timestamp : Q;
  last_poll_timestamp : Q;
  events : list MarketEvent;
  log : list LogRecord;
  requests : list ApiRequest
}.

Definition set_in_flight_orders (st : Market)
  (d : list (string * InFlightOrder)) : Market :=
  mkMarket d (trading_rules st) (current_timestamp st)
    (last_poll_timestamp st) (events st) (log st) (requests st).

Definition c_trigger_event (st : Market) (e : MarketEvent) : Market :=
  mkMarket (in_flight_orders st) (trading_rules st) (current_timestamp st)
    (last_poll_timestamp st) (events st ++ [e]) (log st) (requests st).

Definition logger (st : Market) (l : LogLevel) (m : LogMessage) (about : string)
  : Market :=
  mkMarket (in_flight_orders st) (trading_rules st) (current_timestamp st)
    (last_poll_timestamp st) (events st) (log st ++ [mkLog l m about])
    (requests st).

(** Entering [_api_request]. *)
Definition api_request (st : Market) (r : ApiRequest) : Market :=
  mkMarket (in_flight_orders st) (trading_rules st) (current_timestamp st)
    (last_poll_timestamp st) (events st) (log st) (requests st ++ [r]).

Definition c_start_tracking_order (st : Market)
  (client_order_id exchange_order_id trading_pair : string)
  (order_type : OrderType) (trade_type : TradeType) (price amount : Decimal)
  : Market :=
  set_in_flight_orders st
    (dict_set client_order_id
       (HitBTCInFlightOrder client_order_id exchange_order_id trading_pair
          order_type trade_type price amount)
       (in_flight_orders st)).

Definition c_stop_tracking_order (st : Market) (order_id : string) : Market :=
  if dict_mem order_id (in_flight_orders st)
  then set_in_flight_orders st (dict_del order_id (in_flight_orders st))
  else st.

(** An order is a Python object shared by the registry and by the local
    variable that holds it: an assignment to one of its attributes is seen
    through the registry entry of that order, when the order is still
    registered. *)
Definition write_through (st : Market) (o : InFlightOrder) : Market :=
  if dict_mem (client_order_id o) (in_flight_orders st)
  then set_in_flight_orders st
         (dict_set (client_order_id o) o (in_flight_orders st))
  else st.

Definition c_get_fee (base quote : Asset) (kind : OrderType) (side : TradeType)
  (amount price : Decimal) : TradeFee :=
  mkTradeFee (dec 7 4).

(** ** Status polling *)

(** The entry of the order-history answer the connector reads. *)
Record OrderUpdate : Type := mkOrderUpdate {
  upd_status : string;
  upd_cumQuantity : Decimal;
  upd_price : Decimal
}.

Definition recognized_states : list string :=
  ["new"; "suspended"; "partiallyFilled"; "filled"; "canceled"; "expired"].

Definition recognized (order_state : string) : bool :=
  existsb (String.eqb order_state) recognized_states.

(** The body of the loop of [_update_order_status] once the update of the
    order has been fetched: from [order_state = order_update["status"]] to
    the end of the iteration. *)
Definition update_tracked_order (st : Market) (tracked_order : InFlightOrder)
  (order_update : OrderUpdate) : Market :=
  let order_id := client_order_id tracked_order in
  let order_state := upd_status order_update in
  let st :=
    if negb (recognized order_state)
    then logger st DEBUG UnrecognizedOrderUpdate order_id
    else st in
  let o := set_last_state tracked_order order_state in
  let new_confirmed_amount := upd_cumQuantity order_update in
  let execute_amount_diff :=
    (new_confirmed_amount - executed_amount_base o)%dec in
  let '(st, o) :=
    if (execute_amount_diff >? s_decimal_0)%dec then
      let o := set_executed o new_confirmed_amount
                 (upd_price order_update * new_confirmed_amount)%dec in
      let execute_price := upd_price order_update in
      let fee := c_get_fee (base_asset o) (quote_asset o) (order_type o)
                   (trade_type o) execute_price execute_amount_diff in
      let o := set_fee_paid o (executed_amount_quote o * percent fee)%dec in
      let order_filled_event :=
        OrderFilledEvent (current_timestamp st) (client_order_id o)
          (trading_pair o) (trade_type o) (order_type o)
          execute_price execute_amount_diff fee (exchange_order_id o) in
      let st := logger st INFO (FilledAmount execute_amount_diff) order_id in
      (c_trigger_event st order_filled_event, o)
    else (st, o) in
  let st := write_through st o in
  if is_open o then st
  else if is_done o then
    if negb (is_cancelled o) then
      let st := c_stop_tracking_order st (client_order_id o) in
      match trade_type o with
      | BUY =>
          c_trigger_event (logger st INFO BuyOrderCompleted order_id)
            (BuyOrderCompletedEvent (current_timestamp st) (client_order_id o)
               (base_asset o) (quote_asset o) (fee_asset_or o (base_asset o))
               (executed_amount_base o) (executed_amount_quote o)
               (fee_paid o) (order_type o))
      | SELL =>
          c_trigger_event (logger st INFO SellOrderCompleted order_id)
            (SellOrderCompletedEvent (current_timestamp st) (client_order_id o)
               (base_asset o) (quote_asset o) (fee_asset_or o (quote_asset o))
               (executed_amount_base o) (executed_amount_quote o)
               (fee_paid o) (order_type o))
      end
    else
      let st := c_stop_tracking_order st (client_order_id o) in
      c_trigger_event (logger st INFO OrderCancelledPerStatusApi order_id)
        (OrderCancelledEvent (current_timestamp st) (client_order_id o))
  else st.

(** What [get_order_status] answered: the list [res], whose first entry may
    be null. *)
Definition StatusReply : Type := ApiResult (list (option OrderUpdate)).

Definition get_order_status_request (order_id : string) : ApiRequest :=
  mkApiRequest "GET" "/api/2/history/order" [("clientOrderId", order_id)]
    None true.

(** One iteration of the loop of [_update_order_status]. *)
Definition poll_tracked_order (st : Market) (tracked_order : InFlightOrder)
  (reply : StatusReply) : Market * Outcome unit :=
  let order_id := client_order_id tracked_order in
  let st := api_request st (get_order_status_request order_id) in
  match reply with
  | Failure (HitBTCAPIError error_payload) =>
      match (err <- json_get "error" error_payload ;; json_get "code" err) with
      | Raise e => (st, Raise e)
      | Ok err_code =>
          let st := c_stop_tracking_order st (client_order_id tracked_order) in
          let st := logger st INFO OrderFailedPerStatusApi order_id in
          (c_trigger_event st
             (MarketOrderFailureEvent (current_timestamp st)
                (client_order_id tracked_order) (order_type tracked_order)),
           Ok tt)
      end
  | Failure e => (st, Raise e)
  | Response [] => (st, Raise IndexError)
  | Response (None :: _) =>
      (logger st NETWORK ErrorFetchingStatusUpdate order_id, Ok tt)
  | Response (Some order_update :: _) =>
      (update_tracked_order st tracked_order order_update, Ok tt)
  end.

Fixpoint poll_tracked_orders (st : Market) (tracked_orders : list InFlightOrder)
  (replies : string -> StatusReply) : Market * Outcome unit :=
  match tracked_orders with
  | [] => (st, Ok tt)
  | tracked_order :: rest =>
      match poll_tracked_order st tracked_order
              (replies (client_order_id tracked_order)) with
      | (st', Ok _) => poll_tracked_orders st' rest replies
      | (st', Raise e) => (st', Raise e)
      end
  end.

(** [<int64_t>(timestamp / interval)]: the quotient, truncated. *)
Definition tick (timestamp interval : Q) : Z :=
  let q := (timestamp / interval)%Q in Z.quot (Qnum q) (Zpos (Qden q)).

Definition UPDATE_ORDERS_INTERVAL : Q := 10 # 1.

Definition update_order_status (st : Market) (replies : string -> StatusReply)
  : Market * Outcome unit :=
  let last_tick := tick (last_poll_timestamp st) UPDATE_ORDERS_INTERVAL in
  let current_tick := tick (current_timestamp st) UPDATE_ORDERS_INTERVAL in
  if (current_tick >? last_tick)%Z
     && (0 <? List.length (in_flight_orders st))%nat
  then poll_tracked_orders st (dict_values (in_flight_orders st)) replies
  else (st, Ok tt).

(** A status update delivered for [order_id] by a polling cycle: the order
    is part of the cycle only while the registry holds it.  The status
    request that [poll_tracked_order] records is left out. *)
Definition poll_order (st : Market) (order_id : string)
  (order_update : OrderUpdate) : Market :=
  match dict_get order_id (in_flight_orders st) with
  | Some tracked_order => update_tracked_order st tracked_order order_update
  | None => st
  end.

Definition poll_orders (st : Market) (order_id : string)
  (updates : list OrderUpdate) : Market :=
  fold_left (fun s u => poll_order s order_id u) updates st.

(** ** User stream *)

Record StreamMessage : Type := mkStreamMessage {
  msg_status : string;
  msg_clientOrderId : string;
  msg_tradePrice : option Decimal;
  msg_tradeQuantity : option Decimal;
  msg_tradeFee : option Decimal;
  msg_reportType : option PyStr
}.

(** [Decimal(order_update.get(key, 0.0))]. *)
Definition decimal_or_zero (field : option Decimal) : Decimal :=
  match field with
  | Some d => d
  | None => s_decimal_0
  end.

(** The body of the loop of [_user_stream_event_listener] for one message. *)
Definition user_stream_event (st : Market) (event_message : StreamMessage)
  : Market :=
  let order_update := event_message in
  let order_state := msg_status order_update in
  let order_id := msg_clientOrderId order_update in
  match dict_get order_id (in_flight_orders st) with
  | None => st
  | Some tracked_order =>
      let execute_price := decimal_or_zero (msg_tradePrice order_update) in
      let execute_amount_diff :=
        decimal_or_zero (msg_tradeQuantity order_update) in
      let st :=
        if negb (recognized order_state)
        then logger st DEBUG UnrecognizedOrderUpdate order_id
        else st in
      let o := set_last_state tracked_order order_state in
      let o := set_fee_paid o (decimal_or_zero (msg_tradeFee order_update)) in
      let st := write_through st o in
      let st :=
        if (execute_amount_diff >? s_decimal_0)%dec
           && py_is (msg_reportType order_update) "trade"
        then
          c_trigger_event
            (logger st INFO (FilledAmount execute_amount_diff)
               (client_order_id o))
            (OrderFilledEvent (current_timestamp st) (client_order_id o)
               (trading_pair o) (trade_type o) (order_type o)
               execute_price execute_amount_diff
               (c_get_fee (base_asset o) (quote_asset o) (order_type o)
                  (trade_type o) execute_price execute_amount_diff)
               (exchange_order_id o))
        else st in
      if is_done o then
        if negb (is_cancelled o) then
          let st :=
            match trade_type o with
            | BUY =>
                c_trigger_event
                  (logger st INFO BuyOrderCompleted (client_order_id o))
                  (BuyOrderCompletedEvent (current_timestamp st)
                     (client_order_id o) (base_asset o) (quote_asset o)
                     (fee_asset_or o (base_asset o))
                     (executed_amount_base o) (executed_amount_quote o)
                     (fee_paid o) (order_type o))
            | SELL =>
                c_trigger_event
                  (logger st INFO SellOrderCompleted (client_order_id o))
                  (SellOrderCompletedEvent (current_timestamp st)
                     (client_order_id o) (base_asset o) (quote_asset o)
                     (fee_asset_or o (quote_asset o))
                     (executed_amount_base o) (executed_amount_quote o)
                     (fee_paid o) (order_type o))
            end in
          c_stop_tracking_order st (client_order_id o)
        else
          let o := set_last_state o "cancelled" in
          let st := write_through st o in
          let st :=
            c_trigger_event st
              (OrderCancelledEvent (current_timestamp st) (client_order_id o)) in
          c_stop_tracking_order st (client_order_id o)
      else st
  end.

(** ** Reading the event trace *)

(** The events a step appended. *)
Definition emitted (before after : Market) : list MarketEvent :=
  skipn (List.length (events before)) (events after).

Definition is_fill (e : MarketEvent) : bool :=
  match e with
  | OrderFilledEvent _ _ _ _ _ _ _ _ _ => true
  | _ => false
  end.

(** The amounts carried by the fill events of [order_id], in order. *)
Fixpoint fill_amounts (order_id : string) (evs : list MarketEvent)
  : list Decimal :=
  match evs with
  | [] => []
  | OrderFilledEvent _ id _ _ _ _ fill_amount _ _ :: rest =>
      if String.eqb id order_id
      then fill_amount :: fill_amounts order_id rest
      else fill_amounts order_id rest
  | _ :: rest => fill_amounts order_id rest
  end.

(** ** Submission *)

(** What the connector inherits from its host class [MarketBase]: the
    increment rounding of amounts and prices, and the order-book price. *)
Class MarketBase : Type := {
  MarketBase_c_quantize_order_amount :
    Market -> string -> Decimal -> Outcome Decimal;
  c_quantize_order_price : Market -> string -> Decimal -> Outcome Decimal;
  c_get_price : Market -> string -> bool -> Outcome Decimal
}.

(** [d[k]], which raises [KeyError] for a missing key. *)
Definition dict_index {V : Type} (k : string) (d : list (string * V))
  : Outcome V :=
  match dict_get k d with
  | Some v => Ok v
  | None => Raise KeyError
  end.

Definition place_order_request (order_id symbol : string) (amount : Decimal)
  (is_buy : bool) (order_type : OrderType) (price : Decimal) : ApiRequest :=
  let side := if is_buy then "buy" else "sell" in
  let order_type_str :=
    match order_type with LIMIT => "limit" | MARKET => "market" end in
  mkApiRequest "PUT" ("/api/2/order/" ++ order_id) []
    (Some (mkOrderParams order_id symbol side order_type_str amount price))
    true.

(** The answer to a placement: [str(res["id"])] when the key is there. *)
Definition PlaceReply : Type := ApiResult (option string).

Definition place_order (st : Market) (order_id symbol : string)
  (amount : Decimal) (is_buy : bool) (order_type : OrderType) (price : Decimal)
  (reply : PlaceReply) : Market * Outcome string :=
  let st :=
    api_request st
      (place_order_request order_id symbol amount is_buy order_type price) in
  match reply with
  | Response (Some id) => (st, Ok id)
  | Response None => (st, Raise KeyError)
  | Failure e => (st, Raise e)
  end.

Section Submission.
Context {base : MarketBase}.

Definition c_quantize_order_amount (st : Market) (trading_pair : string)
  (amount : Decimal) : Outcome Decimal :=
  trading_rule <- dict_index trading_pair (trading_rules st) ;;
  quantized_amount <- MarketBase_c_quantize_order_amount st trading_pair amount ;;
  current_price <- c_get_price st trading_pair false ;;
  if (quantized_amount <? min_order_size trading_rule)%dec
  then Ok s_decimal_0
  else if (quantized_amount >? max_order_size trading_rule)%dec
  then Ok (max_order_size trading_rule)
  else Ok quantized_amount.

(** The Python entry point of the host class, which dispatches to the
    connector's own [c_quantize_order_amount]. *)
Definition quantize_order_amount (st : Market) (trading_pair : string)
  (amount : Decimal) : Outcome Decimal :=
  c_quantize_order_amount st trading_pair amount.

Definition execute_buy (st : Market) (order_id symbol : string)
  (amount : Decimal) (order_type : OrderType) (price : Decimal)
  (reply : PlaceReply) : Market * Outcome unit :=
  match dict_index symbol (trading_rules st) with
  | Raise e => (st, Raise e)
  | Ok trading_rule =>
  match quantize_order_amount st symbol amount with
  | Raise e => (st, Raise e)
  | Ok decimal_amount =>
  match (match order_type with
         | LIMIT => c_quantize_order_price st symbol price
         | MARKET => Ok s_decimal_0
         end) with
  | Raise e => (st, Raise e)
  | Ok decimal_price =>
      if (decimal_amount <? min_order_size trading_rule)%dec
      then (st, Raise ValueError)
      else
        match place_order st order_id symbol decimal_amount true order_type
                decimal_price reply with
        | (st, Ok exchange_order_id) =>
            let st :=
              c_start_tracking_order st order_id exchange_order_id symbol
                order_type BUY decimal_price decimal_amount in
            let st :=
              match dict_get order_id (in_flight_orders st) with
              | Some tracked_order => logger st INFO CreatedOrder order_id
              | None => st
              end in
            (c_trigger_event st
               (BuyOrderCreatedEvent (current_timestamp st) order_type symbol
                  decimal_amount decimal_price order_id),
             Ok tt)
        | (st, Raise CancelledError) => (st, Raise CancelledError)
        | (st, Raise _) =>
            let st := c_stop_tracking_order st order_id in
            let st := logger st NETWORK ErrorSubmittingOrder order_id in
            (c_trigger_event st
               (MarketOrderFailureEvent (current_timestamp st) order_id
                  order_type),
             Ok tt)
        end
  end end end.

Definition execute_sell (st : Market) (order_id symbol : string)
  (amount : Decimal) (order_type : OrderType) (price : Decimal)
  (reply : PlaceReply) : Market * Outcome unit :=
  match dict_index symbol (trading_rules st) with
  | Raise e => (st, Raise e)
  | Ok trading_rule =>
  match quantize_order_amount st symbol amount with
  | Raise e => (st, Raise e)
  | Ok decimal_amount =>
  match (match order_type with
         | LIMIT => c_quantize_order_price st symbol price
         | MARKET => Ok s_decimal_0
         end) with
  | Raise e => (st, Raise e)
  | Ok decimal_price =>
      if (decimal_amount <? min_order_size trading_rule)%dec
      then (st, Raise ValueError)
      else
        match place_order st order_id symbol decimal_amount false order_type
                decimal_price reply with
        | (st, Ok exchange_order_id) =>
            let st :=
              c_start_tracking_order st order_id exchange_order_id symbol
                order_type SELL decimal_price decimal_amount in
            let st :=
              match dict_get order_id (in_flight_orders st) with
              | Some tracked_order => logger st INFO CreatedOrder order_id
              | None => st
              end in
            (c_trigger_event st
               (SellOrderCreatedEvent (current_timestamp st) order_type symbol
                  decimal_amount decimal_price order_id),
             Ok tt)
        | (st, Raise CancelledError) => (st, Raise CancelledError)
        | (st, Raise _) =>
            let st := c_stop_tracking_order st order_id in
            let st := logger st NETWORK ErrorSubmittingOrder order_id in
            (c_trigger_event st
               (MarketOrderFailureEvent (current_timestamp st) order_id
                  order_type),
             Ok tt)
        end
  end end end.

(** A submission of either side. *)
Definition submit_order (side : TradeType)
  : Market -> string -> string -> Decimal -> OrderType -> Decimal ->
    PlaceReply -> Market * Outcome unit :=
  match side with
  | BUY => execute_buy
  | SELL => execute_sell
  end.

End Submission.

(** A coroutine handed to [safe_ensure_future]. *)
Inductive Task : Type :=
| ExecuteBuy (order_id trading_pair : string) (amount : Decimal)
    (order_type : OrderType) (price : Decimal)
| ExecuteSell (order_id trading_pair : string) (amount : Decimal)
    (order_type : OrderType) (price : Decimal)
| ExecuteCancel (trading_pair order_id : string).

(** Python's [float] is the binary64 format of IEEE 754: [spec_float] with
    a precision of 53 bits and exponents up to 1024.  [float_mul] is the
    product of two floats, rounded to the nearest float, ties to even. *)
Definition float_mul (x y : spec_float) : spec_float := SFmul 53 1024 x y.

(** The float of an integer, which is exact up to 53 bits. *)
Definition float_of_Z (z : Z) : spec_float :=
  binary_normalize 53 1024 z 0 false.

(** [<int64_t>x] for a float [x]: its integer part, rounded toward zero.
    Python refuses to convert an infinity or a NaN, and an integer outside
    the 64 bits; clock readings and their products are finite and far inside
    the range, and outside of it the value here is of no significance. *)
Definition int_of_float (x : spec_float) : Z :=
  match x with
  | S754_finite s m e =>
      let n :=
        if (0 <=? e)%Z then Z.pos m * 2 ^ e
        else Z.quot (Z.pos m) (2 ^ (- e)) in
      if s then - n else n
  | _ => 0
  end.

(** [<int64_t>(time.time() * 1e6)]: the reading [now] of the wall clock, a
    float of seconds, times the float [1e6], the product being a float
    again, and of that the integer part. *)
Definition tracking_nonce (now : spec_float) : Z :=
  int_of_float (float_mul now (float_of_Z 1000000)).

(** The decimal digits an f-string writes for an integer. *)
Definition string_of_Z (z : Z) : string := NilEmpty.string_of_int (Z.to_int z).

(** [c_buy] and [c_sell] read the wall clock, which is the argument [now];
    they return the order id and schedule the submission. *)
Definition c_buy (trading_pair : string) (amount : Decimal)
  (order_type : OrderType) (price : Decimal) (now : spec_float)
  : string * Task :=
  let tracking_nonce := tracking_nonce now in
  let order_id :=
    ("buy-" ++ trading_pair ++ "-" ++ string_of_Z tracking_nonce)%string in
  (order_id, ExecuteBuy order_id trading_pair amount order_type price).

Definition c_sell (trading_pair : string) (amount : Decimal)
  (order_type : OrderType) (price : Decimal) (now : spec_float)
  : string * Task :=
  let tracking_nonce := tracking_nonce now in
  let order_id :=
    ("sell-" ++ trading_pair ++ "-" ++ string_of_Z tracking_nonce)%string in
  (order_id, ExecuteSell order_id trading_pair amount order_type price).

(** ** Cancellation *)

(** An awaited answer that may not have arrived when the waiting stops. *)
Inductive Await (A : Type) : Type :=
| Resolved (r : ApiResult A)
| Unresolved.

Arguments Resolved {A} r.
Arguments Unresolved {A}.

Inductive TaskResult (A : Type) : Type :=
| Returned (a : A)
| Raised (e : Exn)
| Waiting.

Arguments Returned {A} a.
Arguments Raised {A} e.
Arguments Waiting {A}.

(** The answer to a cancel request, as far as it is read:
    [response.get("status")]. *)
Definition CancelReply : Type := Await (option PyStr).

Definition cancel_request (order_id : string) : ApiRequest :=
  mkApiRequest "DELETE" ("/api/2/order/" ++ order_id) [] None true.

(** The answer the request layer makes of an HTTP status and a parsed body,
    read the way [execute_cancel] reads it.  Strings that come out of the
    JSON decoder are fresh objects; [response.get] on a body that is not an
    object raises [AttributeError] inside the [try]. *)
Definition cancel_reply_of (http_status : Z) (parsed_response : option Json)
  : CancelReply :=
  match api_response http_status parsed_response with
  | Failure e => Resolved (Failure e)
  | Response (JDict items) =>
      match json_get "status" (JDict items) with
      | Ok (JStr s) => Resolved (Response (Some (mkPyStr s false)))
      | _ => Resolved (Response None)
      end
  | Response _ => Resolved (Failure AttributeError)
  end.

(** [execute_cancel].  An unknown order raises [ValueError] inside the
    [try], which the last handler logs.  The assignments to
    [tracked_order.last_state] follow [c_stop_tracking_order] and change an
    object the registry no longer holds.  [CancelledError] is not an
    [Exception] and passes the handlers. *)
Definition execute_cancel (st : Market) (trading_pair order_id : string)
  (reply : CancelReply) : Market * TaskResult (option string) :=
  match dict_get order_id (in_flight_orders st) with
  | None => (logger st NETWORK FailedToCancelOrder order_id, Returned None)
  | Some tracked_order =>
      let st := api_request st (cancel_request order_id) in
      match reply with
      | Unresolved => (st, Waiting)
      | Resolved (Response status) =>
          let st :=
            if py_is status "canceled" then
              let st := c_stop_tracking_order st order_id in
              c_trigger_event st
                (OrderCancelledEvent (current_timestamp st) order_id)
            else st in
          (st, Returned (Some order_id))
      | Resolved (Failure (HitBTCAPIError error_payload)) =>
          match py_in "20002" error_payload with
          | Raise e => (st, Raised e)
          | Ok true =>
              let st := logger st INFO OrderDoesNotExist order_id in
              let st := c_stop_tracking_order st order_id in
              (c_trigger_event st
                 (OrderCancelledEvent (current_timestamp st) order_id),
               Returned (Some order_id))
          | Ok false => (st, Returned (Some order_id))
          end
      | Resolved (Failure CancelledError) => (st, Raised CancelledError)
      | Resolved (Failure _) =>
          (logger st NETWORK FailedToCancelOrder order_id, Returned None)
      end
  end.

Definition c_cancel (trading_pair order_id : string) : string * Task :=
  (order_id, ExecuteCancel trading_pair order_id).

Record CancellationResult : Type := mkCancellationResult {
  result_order_id : string;
  success : bool
}.

(** [list.remove]: [None] where Python raises [ValueError]. *)
Fixpoint list_remove (x : string) (l : list string) : option (list string) :=
  match l with
  | [] => None
  | y :: rest =>
      if String.eqb y x then Some rest
      else option_map (cons y) (list_remove x rest)
  end.

(** The cancel tasks of [cancel_all], each started and run as far as the
    venue's answers allow.  Their effects are taken in the order of the
    tasks. *)
Fixpoint run_cancel_tasks (st : Market) (open_orders : list InFlightOrder)
  (replies : string -> CancelReply)
  : Market * list (TaskResult (option string)) :=
  match open_orders with
  | [] => (st, [])
  | o :: rest =>
      let '(st, r) :=
        execute_cancel st (trading_pair o) (client_order_id o)
          (replies (client_order_id o)) in
      let '(st, rs) := run_cancel_tasks st rest replies in
      (st, r :: rs)
  end.

Definition is_waiting {A : Type} (r : TaskResult A) : bool :=
  match r with
  | Waiting => true
  | _ => false
  end.

(** The loop over the gathered [results]; the flag tells that
    [cancel_order_ids.remove] raised. *)
Fixpoint report_results (st : Market)
  (results : list (TaskResult (option string)))
  (cancel_order_ids : list string)
  (cancellation_results : list CancellationResult)
  : Market * list string * list CancellationResult * bool :=
  match results with
  | [] => (st, cancel_order_ids, cancellation_results, false)
  | Returned (Some client_order_id) :: rest =>
      match list_remove client_order_id cancel_order_ids with
      | Some ids =>
          report_results st rest ids
            (cancellation_results
               ++ [mkCancellationResult client_order_id true])
      | None => (st, cancel_order_ids, cancellation_results, true)
      end
  | _ :: rest =>
      report_results (logger st WARNING FailedToCancelAllOrders "") rest
        cancel_order_ids cancellation_results
  end.

(** [cancel_all].  The timeout is in the answers: it expires, and raises
    [TimeoutError] inside the [try], exactly when a task is still waiting
    for its answer. *)
Definition cancel_all (st : Market) (replies : string -> CancelReply)
  : Market * list CancellationResult :=
  let open_orders := filter is_open (dict_values (in_flight_orders st)) in
  if (List.length open_orders =? 0)%nat then (st, [])
  else
    let cancel_order_ids := map client_order_id open_orders in
    let st := logger st DEBUG CancelOrderIds "" in
    let '(st, results) := run_cancel_tasks st open_orders replies in
    let '(st, cancel_order_ids, cancellation_results) :=
      if existsb is_waiting results then
        (logger st NETWORK FailedToCancelAllOrders "", cancel_order_ids, [])
      else
        let '(st, ids, reported, raised) :=
          report_results st results cancel_order_ids [] in
        (if raised then logger st NETWORK FailedToCancelAllOrders "" else st,
         ids, reported) in
    (st,
     cancellation_results
       ++ map (fun oid => mkCancellationResult oid false) cancel_order_ids).

(** ** Notions used in the statements *)

(** The registry holds [o] under its own client order id, as
    [c_start_tracking_order] enters it. *)
Definition tracked (st : Market) (o : InFlightOrder) : Prop :=
  dict_get (client_order_id o) (in_flight_orders st) = Some o.

(** The order object as [update_tracked_order] leaves it. *)
Definition updated_order (tracked_order : InFlightOrder)
  (order_update : OrderUpdate) : InFlightOrder :=
  let o := set_last_state tracked_order (upd_status order_update) in
  let new_confirmed_amount := upd_cumQuantity order_update in
  if ((new_confirmed_amount - executed_amount_base o) >? s_decimal_0)%dec
  then
    set_fee_paid
      (set_executed o new_confirmed_amount
         (upd_price order_update * new_confirmed_amount)%dec)
      ((upd_price order_update * new_confirmed_amount)
       * percent (c_get_fee (base_asset o) (quote_asset o) (order_type o)
                    (trade_type o) (upd_price order_update)
                    (new_confirmed_amount - executed_amount_base o)))%dec
  else o.

(** Every update of the sequence reaches the order while the registry still
    holds it. *)
Fixpoint delivered_while_tracked (st : Market) (order_id : string)
  (updates : list OrderUpdate) : Prop :=
  match updates with
  | [] => True
  | u :: rest =>
      dict_mem order_id (in_flight_orders st) = true
      /\ delivered_while_tracked (poll_order st order_id u) order_id rest
  end.

(** The reported cumulative quantities never decrease, starting from
    [floor]. *)
Fixpoint cumulative_nondecreasing (floor : Decimal) (updates : list OrderUpdate)
  : Prop :=
  match updates with
  | [] => True
  | u :: rest =>
      (Dec.to_Q floor <= Dec.to_Q (upd_cumQuantity u))%Q
      /\ cumulative_nondecreasing (upd_cumQuantity u) rest
  end.

(** The cumulative quantity reported last, [floor] when there is none. *)
Definition final_cumulative (floor : Decimal) (updates : list OrderUpdate)
  : Decimal :=
  last (map upd_cumQuantity updates) floor.

(** The fill event of a status update, and the events that close an order. *)
Definition fill_event (st : Market) (o : InFlightOrder) (u : OrderUpdate)
  : MarketEvent :=
  OrderFilledEvent (current_timestamp st) (client_order_id o) (trading_pair o)
    (trade_type o) (order_type o) (upd_price u)
    (upd_cumQuantity u - executed_amount_base o)%dec
    (mkTradeFee (dec 7 4)) (exchange_order_id o).

Definition completed_event (st : Market) (o : InFlightOrder) : MarketEvent :=
  match trade_type o with
  | BUY =>
      BuyOrderCompletedEvent (current_timestamp st) (client_order_id o)
        (base_asset o) (quote_asset o) (fee_asset_or o (base_asset o))
        (executed_amount_base o) (executed_amount_quote o) (fee_paid o)
        (order_type o)
  | SELL =>
      SellOrderCompletedEvent (current_timestamp st) (client_order_id o)
        (base_asset o) (quote_asset o) (fee_asset_or o (quote_asset o))
        (executed_amount_base o) (executed_amount_quote o) (fee_paid o)
        (order_type o)
  end.

Definition closing_events (st : Market) (o : InFlightOrder)
  : list MarketEvent :=
  if is_open o then []
  else if is_done o then
    if negb (is_cancelled o) then [completed_event st o]
    else [OrderCancelledEvent (current_timestamp st) (client_order_id o)]
  else [].

Definition fill_events (st : Market) (o : InFlightOrder) (u : OrderUpdate)
  : list MarketEvent :=
  if ((upd_cumQuantity u - executed_amount_base o) >? s_decimal_0)%dec
  then [fill_event st o u]
  else [].

(** The order object after the first assignments of the stream listener,
    and the fill event of a stream message. *)
Definition streamed_order (tracked_order : InFlightOrder) (m : StreamMessage)
  : InFlightOrder :=
  set_fee_paid (set_last_state tracked_order (msg_status m))
    (decimal_or_zero (msg_tradeFee m)).

Definition stream_fill_events (st : Market) (o : InFlightOrder)
  (m : StreamMessage) : list MarketEvent :=
  if (decimal_or_zero (msg_tradeQuantity m) >? s_decimal_0)%dec
     && py_is (msg_reportType m) "trade"
  then [OrderFilledEvent (current_timestamp st) (client_order_id o)
          (trading_pair o) (trade_type o) (order_type o)
          (decimal_or_zero (msg_tradePrice m))
          (decimal_or_zero (msg_tradeQuantity m))
          (mkTradeFee (dec 7 4)) (exchange_order_id o)]
  else [].

Definition stream_closing_events (st : Market) (o : InFlightOrder)
  : list MarketEvent :=
  if is_done o then
    if negb (is_cancelled o) then [completed_event st o]
    else [OrderCancelledEvent (current_timestamp st) (client_order_id o)]
  else [].

(** The registry is a dict, with one entry per key, and every order is
    entered under its own client order id. *)
Definition registry_ok (st : Market) : Prop :=
  NoDup (map fst (in_flight_orders st))
  /\ Forall (fun kv => client_order_id (snd kv) = fst kv) (in_flight_orders st).

(** How the cancel task of a registered order ends, according to the answer
    to its request. *)
Definition task_result (order_id : string) (reply : CancelReply)
  : TaskResult (option string) :=
  match reply with
  | Unresolved => Waiting
  | Resolved (Response _) => Returned (Some order_id)
  | Resolved (Failure (HitBTCAPIError error_payload)) =>
      match py_in "20002" error_payload with
      | Raise e => Raised e
      | Ok _ => Returned (Some order_id)
      end
  | Resolved (Failure CancelledError) => Raised CancelledError
  | Resolved (Failure _) => Returned None
  end.

Definition is_unresolved (reply : CancelReply) : bool :=
  match reply with
  | Unresolved => true
  | Resolved _ => false
  end.

(** The venue answered the cancel request with the order, now canceled. *)
Definition venue_confirmed (reply : CancelReply) : bool :=
  match reply with
  | Resolved (Response (Some status)) => String.eqb (str_chars status) "canceled"
  | _ => false
  end.

(** The request ended in the request layer, without an answer of the venue:
    a transport or parse error, or the cancellation of the task. *)
Definition request_failed (reply : CancelReply) : bool :=
  match reply with
  | Resolved (Failure (HitBTCAPIError _)) => false
  | Resolved (Failure _) => true
  | _ => false
  end.

(** The open orders [cancel_all] starts from, by id. *)
Definition open_order_ids (st : Market) : list string :=
  map client_order_id (filter is_open (dict_values (in_flight_orders st))).

(** The exception [place_order] raises for an answer, if any. *)
Definition reply_error (reply : PlaceReply) : option Exn :=
  match reply with
  | Failure e => Some e
  | Response None => Some KeyError
  | Response (Some _) => None
  end.

(** The price [execute_buy] and [execute_sell] submit. *)
Definition submitted_price {base : MarketBase} (st : Market) (symbol : string)
  (order_type : OrderType) (price : Decimal) : Outcome Decimal :=
  match order_type with
  | LIMIT => c_quantize_order_price st symbol price
  | MARKET => Ok s_decimal_0
  end.

(** ** Scenarios

    A limit buy of 1.0 ETHBTC at 100, filled for 0.4 at 100 and then
    completely at 101. *)

Definition idle_market : Market := mkMarket [] [] 0 0 [] [] [].

Definition scenario_order : InFlightOrder :=
  HitBTCInFlightOrder "buy-ETHBTC-1" "77" "ETHBTC" LIMIT BUY
    (dec 100 0) (dec 10 1).

Definition scenario_market : Market :=
  c_start_tracking_order idle_market "buy-ETHBTC-1" "77" "ETHBTC" LIMIT BUY
    (dec 100 0) (dec 10 1).

Definition partial_fill : OrderUpdate :=
  mkOrderUpdate "partiallyFilled" (dec 4 1) (dec 100 0).

Definition full_fill : OrderUpdate :=
  mkOrderUpdate "filled" (dec 10 1) (dec 101 0).

(** A trade report of the user stream for 0.4 at 100, the order still
    open, whose [reportType] is the string object of the literal. *)
Definition trade_report : StreamMessage :=
  mkStreamMessage "partiallyFilled" "buy-ETHBTC-1"
    (Some (dec 100 0)) (Some (dec 4 1)) (Some (dec 28 3))
    (Some (mkPyStr "trade" true)).

(** A status update that reports 2.0 executed for the order of 1.0. *)
Definition overfill : OrderUpdate :=
  mkOrderUpdate "partiallyFilled" (dec 20 1) (dec 100 0).

(** A status update whose status is none of the recognized six. *)
Definition odd_update : OrderUpdate :=
  mkOrderUpdate "pendingCancel" (dec 4 1) (dec 100 0).

Definition odd_message : StreamMessage :=
  mkStreamMessage "pendingCancel" "buy-ETHBTC-1" None None None None.

(** The body with which the venue answers, under HTTP status 400, a cancel
    request for an order it does not know. *)
Definition order_not_found_items : list (string * Json) :=
  [("error",
    JDict [("code", JNum 20002);
           ("message", JStr "Order not found");
           ("description", JStr "")])].

Definition order_not_found_body : Json := JDict order_not_found_items.

(** Two open orders; the venue confirms the cancellation of the first and
    has not answered for the second when the timeout expires. *)
Definition two_open_orders : Market :=
  c_start_tracking_order scenario_market "sell-ETHBTC-2" "78" "ETHBTC" LIMIT
    SELL (dec 120 0) (dec 5 1).

Definition confirmed_then_silent (order_id : string) : CancelReply :=
  if String.eqb order_id "buy-ETHBTC-1"
  then cancel_reply_of 200 (Some (JDict [("status", JStr "canceled")]))
  else Unresolved.

Definition all_confirmed (order_id : string) : CancelReply :=
  cancel_reply_of 200 (Some (JDict [("status", JStr "canceled")])).

(** The venue answers every cancel request with an error that is not the
    unknown order: too many requests. *)
Definition all_rejected (order_id : string) : CancelReply :=
  cancel_reply_of 429
    (Some (JDict [("error",
                   JDict [("code", JNum 429);
                          ("message", JStr "Too many requests")])])).

(** A host class that leaves amounts and prices as they are, and a market
    whose rule for ETHBTC has the increment, and so the minimum, 0.001. *)
Definition plain_host : MarketBase :=
  {| MarketBase_c_quantize_order_amount := fun _ _ a => Ok a;
     c_quantize_order_price := fun _ _ p => Ok p;
     c_get_price := fun _ _ _ => Ok (dec 100 0) |}.

Definition ETHBTC_rule : TradingRule :=
  mkTradingRule "ETHBTC" (dec 1 3) (Dec.mk 1 56) (dec 1 6) (dec 1 3) (dec 1 6).

Definition ruled_market : Market :=
  mkMarket [] [("ETHBTC", ETHBTC_rule)] 0 0 [] [] [].

(** Three readings of the wall clock, as the floats they are: a mantissa
    of 53 bits times [2 ^ -22], which is how far apart the floats lie at
    this date.  In Python they print as [1700000000.1234562],
    [1700000000.1234567] and [1700000000.123457]. *)
Definition early_reading : spec_float :=
  S754_finite false 7130316800517813 (-22).
Definition late_reading : spec_float :=
  S754_finite false 7130316800517815 (-22).
Definition later_reading : spec_float :=
  S754_finite false 7130316800517816 (-22).

(** The whole microseconds in a reading, computed exactly. *)
Definition whole_microseconds (now : spec_float) : Z :=
  match now with
  | S754_finite false m e =>
      if (0 <=? e)%Z then Z.pos m * 2 ^ e * 1000000
      else Z.quot (Z.pos m * 1000000) (2 ^ (- e))
  | _ => 0
  end.

(** What [json] decoding gives for a string: a string object of its own,
    never the object of a literal of the program. *)
Definition decoded (x : option PyStr) : bool :=
  match x with
  | Some s => negb (str_interned s)
  | None => true
  end.

(** The trade report for 0.4 at 100 as the stream delivers it, its
    [reportType] decoded. *)
Definition decoded_trade_report : StreamMessage :=
  mkStreamMessage "partiallyFilled" "buy-ETHBTC-1"
    (Some (dec 100 0)) (Some (dec 4 1)) (Some (dec 28 3))
    (Some (mkPyStr "trade" false)).

(** The scenario after its first update. *)
Definition half_filled_market : Market :=
  poll_order scenario_market "buy-ETHBTC-1" partial_fill.

Definition half_filled_order : InFlightOrder :=
  updated_order scenario_order partial_fill.

(** ** Further notions *)

(** The client order ids the registry holds, in its order. *)
Definition registry_keys (st : Market) : list string :=
  map fst (in_flight_orders st).

(** A step keeps the registry a dict of orders under their own ids, and
    adds no id to it. *)
Definition keeps_registry (before after : Market) : Prop :=
  (registry_ok before -> registry_ok after)
  /\ incl (registry_keys after) (registry_keys before).

(** A reply to a status request that makes [_update_order_status] raise: an
    exception that is not a [HitBTCAPIError], an API error whose payload has
    no error object to read the code from, or an empty list. *)
Definition reply_aborts (reply : StatusReply) : bool :=
  match reply with
  | Failure (HitBTCAPIError error_payload) =>
      match (err <- json_get "error" error_payload ;; json_get "code" err) with
      | Raise _ => true
      | Ok _ => false
      end
  | Failure _ => true
  | Response [] => true
  | Response (_ :: _) => false
  end.

(** The ids up to the first one that satisfies [stops], that one included. *)
Fixpoint through_first (stops : string -> bool) (ids : list string)
  : list string :=
  match ids with
  | [] => []
  | i :: rest => if stops i then [i] else i :: through_first stops rest
  end.

(** The gate of [_update_order_status]. *)
Definition status_poll_due (st : Market) : bool :=
  (tick (current_timestamp st) UPDATE_ORDERS_INTERVAL
   >? tick (last_poll_timestamp st) UPDATE_ORDERS_INTERVAL)%Z
  && (0 <? List.length (in_flight_orders st))%nat.

(** The client order ids of the orders a polling cycle walks through. *)
Definition registry_keys_of_values (st : Market) : list string :=
  map client_order_id (dict_values (in_flight_orders st)).

(** A trade report of the user stream that fills the whole order of 1.0 at
    100, its [reportType] the string object of the literal. *)
Definition filled_report : StreamMessage :=
  mkStreamMessage "filled" "buy-ETHBTC-1"
    (Some (dec 100 0)) (Some (dec 10 1)) (Some (dec 7 2))
    (Some (mkPyStr "trade" true)).

(** The cancel task handed back the order id. *)
Definition returns_id (r : TaskResult (option string)) : bool :=
  match r with
  | Returned (Some _) => true
  | _ => false
  end.

(** The venue answered the cancel request: with the order, or with an error
    object in which the test for ["20002"] can be made. *)
Definition venue_answered (reply : CancelReply) : bool :=
  match reply with
  | Resolved (Response _) => true
  | Resolved (Failure (HitBTCAPIError error_payload)) =>
      match py_in "20002" error_payload with
      | Ok _ => true
      | Raise _ => false
      end
  | _ => false
  end.

(** The venue rejects the cancel request of the first order with an error
    object; the request of the second fails in the request layer. *)
Definition rejected_then_dropped (order_id : string) : CancelReply :=
  if String.eqb order_id "buy-ETHBTC-1"
  then all_rejected order_id
  else Resolved (Failure IOError).

(** ** Trading rules *)

(** An entry of the symbol list of the venue, as far as it is read.  A field
    is [None] when the key is missing or its value is no decimal, which
    makes the construction of the rule raise. *)
Record SymbolInfo : Type := mkSymbolInfo {
  info_id : option string;
  info_quantityIncrement : option Decimal;
  info_tickSize : option Decimal
}.

(** The rule [_format_trading_rules] builds from an entry, if the
    construction does not raise.  [default_max_order_size] is what the rule
    class takes when, as here, no maximum is given. *)
Definition rule_of_info (default_max_order_size : Decimal) (info : SymbolInfo)
  : option TradingRule :=
  match info_id info, info_quantityIncrement info, info_tickSize info with
  | Some id, Some quantityIncrement, Some tickSize =>
      Some (mkTradingRule id quantityIncrement default_max_order_size
              tickSize quantityIncrement tickSize)
  | _, _, _ => None
  end.

(** [_format_trading_rules]: the rules, and the entries skipped with an
    error in the log. *)
Fixpoint format_trading_rules (default_max_order_size : Decimal)
  (raw_symbol_info : list SymbolInfo) : list TradingRule * list SymbolInfo :=
  match raw_symbol_info with
  | [] => ([], [])
  | info :: rest =>
      let '(trading_rules, skipped) :=
        format_trading_rules default_max_order_size rest in
      match rule_of_info default_max_order_size info with
      | Some rule => (rule :: trading_rules, skipped)
      | None => (trading_rules, info :: skipped)
      end
  end.

Definition set_trading_rules (st : Market)
  (rules : list (string * TradingRule)) : Market :=
  mkMarket (in_flight_orders st) rules (current_timestamp st)
    (last_poll_timestamp st) (events st) (log st) (requests st).

Definition symbol_request : ApiRequest :=
  mkApiRequest "GET" "/api/2/public/symbol" [] None false.

(** The gate of [_update_trading_rules]; [last_timestamp] is the attribute
    [_last_timestamp] that [c_tick] keeps. *)
Definition trading_rules_due (st : Market) (last_timestamp : Q) : bool :=
  (tick (current_timestamp st) (60 # 1) >? tick last_timestamp (60 # 1))%Z
  || (List.length (trading_rules st) <? 1)%nat.

(** [_update_trading_rules]: the table is cleared and filled again from the
    answer.  The entries [_format_trading_rules] skips are its second
    component; their error lines are not entered in [log]. *)
Definition update_trading_rules (st : Market) (last_timestamp : Q)
  (default_max_order_size : Decimal) (reply : ApiResult (list SymbolInfo))
  : Market * Outcome unit :=
  if trading_rules_due st last_timestamp then
    let st := api_request st symbol_request in
    match reply with
    | Failure e => (st, Raise e)
    | Response exchange_info =>
        let trading_rules_list :=
          fst (format_trading_rules default_max_order_size exchange_info) in
        (set_trading_rules st
           (fold_left
              (fun table trading_rule =>
                 dict_set (rule_trading_pair trading_rule) trading_rule table)
              trading_rules_list []),
         Ok tt)
    end
  else (st, Ok tt).

(** The last rule of a list for a pair. *)
Definition last_rule_for (pair : string) (rules : list TradingRule)
  : option TradingRule :=
  find (fun r => String.eqb (rule_trading_pair r) pair) (rev rules).

(** ** Balances *)

(** An entry of the balance list of the venue, with its currency and its two
    amounts read as decimals. *)
Record BalanceEntry : Type := mkBalanceEntry {
  bal_currency : string;
  bal_available : Decimal;
  bal_reserved : Decimal
}.

(** The two balance dicts of the connector. *)
Record Account : Type := mkAccount {
  account_available_balances : list (string * Decimal);
  account_balances : list (string * Decimal)
}.

(** [d[k] += x] for a key that is in the dict. *)
Definition dict_increase (k : string) (x : Decimal)
  (d : list (string * Decimal)) : list (string * Decimal) :=
  match dict_get k d with
  | Some v => dict_set k (v + x)%dec d
  | None => d
  end.

(** The loop of [_update_balances] over the entries of the answer. *)
Fixpoint collect_balances (balances : list BalanceEntry)
  (new_available_balances new_balances : list (string * Decimal))
  : list (string * Decimal) * list (string * Decimal) :=
  match balances with
  | [] => (new_available_balances, new_balances)
  | balance_entry :: rest =>
      let asset_name := bal_currency balance_entry in
      let available_balance := bal_available balance_entry in
      let balance :=
        (bal_available balance_entry + bal_reserved balance_entry)%dec in
      if (balance ==? s_decimal_0)%dec then
        collect_balances rest new_available_balances new_balances
      else
        let new_available_balances :=
          if dict_mem asset_name new_available_balances
          then new_available_balances
          else dict_set asset_name s_decimal_0 new_available_balances in
        let new_balances :=
          if dict_mem asset_name new_balances then new_balances
          else dict_set asset_name s_decimal_0 new_balances in
        let new_balances := dict_increase asset_name balance new_balances in
        let new_available_balances :=
          dict_increase asset_name available_balance new_available_balances in
        collect_balances rest new_available_balances new_balances
  end.

Definition balance_request : ApiRequest :=
  mkApiRequest "GET" "/api/2/trading/balance" [] None true.

(** [_update_balances]. *)
Definition update_balances (st : Market) (account : Account)
  (reply : ApiResult (list BalanceEntry)) : Market * Account * Outcome unit :=
  let st := api_request st balance_request in
  match reply with
  | Failure e => (st, account, Raise e)
  | Response balances =>
      if (0 <? List.length balances)%nat then
        let '(new_available_balances, new_balances) :=
          collect_balances balances [] [] in
        (st, mkAccount new_available_balances new_balances, Ok tt)
      else (st, account, Ok tt)
  end.

(** The entries of an answer that count for an asset: those of the asset
    whose available and reserved amounts do not add up to zero. *)
Definition counted_entries (asset : string) (balances : list BalanceEntry)
  : list BalanceEntry :=
  filter
    (fun e =>
       String.eqb (bal_currency e) asset
       && negb ((bal_available e + bal_reserved e) ==? s_decimal_0)%dec)
    balances.

(** The amounts added up from zero in the order of the answer; no balance
    when there is nothing to add. *)
Definition added_up (amounts : list Decimal) : option Decimal :=
  match amounts with
  | [] => None
  | _ => Some (fold_left Dec.add amounts s_decimal_0)
  end.

(** The amounts added, in order, to what a dict holds for a key: [start] is
    the entry before the first addition, taken as zero when there is
    none. *)
Definition running_total (start : option Decimal) (amounts : list Decimal)
  : option Decimal :=
  match amounts with
  | [] => start
  | _ =>
      Some (fold_left Dec.add amounts
              (match start with Some v => v | None => s_decimal_0 end))
  end.

Definition entry_total (e : BalanceEntry) : Decimal :=
  (bal_available e + bal_reserved e)%dec.

Definition adds_to_zero (e : BalanceEntry) : bool :=
  (entry_total e ==? s_decimal_0)%dec.

(** An answer with two entries for BTC, one for ETH that adds up to zero and
    one for USD. *)
Definition scenario_balances : list BalanceEntry :=
  [ mkBalanceEntry "BTC" (dec 15 1) (dec 5 1);
    mkBalanceEntry "ETH" (dec 0 0) (dec 0 0);
    mkBalanceEntry "BTC" (dec 1 0) (dec 0 0);
    mkBalanceEntry "USD" (dec 0 0) (dec 100 0) ].

Definition empty_account : Account := mkAccount [] [].

(** An answer whose entries all add up to zero. *)
Definition zero_balances : list BalanceEntry :=
  [ mkBalanceEntry "BTC" (dec 0 0) (dec 0 0);
    mkBalanceEntry "ETH" (dec 0 0) (dec 0 0) ].

(** An answer with two entries for ETHBTC and one without its tick size. *)
Definition scenario_symbols : list SymbolInfo :=
  [ mkSymbolInfo (Some "ETHBTC") (Some (dec 1 3)) (Some (dec 1 6));
    mkSymbolInfo (Some "LTCBTC") (Some (dec 1 2)) None;
    mkSymbolInfo (Some "ETHBTC") (Some (dec 1 4)) (Some (dec 1 5)) ].

Definition scenario_max_order_size : Decimal := dec 1000000 0.

(** ** Readiness *)

(** [status_dict]; [order_books_ready] is [_order_book_tracker.ready]. *)
Record StatusDict : Type := mkStatusDict {
  order_books_initialized : bool;
  account_balance : bool;
  trading_rule_initialized : bool
}.

Definition status_dict (order_books_ready trading_required : bool)
  (st : Market) (account : Account) : StatusDict :=
  mkStatusDict order_books_ready
    (if trading_required
     then (0 <? List.length (account_balances account))%nat
     else true)
    (0 <? List.length (trading_rules st))%nat.

Definition ready (order_books_ready trading_required : bool)
  (st : Market) (account : Account) : bool :=
  let d := status_dict order_books_ready trading_required st account in
  forallb (fun b => b)
    [order_books_initialized d; account_balance d; trading_rule_initialized d].

(** ** Network check *)

Inductive NetworkStatus : Type := CONNECTED | NOT_CONNECTED.

Definition currency_request : ApiRequest :=
  mkApiRequest "GET" "/api/2/public/currency/BTC" [] None false.

(** [check_network]: a cancellation passes through, any other exception is
    answered with [NOT_CONNECTED]. *)
Definition check_network (st : Market) (reply : ApiResult Json)
  : Market * Outcome NetworkStatus :=
  let st := api_request st currency_request in
  match reply with
  | Response _ => (st, Ok CONNECTED)
  | Failure CancelledError => (st, Raise CancelledError)
  | Failure _ => (st, Ok NOT_CONNECTED)
  end.

(** ** Clock ticks *)

(** What [c_tick] reads and writes of the connector: [_last_timestamp], and
    whether [_poll_notifier] is set. *)
Record PollClock : Type := mkPollClock {
  last_timestamp : Q;
  poll_notifier_set : bool
}.

(** [c_tick], without its calls into the base class and the transaction
    tracker. *)
Definition c_tick (poll_interval : Q) (clock : PollClock) (timestamp : Q)
  : PollClock :=
  let last_tick := tick (last_timestamp clock) poll_interval in
  let current_tick := tick timestamp poll_interval in
  mkPollClock timestamp
    (if (current_tick >? last_tick)%Z
     then (if negb (poll_notifier_set clock) then true
           else poll_notifier_set clock)
     else poll_notifier_set clock).

(** ** Saved tracking states *)

(** [d.update(other)]. *)
Definition dict_update {V : Type} (d other : list (string * V))
  : list (string * V) :=
  fold_left (fun acc kv => dict_set (fst kv) (snd kv) acc) other d.

Section TrackingStates.

(** The saved form of an order, with [to_json] and [from_json] of the order
    class; [from_json] raises on a saved form it cannot read. *)
Variable SavedState : Type.
Variable to_json : InFlightOrder -> SavedState.
Variable from_json : SavedState -> Outcome InFlightOrder.

Definition tracking_states (st : Market) : list (string * SavedState) :=
  map (fun kv => (fst kv, to_json (snd kv))) (in_flight_orders st).

(** The dict comprehension of [restore_tracking_states], filling [acc]. *)
Fixpoint restored_orders (saved_states : list (string * SavedState))
  (acc : list (string * InFlightOrder))
  : Outcome (list (string * InFlightOrder)) :=
  match saved_states with
  | [] => Ok acc
  | (key, value) :: rest =>
      o <- from_json value ;;
      restored_orders rest (dict_set key o acc)
  end.

Definition restore_tracking_states (st : Market)
  (saved_states : list (string * SavedState)) : Market * Outcome unit :=
  match restored_orders saved_states [] with
  | Ok orders =>
      (set_in_flight_orders st (dict_update (in_flight_orders st) orders),
       Ok tt)
  | Raise e => (st, Raise e)
  end.

End TrackingStates.

(** ** Pair names *)

(** [convert_to_exchange_trading_pair]: [trading_pair.replace("-", "")]. *)
Fixpoint convert_to_exchange_trading_pair (trading_pair : string) : string :=
  match trading_pair with
  | EmptyString => EmptyString
  | String c rest =>
      if Ascii.eqb c "-"%char then convert_to_exchange_trading_pair rest
      else String c (convert_to_exchange_trading_pair rest)
  end.

(** The name [convert_from_exchange_trading_pair] formats from the two
    assets. *)
Definition hyphenated (base_asset quote_asset : string) : string :=
  (base_asset ++ "-" ++ quote_asset)%string.

Fixpoint has_hyphen (s : string) : bool :=
  match s with
  | EmptyString => false
  | String c rest => Ascii.eqb c "-"%char || has_hyphen rest
  end.

(** ** Starting and stopping the network tasks *)

(** The coroutines [start_network] schedules. *)
Inductive Coroutine : Type :=
| trading_rules_polling_loop
| status_polling_loop
| user_stream_tracker_start
| user_stream_event_listener.

(** The tasks of the connector.  A task is named by its position in
    [spawned], the coroutines scheduled so far; [cancel_requested] lists the
    tasks whose [cancel()] was called.  The four handles are the attributes
    of the same names. *)
Record Network : Type := mkNetwork {
  spawned : list Coroutine;
  cancel_requested : list nat;
  order_book_tracker_started : bool;
  status_polling_task : option nat;
  user_stream_tracker_task : option nat;
  user_stream_event_listener_task : option nat;
  trading_rules_polling_task : option nat
}.

(** [safe_ensure_future(coro)]: the new task. *)
Definition safe_ensure_future (net : Network) (coro : Coroutine)
  : Network * nat :=
  (mkNetwork (spawned net ++ [coro]) (cancel_requested net)
     (order_book_tracker_started net) (status_polling_task net)
     (user_stream_tracker_task net) (user_stream_event_listener_task net)
     (trading_rules_polling_task net),
   List.length (spawned net)).

(** [if task is not None: task.cancel()]. *)
Definition cancel_if_set (net : Network) (task : option nat) : Network :=
  match task with
  | Some t =>
      mkNetwork (spawned net) (t :: cancel_requested net)
        (order_book_tracker_started net) (status_polling_task net)
        (user_stream_tracker_task net) (user_stream_event_listener_task net)
        (trading_rules_polling_task net)
  | None => net
  end.

Definition start_network (trading_required : bool) (net : Network)
  : Network :=
  let net :=
    mkNetwork (spawned net) (cancel_requested net) true
      (status_polling_task net) (user_stream_tracker_task net)
      (user_stream_event_listener_task net) (trading_rules_polling_task net) in
  let '(net, rules_task) := safe_ensure_future net trading_rules_polling_loop in
  let net :=
    mkNetwork (spawned net) (cancel_requested net)
      (order_book_tracker_started net) (status_polling_task net)
      (user_stream_tracker_task net) (user_stream_event_listener_task net)
      (Some rules_task) in
  if trading_required then
    let '(net, status_task) := safe_ensure_future net status_polling_loop in
    let '(net, tracker_task) :=
      safe_ensure_future net user_stream_tracker_start in
    let '(net, listener_task) :=
      safe_ensure_future net user_stream_event_listener in
    mkNetwork (spawned net) (cancel_requested net)
      (order_book_tracker_started net) (Some status_task) (Some tracker_task)
      (Some listener_task) (trading_rules_polling_task net)
  else net.

(** [_stop_network], which is all [stop_network] calls: the handle of the
    trading rules task is not among those it resets. *)
Definition stop_network (net : Network) : Network :=
  let net :=
    mkNetwork (spawned net) (cancel_requested net) false
      (status_polling_task net) (user_stream_tracker_task net)
      (user_stream_event_listener_task net) (trading_rules_polling_task net) in
  let net := cancel_if_set net (status_polling_task net) in
  let net := cancel_if_set net (user_stream_tracker_task net) in
  let net := cancel_if_set net (user_stream_event_listener_task net) in
  let net := cancel_if_set net (trading_rules_polling_task net) in
  mkNetwork (spawned net) (cancel_requested net)
    (order_book_tracker_started net) None None None
    (trading_rules_polling_task net).

(** A task that was scheduled and not cancelled. *)
Definition running (net : Network) (task : nat) : bool :=
  (task <? List.length (spawned net))%nat
  && negb (existsb (Nat.eqb task) (cancel_requested net)).

(** The tasks the four handles refer to. *)
Definition held_tasks (net : Network) : list nat :=
  flat_map (fun task => match task with Some t => [t] | None => [] end)
    [status_polling_task net; user_stream_tracker_task net;
     user_stream_event_listener_task net; trading_rules_polling_task net].

(** The handles and the cancellations refer to tasks that were scheduled. *)
Definition tasks_were_spawned (net : Network) : bool :=
  forallb (fun t => (t <? List.length (spawned net))%nat)
    (cancel_requested net ++ held_tasks net).

Definition no_network : Network :=
  mkNetwork [] [] false None None None None.

(** ** Facts about decimals *)

Lemma ten_pow_Q (k : Z) : 0 <= k -> inject_Z (10 ^ k) == (10 # 1) ^ k.
Proof.
  intros Hk. rewrite Zpower_Qpower by assumption. reflexivity.
Qed.

Lemma ten_Q_nonzero : ~ (10 # 1) == 0.
Proof. intro H. discriminate H. Qed.

Lemma ten_pow_Q_pos (k : Z) : (0 < (10 # 1) ^ k)%Q.
Proof. apply Qpower_0_lt. reflexivity. Qed.

Lemma scale_to_Q (c e m : Z) :
  m <= e ->
  inject_Z (c * 10 ^ (e - m)) * (10 # 1) ^ m == inject_Z c * (10 # 1) ^ e.
Proof.
  intros Hm.
  rewrite inject_Z_mult, ten_pow_Q by lia.
  replace e with ((e - m) + m) at 2 by lia.
  rewrite (Qpower_plus _ (e - m) m ten_Q_nonzero).
  ring.
Qed.

Lemma to_Q_sub (a b : Decimal) :
  Dec.to_Q (a - b)%dec == Dec.to_Q a - Dec.to_Q b.
Proof.
  unfold Dec.sub, Dec.align, Dec.to_Q; cbn [Dec.coef Dec.expo].
  unfold Z.sub at 1. rewrite inject_Z_plus, inject_Z_opp.
  set (m := Z.min (Dec.expo a) (Dec.expo b)).
  assert (Ha : m <= Dec.expo a) by (subst m; lia).
  assert (Hb : m <= Dec.expo b) by (subst m; lia).
  rewrite <- (scale_to_Q (Dec.coef a) _ m Ha).
  rewrite <- (scale_to_Q (Dec.coef b) _ m Hb).
  ring.
Qed.

Lemma to_Q_add (a b : Decimal) :
  Dec.to_Q (a + b)%dec == Dec.to_Q a + Dec.to_Q b.
Proof.
  unfold Dec.add, Dec.align, Dec.to_Q; cbn [Dec.coef Dec.expo].
  rewrite inject_Z_plus.
  set (m := Z.min (Dec.expo a) (Dec.expo b)).
  assert (Ha : m <= Dec.expo a) by (subst m; lia).
  assert (Hb : m <= Dec.expo b) by (subst m; lia).
  rewrite <- (scale_to_Q (Dec.coef a) _ m Ha).
  rewrite <- (scale_to_Q (Dec.coef b) _ m Hb).
  ring.
Qed.

Lemma to_Q_mul (a b : Decimal) :
  Dec.to_Q (a * b)%dec == Dec.to_Q a * Dec.to_Q b.
Proof.
  unfold Dec.mul, Dec.to_Q; cbn [Dec.coef Dec.expo].
  rewrite inject_Z_mult, (Qpower_plus _ _ _ ten_Q_nonzero). ring.
Qed.

Lemma to_Q_zero : Dec.to_Q s_decimal_0 == 0.
Proof. reflexivity. Qed.

Lemma ltb_to_Q (a b : Decimal) :
  (a <? b)%dec = true <-> (Dec.to_Q a < Dec.to_Q b)%Q.
Proof.
  unfold Dec.ltb, Dec.align, Dec.to_Q.
  set (m := Z.min (Dec.expo a) (Dec.expo b)).
  assert (Ha : m <= Dec.expo a) by (subst m; lia).
  assert (Hb : m <= Dec.expo b) by (subst m; lia).
  rewrite <- (scale_to_Q (Dec.coef a) _ m Ha).
  rewrite <- (scale_to_Q (Dec.coef b) _ m Hb).
  rewrite (Qmult_lt_r _ _ _ (ten_pow_Q_pos m)).
  rewrite <- Zlt_Qlt. apply Z.ltb_lt.
Qed.

Lemma ltb_to_Q_false (a b : Decimal) :
  (a <? b)%dec = false <-> (Dec.to_Q b <= Dec.to_Q a)%Q.
Proof.
  split; intros H.
  - apply Qnot_lt_le. intros Hlt. apply ltb_to_Q in Hlt. congruence.
  - destruct (a <? b)%dec eqn:E; [|reflexivity].
    apply ltb_to_Q in E. exfalso. apply (Qlt_not_le _ _ E H).
Qed.

Lemma eqb_to_Q (a b : Decimal) :
  (a ==? b)%dec = true <-> Dec.to_Q a == Dec.to_Q b.
Proof.
  unfold Dec.eqb, Dec.align, Dec.to_Q.
  set (m := Z.min (Dec.expo a) (Dec.expo b)).
  assert (Ha : m <= Dec.expo a) by (subst m; lia).
  assert (Hb : m <= Dec.expo b) by (subst m; lia).
  rewrite <- (scale_to_Q (Dec.coef a) _ m Ha).
  rewrite <- (scale_to_Q (Dec.coef b) _ m Hb).
  rewrite Z.eqb_eq. split; intros H.
  - rewrite H. reflexivity.
  - apply Qmult_inj_r in H.
    + apply inject_Z_injective. exact H.
    + apply Qpower_not_0, ten_Q_nonzero.
Qed.

(** ** Facts about the registry and the traces *)

Section DictFacts.
Context {V : Type}.
Implicit Types (d : list (string * V)) (k : string).

Lemma dict_get_set_same k (v : V) d :
  dict_mem k d = true -> dict_get k (dict_set k v d) = Some v.
Proof.
  unfold dict_mem. induction d as [|[k' v'] d IH]; simpl.
  - discriminate.
  - destruct (String.eqb k' k) eqn:E; simpl; rewrite E; auto.
Qed.

Lemma dict_get_del_same k d : dict_get k (dict_del k d) = None.
Proof.
  unfold dict_del. induction d as [|[k' v'] d IH]; simpl; [reflexivity|].
  destruct (String.eqb k' k) eqn:E; simpl; [exact IH|].
  rewrite E. exact IH.
Qed.

Lemma dict_get_set_other k k' (v : V) d :
  k' <> k -> dict_get k' (dict_set k v d) = dict_get k' d.
Proof.
  intros Hne. induction d as [|[k0 v0] d IH]; simpl.
  - destruct (String.eqb k k') eqn:E; [|reflexivity].
    apply String.eqb_eq in E. congruence.
  - destruct (String.eqb k0 k) eqn:E; simpl.
    + apply String.eqb_eq in E. subst k0.
      destruct (String.eqb k k') eqn:E'; [|reflexivity].
      apply String.eqb_eq in E'. congruence.
    + rewrite IH. reflexivity.
Qed.

Lemma dict_get_del_other k k' d :
  k' <> k -> dict_get k' (dict_del k d) = dict_get k' d.
Proof.
  intros Hne. unfold dict_del. induction d as [|[k0 v0] d IH]; simpl; [reflexivity|].
  destruct (String.eqb k0 k) eqn:E; simpl.
  - apply String.eqb_eq in E. subst k0.
    destruct (String.eqb k k') eqn:E'; [|exact IH].
    apply String.eqb_eq in E'. congruence.
  - rewrite IH. reflexivity.
Qed.

Lemma dict_mem_get k d v : dict_get k d = Some v -> dict_mem k d = true.
Proof. unfold dict_mem. intros ->. reflexivity. Qed.

Lemma dict_mem_false k d : dict_mem k d = false -> dict_get k d = None.
Proof. unfold dict_mem. destruct (dict_get k d); [discriminate|reflexivity]. Qed.

End DictFacts.

Lemma events_logger st l m a : events (logger st l m a) = events st.
Proof. reflexivity. Qed.

Lemma events_trigger st e : events (c_trigger_event st e) = events st ++ [e].
Proof. reflexivity. Qed.

Lemma events_api_request st r : events (api_request st r) = events st.
Proof. reflexivity. Qed.

Lemma events_stop st k : events (c_stop_tracking_order st k) = events st.
Proof. unfold c_stop_tracking_order. destruct (dict_mem _ _); reflexivity. Qed.

Lemma events_write_through st o : events (write_through st o) = events st.
Proof. unfold write_through. destruct (dict_mem _ _); reflexivity. Qed.

Lemma events_start st a b c d e f g :
  events (c_start_tracking_order st a b c d e f g) = events st.
Proof. reflexivity. Qed.

Lemma timestamp_logger st l m a :
  current_timestamp (logger st l m a) = current_timestamp st.
Proof. reflexivity. Qed.

Lemma timestamp_trigger st e :
  current_timestamp (c_trigger_event st e) = current_timestamp st.
Proof. reflexivity. Qed.

Lemma timestamp_api_request st r :
  current_timestamp (api_request st r) = current_timestamp st.
Proof. reflexivity. Qed.

Lemma timestamp_stop st k :
  current_timestamp (c_stop_tracking_order st k) = current_timestamp st.
Proof. unfold c_stop_tracking_order. destruct (dict_mem _ _); reflexivity. Qed.

Lemma timestamp_write_through st o :
  current_timestamp (write_through st o) = current_timestamp st.
Proof. unfold write_through. destruct (dict_mem _ _); reflexivity. Qed.

Lemma registry_logger st l m a :
  in_flight_orders (logger st l m a) = in_flight_orders st.
Proof. reflexivity. Qed.

Lemma registry_trigger st e :
  in_flight_orders (c_trigger_event st e) = in_flight_orders st.
Proof. reflexivity. Qed.

Lemma registry_api_request st r :
  in_flight_orders (api_request st r) = in_flight_orders st.
Proof. reflexivity. Qed.

Lemma registry_stop st k :
  in_flight_orders (c_stop_tracking_order st k)
  = dict_del k (in_flight_orders st).
Proof.
  unfold c_stop_tracking_order.
  destruct (dict_mem k (in_flight_orders st)) eqn:E; [reflexivity|].
  unfold dict_mem in E. unfold dict_del.
  symmetry. apply forallb_filter_id.
  induction (in_flight_orders st) as [|[k' v'] d IH]; simpl in *; [reflexivity|].
  destruct (String.eqb k' k); [discriminate|]. simpl. apply IH, E.
Qed.

Lemma registry_write_through st o :
  dict_mem (client_order_id o) (in_flight_orders st) = true ->
  in_flight_orders (write_through st o)
  = dict_set (client_order_id o) o (in_flight_orders st).
Proof. unfold write_through. intros ->. reflexivity. Qed.

Lemma log_trigger st e : log (c_trigger_event st e) = log st.
Proof. reflexivity. Qed.

Lemma log_logger st l m a :
  log (logger st l m a) = log st ++ [mkLog l m a].
Proof. reflexivity. Qed.

Lemma log_stop st k : log (c_stop_tracking_order st k) = log st.
Proof. unfold c_stop_tracking_order. destruct (dict_mem _ _); reflexivity. Qed.

Lemma log_write_through st o : log (write_through st o) = log st.
Proof. unfold write_through. destruct (dict_mem _ _); reflexivity. Qed.

Lemma requests_logger st l m a : requests (logger st l m a) = requests st.
Proof. reflexivity. Qed.

Lemma requests_trigger st e : requests (c_trigger_event st e) = requests st.
Proof. reflexivity. Qed.

Lemma requests_api_request st r :
  requests (api_request st r) = requests st ++ [r].
Proof. reflexivity. Qed.

Lemma requests_stop st k : requests (c_stop_tracking_order st k) = requests st.
Proof. unfold c_stop_tracking_order. destruct (dict_mem _ _); reflexivity. Qed.

Lemma requests_start st a b c d e f g :
  requests (c_start_tracking_order st a b c d e f g) = requests st.
Proof. reflexivity. Qed.

Create Rewrite HintDb market.

#[local] Hint Rewrite events_logger events_trigger events_api_request
  events_stop events_write_through events_start
  timestamp_logger timestamp_trigger timestamp_api_request timestamp_stop
  timestamp_write_through
  registry_logger registry_trigger registry_api_request registry_stop
  log_trigger log_logger log_stop log_write_through
  requests_logger requests_trigger requests_api_request requests_stop
  requests_start : market.

Lemma emitted_app st st' l : events st' = events st ++ l -> emitted st st' = l.
Proof.
  unfold emitted. intros ->.
  rewrite skipn_app, skipn_all, Nat.sub_diag. reflexivity.
Qed.

Lemma emitted_refl st : emitted st st = [].
Proof. apply emitted_app. rewrite app_nil_r. reflexivity. Qed.

Lemma emitted_trans st1 st2 st3 l1 l2 :
  events st2 = events st1 ++ l1 -> events st3 = events st2 ++ l2 ->
  emitted st1 st3 = emitted st1 st2 ++ emitted st2 st3.
Proof.
  intros H1 H2.
  rewrite (emitted_app _ _ _ H1), (emitted_app _ _ _ H2).
  apply emitted_app. rewrite H2, H1, app_assoc. reflexivity.
Qed.

(** ** The status update of one order *)

Lemma updated_order_id o u :
  client_order_id (updated_order o u) = client_order_id o.
Proof. unfold updated_order; cbv zeta. destruct (Dec.gtb _ _); reflexivity. Qed.

Lemma updated_order_state o u : last_state (updated_order o u) = upd_status u.
Proof. unfold updated_order; cbv zeta. destruct (Dec.gtb _ _); reflexivity. Qed.

Lemma updated_order_amount o u : amount (updated_order o u) = amount o.
Proof. unfold updated_order; cbv zeta. destruct (Dec.gtb _ _); reflexivity. Qed.

Lemma updated_order_executed o u :
  executed_amount_base (updated_order o u)
  = if ((upd_cumQuantity u - executed_amount_base o) >? s_decimal_0)%dec
    then upd_cumQuantity u
    else executed_amount_base o.
Proof. unfold updated_order; cbv zeta. cbn [executed_amount_base set_last_state]. destruct (Dec.gtb _ _); reflexivity. Qed.

Lemma update_tracked_order_events st o u :
  events (update_tracked_order st o u)
  = events st ++ fill_events st o u ++ closing_events st (updated_order o u).
Proof.
  unfold update_tracked_order, fill_events, closing_events, updated_order,
    completed_event, fill_event, is_open, is_done, is_cancelled.
  cbn [last_state set_last_state set_executed set_fee_paid client_order_id
       executed_amount_base executed_amount_quote fee_paid trade_type
       order_type trading_pair exchange_order_id base_asset quote_asset
       fee_asset_or fee_asset amount price c_get_fee percent].
  destruct (negb (recognized (upd_status u)));
  destruct ((upd_cumQuantity u - executed_amount_base o) >? s_decimal_0)%dec;
  cbn [last_state set_last_state set_executed set_fee_paid client_order_id
       executed_amount_base executed_amount_quote fee_paid trade_type
       order_type trading_pair exchange_order_id base_asset quote_asset
       fee_asset_or fee_asset amount price c_get_fee percent];
  destruct (existsb (String.eqb (upd_status u)) ["new"; "suspended"; "partiallyFilled"]);
  try destruct (existsb (String.eqb (upd_status u)) ["filled"; "canceled"; "expired"]);
  try destruct (existsb (String.eqb (upd_status u)) ["canceled"; "expired"]);
  cbn [negb]; try destruct (trade_type o);
  autorewrite with market; rewrite <- ?app_assoc; cbn [app];
  rewrite ?app_nil_r; reflexivity.
Qed.

Lemma update_tracked_order_registry st o u :
  dict_mem (client_order_id o) (in_flight_orders st) = true ->
  in_flight_orders (update_tracked_order st o u)
  = let o' := updated_order o u in
    let registry := dict_set (client_order_id o) o' (in_flight_orders st) in
    if is_open o' then registry
    else if is_done o' then dict_del (client_order_id o) registry
    else registry.
Proof.
  intros Hmem.
  unfold update_tracked_order, updated_order, is_open, is_done, is_cancelled.
  cbv zeta.
  cbn [last_state set_last_state set_executed set_fee_paid client_order_id
       executed_amount_base executed_amount_quote fee_paid trade_type
       order_type trading_pair exchange_order_id base_asset quote_asset
       fee_asset_or fee_asset amount price c_get_fee percent].
  destruct (negb (recognized (upd_status u)));
  destruct ((upd_cumQuantity u - executed_amount_base o) >? s_decimal_0)%dec;
  cbn [last_state set_last_state set_executed set_fee_paid client_order_id
       executed_amount_base executed_amount_quote fee_paid trade_type
       order_type trading_pair exchange_order_id base_asset quote_asset
       fee_asset_or fee_asset amount price c_get_fee percent];
  destruct (existsb (String.eqb (upd_status u)) ["new"; "suspended"; "partiallyFilled"]);
  try destruct (existsb (String.eqb (upd_status u)) ["filled"; "canceled"; "expired"]);
  try destruct (existsb (String.eqb (upd_status u)) ["canceled"; "expired"]);
  cbn [negb]; try destruct (trade_type o);
  autorewrite with market;
  rewrite registry_write_through by (autorewrite with market; exact Hmem);
  autorewrite with market; reflexivity.
Qed.

(** After a status update the registry holds the updated order, or nothing,
    under the order's id. *)
Lemma update_tracked_order_lookup st o u :
  tracked st o ->
  let st' := update_tracked_order st o u in
  dict_get (client_order_id o) (in_flight_orders st')
  = if dict_mem (client_order_id o) (in_flight_orders st')
    then Some (updated_order o u)
    else None.
Proof.
  intros Htr st'.
  assert (Hmem := dict_mem_get _ _ _ Htr).
  subst st'. rewrite (update_tracked_order_registry st o u Hmem). cbv zeta.
  destruct (is_open (updated_order o u)); [|destruct (is_done (updated_order o u))];
    unfold dict_mem;
    rewrite ?dict_get_del_same, ?(dict_get_set_same _ _ _ Hmem); reflexivity.
Qed.

Lemma poll_order_tracked st o u :
  tracked st o ->
  poll_order st (client_order_id o) u = update_tracked_order st o u.
Proof. unfold tracked, poll_order. intros ->. reflexivity. Qed.

Lemma poll_order_untracked st order_id u :
  dict_mem order_id (in_flight_orders st) = false ->
  poll_order st order_id u = st.
Proof.
  intros H. unfold poll_order. rewrite (dict_mem_false _ _ H). reflexivity.
Qed.

Lemma fill_amounts_app order_id l1 l2 :
  fill_amounts order_id (l1 ++ l2)
  = fill_amounts order_id l1 ++ fill_amounts order_id l2.
Proof.
  induction l1 as [|e l1 IH]; [reflexivity|].
  destruct e; simpl; rewrite ?IH; try reflexivity.
  destruct (String.eqb order_id0 order_id); reflexivity.
Qed.

Lemma fill_amounts_closing order_id st o :
  fill_amounts order_id (closing_events st o) = [].
Proof.
  unfold closing_events, completed_event.
  destruct (is_open o); [reflexivity|].
  destruct (is_done o); [|reflexivity].
  destruct (is_cancelled o); [reflexivity|].
  destruct (trade_type o); reflexivity.
Qed.

Lemma filter_fill_closing st o : filter is_fill (closing_events st o) = [].
Proof.
  unfold closing_events, completed_event.
  destruct (is_open o); [reflexivity|].
  destruct (is_done o); [|reflexivity].
  destruct (is_cancelled o); [reflexivity|].
  destruct (trade_type o); reflexivity.
Qed.

(** The fill amounts a status update emits: the difference when it is
    positive, nothing otherwise. *)
Lemma update_tracked_order_fill_amounts st o u :
  fill_amounts (client_order_id o) (emitted st (update_tracked_order st o u))
  = if ((upd_cumQuantity u - executed_amount_base o) >? s_decimal_0)%dec
    then [(upd_cumQuantity u - executed_amount_base o)%dec]
    else [].
Proof.
  rewrite (emitted_app _ _ _ (update_tracked_order_events st o u)).
  rewrite fill_amounts_app, fill_amounts_closing, app_nil_r.
  unfold fill_events, fill_event.
  destruct (Dec.gtb _ _); [|reflexivity].
  simpl. rewrite String.eqb_refl. reflexivity.
Qed.

(** The polling loop applies [update_tracked_order] to the order, after the
    status request, when the venue answers with an update. *)
Lemma poll_tracked_order_update st o u rest :
  poll_tracked_order st o (Response (Some u :: rest))
  = (update_tracked_order
       (api_request st (get_order_status_request (client_order_id o))) o u,
     Ok tt).
Proof. reflexivity. Qed.

Lemma update_order_status_one st o replies u rest :
  in_flight_orders st = [(client_order_id o, o)] ->
  (tick (current_timestamp st) UPDATE_ORDERS_INTERVAL
   >? tick (last_poll_timestamp st) UPDATE_ORDERS_INTERVAL)%Z = true ->
  replies (client_order_id o) = Response (Some u :: rest) ->
  update_order_status st replies
  = (update_tracked_order
       (api_request st (get_order_status_request (client_order_id o))) o u,
     Ok tt).
Proof.
  intros Hreg Hgate Hreply. unfold update_order_status.
  rewrite Hgate, Hreg. simpl. rewrite Hreply. reflexivity.
Qed.

(** ** Sequences of status updates *)

Lemma to_Q_sum_app l1 l2 :
  Dec.to_Q (Dec.sum (l1 ++ l2))
  == Dec.to_Q (Dec.sum l1) + Dec.to_Q (Dec.sum l2).
Proof.
  induction l1 as [|a l1 IH]; simpl.
  - rewrite to_Q_zero. ring.
  - unfold Dec.sum in *. simpl. rewrite !to_Q_add, IH. ring.
Qed.

Lemma gtb_zero_to_Q (d : Decimal) :
  (d >? s_decimal_0)%dec = true <-> (0 < Dec.to_Q d)%Q.
Proof. unfold Dec.gtb. rewrite ltb_to_Q, to_Q_zero. reflexivity. Qed.

Lemma gtb_zero_to_Q_false (d : Decimal) :
  (d >? s_decimal_0)%dec = false <-> (Dec.to_Q d <= 0)%Q.
Proof. unfold Dec.gtb. rewrite ltb_to_Q_false, to_Q_zero. reflexivity. Qed.

Lemma poll_order_events_ext st order_id u :
  exists l, events (poll_order st order_id u) = events st ++ l.
Proof.
  unfold poll_order. destruct (dict_get order_id (in_flight_orders st)) as [o|].
  - eexists. apply update_tracked_order_events.
  - exists []. rewrite app_nil_r. reflexivity.
Qed.

Lemma poll_orders_events_ext us : forall st order_id,
  exists l, events (poll_orders st order_id us) = events st ++ l.
Proof.
  induction us as [|u us IH]; intros st order_id.
  - exists []. rewrite app_nil_r. reflexivity.
  - destruct (poll_order_events_ext st order_id u) as [l1 H1].
    destruct (IH (poll_order st order_id u) order_id) as [l2 H2].
    exists (l1 ++ l2).
    change (poll_orders st order_id (u :: us))
      with (poll_orders (poll_order st order_id u) order_id us).
    rewrite H2, H1, app_assoc. reflexivity.
Qed.

Lemma cumulative_nondecreasing_floor f1 f2 us :
  Dec.to_Q f1 == Dec.to_Q f2 ->
  cumulative_nondecreasing f1 us -> cumulative_nondecreasing f2 us.
Proof.
  intros Heq. destruct us as [|u us]; simpl; [trivial|].
  intros [H1 H2]. split; [|exact H2]. rewrite <- Heq. exact H1.
Qed.

Lemma last_cons {A : Type} (l : list A) : forall a d,
  last (a :: l) d = last l a.
Proof.
  induction l as [|b l IH]; intros a d; [reflexivity|].
  change (last (a :: b :: l) d) with (last (b :: l) d).
  rewrite (IH b d), (IH b a). reflexivity.
Qed.

Lemma final_cumulative_cons f u us :
  final_cumulative f (u :: us) = final_cumulative (upd_cumQuantity u) us.
Proof. unfold final_cumulative. simpl map. apply last_cons. Qed.

Lemma final_cumulative_floor f1 f2 us :
  Dec.to_Q f1 == Dec.to_Q f2 ->
  Dec.to_Q (final_cumulative f1 us) == Dec.to_Q (final_cumulative f2 us).
Proof.
  intros Heq. destruct us as [|u us]; [exact Heq|].
  rewrite !final_cumulative_cons. reflexivity.
Qed.

(** The stored amount follows a report that does not go backwards. *)
Lemma updated_order_executed_to_Q o u :
  (Dec.to_Q (executed_amount_base o) <= Dec.to_Q (upd_cumQuantity u))%Q ->
  Dec.to_Q (executed_amount_base (updated_order o u))
  == Dec.to_Q (upd_cumQuantity u).
Proof.
  intros Hle. rewrite updated_order_executed.
  destruct (Dec.gtb _ _) eqn:E; [reflexivity|].
  apply gtb_zero_to_Q_false in E. rewrite to_Q_sub in E. lra.
Qed.

Lemma update_fill_sum_to_Q st o u :
  (Dec.to_Q (executed_amount_base o) <= Dec.to_Q (upd_cumQuantity u))%Q ->
  Dec.to_Q (Dec.sum (fill_amounts (client_order_id o)
                       (emitted st (update_tracked_order st o u))))
  == Dec.to_Q (upd_cumQuantity u) - Dec.to_Q (executed_amount_base o).
Proof.
  intros Hle. rewrite update_tracked_order_fill_amounts.
  destruct (Dec.gtb _ _) eqn:E.
  - unfold Dec.sum. simpl. rewrite to_Q_add, to_Q_sub, to_Q_zero. ring.
  - apply gtb_zero_to_Q_false in E. rewrite to_Q_sub in E.
    unfold Dec.sum. simpl. rewrite to_Q_zero. lra.
Qed.

Lemma poll_orders_fill_sum us : forall st o,
  tracked st o ->
  delivered_while_tracked st (client_order_id o) us ->
  cumulative_nondecreasing (executed_amount_base o) us ->
  Dec.to_Q (Dec.sum (fill_amounts (client_order_id o)
                       (emitted st (poll_orders st (client_order_id o) us))))
  == Dec.to_Q (final_cumulative (executed_amount_base o) us)
     - Dec.to_Q (executed_amount_base o).
Proof.
  induction us as [|u us IH]; intros st o Htr Hdel Hmono.
  - simpl. rewrite emitted_refl. unfold final_cumulative. simpl.
    rewrite to_Q_zero. ring.
  - destruct Hmono as [Hle Hmono]. destruct Hdel as [_ Hdel].
    change (poll_orders st (client_order_id o) (u :: us))
      with (poll_orders (poll_order st (client_order_id o) u)
              (client_order_id o) us).
    rewrite final_cumulative_cons.
    rewrite (poll_order_tracked st o u Htr) in *.
    set (st1 := update_tracked_order st o u) in *.
    destruct (poll_orders_events_ext us st1 (client_order_id o)) as [l2 H2].
    rewrite (emitted_trans st st1 _ _ _
               (update_tracked_order_events st o u) H2).
    rewrite fill_amounts_app, to_Q_sum_app.
    subst st1. rewrite (update_fill_sum_to_Q st o u Hle).
    destruct us as [|u2 us].
    + simpl. rewrite emitted_refl. unfold final_cumulative. simpl.
      rewrite to_Q_zero. ring.
    + assert (Hmem : dict_mem (client_order_id o)
                       (in_flight_orders (update_tracked_order st o u)) = true)
        by (destruct Hdel as [Hmem _]; exact Hmem).
      assert (Hlook := update_tracked_order_lookup st o u Htr).
      cbv zeta in Hlook. rewrite Hmem in Hlook.
      assert (Htr1 : tracked (update_tracked_order st o u) (updated_order o u))
        by (unfold tracked; rewrite updated_order_id; exact Hlook).
      assert (Hex := updated_order_executed_to_Q o u Hle).
      rewrite <- (updated_order_id o u) in Hdel |- * at 1.
      rewrite <- (updated_order_id o u) at 1.
      rewrite (IH _ _ Htr1 Hdel
                 (cumulative_nondecreasing_floor _ _ _ (Qeq_sym _ _ Hex) Hmono)).
      rewrite (final_cumulative_floor _ _ (u2 :: us) Hex), Hex. ring.
Qed.

Lemma update_tracked_order_fills st o u :
  filter is_fill (emitted st (update_tracked_order st o u))
  = fill_events st o u.
Proof.
  rewrite (emitted_app _ _ _ (update_tracked_order_events st o u)).
  rewrite filter_app, filter_fill_closing, app_nil_r.
  unfold fill_events. destruct (Dec.gtb _ _); reflexivity.
Qed.

(** C1.  A status update whose cumulative quantity exceeds the stored
    executed base amount emits exactly one fill event, which carries the
    difference; any other update emits no fill event.  For an order with
    nothing executed yet and a sequence of status updates that reach it while
    it is tracked, with cumulative quantities that never decrease from zero,
    the amounts of the emitted fill events add up to the cumulative quantity
    reported last. *)
Theorem fill_amounts_sum_to_final_cumulative (st : Market) (o : InFlightOrder) :
  (forall u,
     filter is_fill (emitted st (update_tracked_order st o u))
     = if ((upd_cumQuantity u - executed_amount_base o) >? s_decimal_0)%dec
       then [fill_event st o u]
       else [])
  /\
  (forall updates,
     tracked st o ->
     Dec.to_Q (executed_amount_base o) == 0 ->
     delivered_while_tracked st (client_order_id o) updates ->
     cumulative_nondecreasing (executed_amount_base o) updates ->
     Dec.to_Q
       (Dec.sum
          (fill_amounts (client_order_id o)
             (emitted st (poll_orders st (client_order_id o) updates))))
     == Dec.to_Q (final_cumulative (executed_amount_base o) updates)).
Proof.
  split.
  - intros u. apply update_tracked_order_fills.
  - intros updates Htr Hzero Hdel Hmono.
    rewrite (poll_orders_fill_sum updates st o Htr Hdel Hmono), Hzero. ring.
Qed.

Lemma fill_amounts_sum_to_final_cumulative_witness :
  tracked scenario_market scenario_order
  /\ Dec.to_Q (executed_amount_base scenario_order) == 0
  /\ delivered_while_tracked scenario_market (client_order_id scenario_order)
       [partial_fill; full_fill]
  /\ cumulative_nondecreasing (executed_amount_base scenario_order)
       [partial_fill; full_fill]
  /\ Dec.to_Q
       (Dec.sum
          (fill_amounts (client_order_id scenario_order)
             (emitted scenario_market
                (poll_orders scenario_market (client_order_id scenario_order)
                   [partial_fill; full_fill]))))
     == Dec.to_Q
          (final_cumulative (executed_amount_base scenario_order)
             [partial_fill; full_fill]).
Proof.
  assert (H1 : tracked scenario_market scenario_order) by reflexivity.
  assert (H2 : Dec.to_Q (executed_amount_base scenario_order) == 0)
    by reflexivity.
  assert (H3 : delivered_while_tracked scenario_market
                 (client_order_id scenario_order) [partial_fill; full_fill])
    by (simpl; repeat split; reflexivity).
  assert (H4 : cumulative_nondecreasing (executed_amount_base scenario_order)
                 [partial_fill; full_fill])
    by (simpl; repeat split; vm_compute; discriminate).
  split; [exact H1|]. split; [exact H2|]. split; [exact H3|].
  split; [exact H4|].
  exact (proj2 (fill_amounts_sum_to_final_cumulative scenario_market
                  scenario_order) [partial_fill; full_fill] H1 H2 H3 H4).
Defined.

(** The scenario, event by event: 0.4 at 100, then 0.6 at 101 and the
    completion; a third delivery finds no order. *)
Example scenario_events :
  emitted scenario_market
    (poll_orders scenario_market "buy-ETHBTC-1"
       [partial_fill; full_fill; full_fill])
  = [ OrderFilledEvent 0 "buy-ETHBTC-1" "ETHBTC" BUY LIMIT
        (dec 100 0) (dec 4 1) (mkTradeFee (dec 7 4)) "77";
      OrderFilledEvent 0 "buy-ETHBTC-1" "ETHBTC" BUY LIMIT
        (dec 101 0) (dec 6 1) (mkTradeFee (dec 7 4)) "77";
      BuyOrderCompletedEvent 0 "buy-ETHBTC-1" (BaseOf "ETHBTC")
        (QuoteOf "ETHBTC") (BaseOf "ETHBTC")
        (dec 10 1) (dec 1010 1) (dec 7070 5) LIMIT ]
  /\ in_flight_orders
       (poll_orders scenario_market "buy-ETHBTC-1" [partial_fill; full_fill])
     = [].
Proof. split; reflexivity. Qed.

(** ** Messages of the user stream *)

Lemma user_stream_event_untracked st m :
  dict_get (msg_clientOrderId m) (in_flight_orders st) = None ->
  user_stream_event st m = st.
Proof. unfold user_stream_event. intros ->. reflexivity. Qed.

Lemma streamed_order_id o m :
  client_order_id (streamed_order o m) = client_order_id o.
Proof. reflexivity. Qed.

Lemma user_stream_event_events st o m :
  dict_get (msg_clientOrderId m) (in_flight_orders st) = Some o ->
  events (user_stream_event st m)
  = events st ++ stream_fill_events st o m
      ++ stream_closing_events st (streamed_order o m).
Proof.
  intros Hget.
  unfold user_stream_event, stream_fill_events, stream_closing_events,
    streamed_order, completed_event, is_done, is_cancelled.
  rewrite Hget. cbv zeta.
  cbn [last_state set_last_state set_executed set_fee_paid client_order_id
       executed_amount_base executed_amount_quote fee_paid trade_type
       order_type trading_pair exchange_order_id base_asset quote_asset
       fee_asset_or fee_asset amount price c_get_fee percent].
  destruct (negb (recognized (msg_status m)));
  destruct ((decimal_or_zero (msg_tradeQuantity m) >? s_decimal_0)%dec
            && py_is (msg_reportType m) "trade");
  destruct (existsb (String.eqb (msg_status m)) ["filled"; "canceled"; "expired"]);
  try destruct (existsb (String.eqb (msg_status m)) ["canceled"; "expired"]);
  cbn [negb]; try destruct (trade_type o);
  autorewrite with market; rewrite <- ?app_assoc; cbn [app];
  rewrite ?app_nil_r; reflexivity.
Qed.

Lemma user_stream_event_registry st o m :
  tracked st o -> msg_clientOrderId m = client_order_id o ->
  dict_get (client_order_id o) (in_flight_orders (user_stream_event st m))
  = if is_done (streamed_order o m) then None else Some (streamed_order o m).
Proof.
  intros Htr Hid. assert (Hmem := dict_mem_get _ _ _ Htr).
  unfold tracked in Htr.
  unfold user_stream_event, streamed_order, is_done, is_cancelled.
  rewrite Hid, Htr. cbv zeta.
  cbn [last_state set_last_state set_executed set_fee_paid client_order_id
       executed_amount_base executed_amount_quote fee_paid trade_type
       order_type trading_pair exchange_order_id base_asset quote_asset
       fee_asset_or fee_asset amount price c_get_fee percent].
  destruct (negb (recognized (msg_status m)));
  destruct ((decimal_or_zero (msg_tradeQuantity m) >? s_decimal_0)%dec
            && py_is (msg_reportType m) "trade");
  destruct (existsb (String.eqb (msg_status m)) ["filled"; "canceled"; "expired"]);
  try destruct (existsb (String.eqb (msg_status m)) ["canceled"; "expired"]);
  cbn [negb]; try destruct (trade_type o);
  autorewrite with market;
  rewrite ?dict_get_del_same; try reflexivity;
  rewrite registry_write_through by (autorewrite with market; exact Hmem);
  apply dict_get_set_same; autorewrite with market; exact Hmem.
Qed.

Lemma user_stream_event_timestamp st m :
  current_timestamp (user_stream_event st m) = current_timestamp st.
Proof.
  unfold user_stream_event.
  destruct (dict_get (msg_clientOrderId m) (in_flight_orders st)) as [o|];
    [|reflexivity].
  cbv zeta.
  destruct (negb (recognized (msg_status m)));
  destruct ((decimal_or_zero (msg_tradeQuantity m) >? s_decimal_0)%dec
            && py_is (msg_reportType m) "trade");
  destruct (is_done _); try destruct (negb (is_cancelled _));
  try destruct (trade_type _);
  autorewrite with market; reflexivity.
Qed.

Lemma replayed_poll_no_fill st o u :
  tracked st o ->
  let st1 := poll_order st (client_order_id o) u in
  filter is_fill (emitted st1 (poll_order st1 (client_order_id o) u)) = [].
Proof.
  intros Htr st1. subst st1. rewrite (poll_order_tracked st o u Htr).
  assert (Hlook := update_tracked_order_lookup st o u Htr). cbv zeta in Hlook.
  destruct (dict_mem (client_order_id o)
              (in_flight_orders (update_tracked_order st o u))) eqn:Hmem.
  - assert (Htr1 : tracked (update_tracked_order st o u) (updated_order o u))
      by (unfold tracked; rewrite updated_order_id; exact Hlook).
    rewrite <- (updated_order_id o u).
    rewrite (poll_order_tracked _ _ u Htr1), update_tracked_order_fills.
    unfold fill_events. rewrite updated_order_executed.
    destruct ((upd_cumQuantity u - executed_amount_base o) >? s_decimal_0)%dec
      eqn:E.
    + assert (Hz : ((upd_cumQuantity u - upd_cumQuantity u) >? s_decimal_0)%dec
                   = false).
      { apply gtb_zero_to_Q_false. rewrite to_Q_sub. lra. }
      rewrite Hz. reflexivity.
    + rewrite E. reflexivity.
  - rewrite (poll_order_untracked _ _ u Hmem), emitted_refl. reflexivity.
Qed.

Lemma replayed_stream_message st o m :
  tracked st o -> msg_clientOrderId m = client_order_id o ->
  let st1 := user_stream_event st m in
  emitted st1 (user_stream_event st1 m)
  = if is_done (streamed_order o m) then [] else emitted st st1.
Proof.
  intros Htr Hid st1.
  assert (Hreg := user_stream_event_registry st o m Htr Hid).
  assert (Hev := user_stream_event_events st o m).
  rewrite Hid in Hev. specialize (Hev Htr).
  fold st1 in Hreg, Hev.
  destruct (is_done (streamed_order o m)) eqn:Hdone.
  - rewrite user_stream_event_untracked by (rewrite Hid; exact Hreg).
    apply emitted_refl.
  - rewrite (emitted_app _ _ _ Hev).
    apply emitted_app.
    rewrite (user_stream_event_events st1 (streamed_order o m) m)
      by (rewrite Hid; exact Hreg).
    unfold stream_fill_events, stream_closing_events.
    change (streamed_order (streamed_order o m) m) with (streamed_order o m).
    rewrite Hdone. subst st1. rewrite user_stream_event_timestamp.
    reflexivity.
Qed.

Lemma stream_fills_need_the_literal st m :
  py_is (msg_reportType m) "trade" = false ->
  filter is_fill (emitted st (user_stream_event st m)) = [].
Proof.
  intros Htype.
  destruct (dict_get (msg_clientOrderId m) (in_flight_orders st)) as [o|]
    eqn:Hget.
  - rewrite (emitted_app _ _ _ (user_stream_event_events st o m Hget)).
    unfold stream_fill_events, stream_closing_events, completed_event.
    rewrite Htype, andb_false_r. simpl.
    destruct (is_done _); [|reflexivity].
    destruct (negb (is_cancelled _)); [|reflexivity].
    destruct (trade_type _); reflexivity.
  - unfold user_stream_event. rewrite Hget, emitted_refl. reflexivity.
Qed.

Lemma decoded_is_not_the_literal x literal :
  decoded x = true -> py_is x literal = false.
Proof.
  unfold decoded, py_is. destruct x as [s|]; [|reflexivity].
  destruct (str_interned s); [discriminate|reflexivity].
Qed.

(** C2.  Delivering an update a second time emits no further fill event.
    Through the polling channel the fill is the difference between
    [cumQuantity] and the stored executed amount, which the first delivery
    has made equal, whatever the update says.  Through the user stream a
    message as it is delivered, its [reportType] a string of the decoder and
    not the string object of the literal, is not taken for a trade report:
    its second delivery emits no fill event, and neither did the first; if
    its status is not terminal the second delivery emits what the first one
    did, and nothing if it is. *)
Theorem replayed_update_emits_no_fill (st : Market) (o : InFlightOrder)
  (u : OrderUpdate) (m : StreamMessage) :
  tracked st o ->
  msg_clientOrderId m = client_order_id o ->
  decoded (msg_reportType m) = true ->
  (let st1 := poll_order st (client_order_id o) u in
   filter is_fill (emitted st1 (poll_order st1 (client_order_id o) u)) = [])
  /\ (let st1 := user_stream_event st m in
      filter is_fill (emitted st1 (user_stream_event st1 m)) = []
      /\ filter is_fill (emitted st st1) = []
      /\ emitted st1 (user_stream_event st1 m)
         = if is_done (streamed_order o m) then [] else emitted st st1).
Proof.
  intros Htr Hid Hdec. split.
  - apply replayed_poll_no_fill, Htr.
  - pose proof (decoded_is_not_the_literal _ "trade" Hdec) as Htype.
    cbv zeta. split; [|split].
    + apply stream_fills_need_the_literal, Htype.
    + apply stream_fills_need_the_literal, Htype.
    + apply replayed_stream_message; assumption.
Qed.

Lemma replayed_update_emits_no_fill_witness :
  tracked scenario_market scenario_order
  /\ msg_clientOrderId decoded_trade_report = client_order_id scenario_order
  /\ decoded (msg_reportType decoded_trade_report) = true
  /\ filter is_fill
       (emitted half_filled_market
          (poll_order half_filled_market (client_order_id scenario_order)
             partial_fill))
     = []
  /\ filter is_fill
       (emitted (user_stream_event scenario_market decoded_trade_report)
          (user_stream_event
             (user_stream_event scenario_market decoded_trade_report)
             decoded_trade_report))
     = [].
Proof.
  assert (H1 : tracked scenario_market scenario_order) by reflexivity.
  assert (H2 : msg_clientOrderId decoded_trade_report
               = client_order_id scenario_order) by reflexivity.
  assert (H3 : decoded (msg_reportType decoded_trade_report) = true)
    by reflexivity.
  split; [exact H1|]. split; [exact H2|]. split; [exact H3|].
  pose proof (replayed_update_emits_no_fill scenario_market scenario_order
                partial_fill decoded_trade_report H1 H2 H3) as [Hpoll Hstream].
  split; [exact Hpoll|exact (proj1 Hstream)].
Defined.

(** Were the [reportType] of a message the string object of the literal,
    the stream would take it for a trade report each time it is delivered:
    the fill amount is the [tradeQuantity] of the message, not a difference
    of cumulative quantities. *)
Lemma literal_trade_report_fills_each_time :
  let st1 := user_stream_event scenario_market trade_report in
  fill_amounts "buy-ETHBTC-1" (emitted scenario_market st1) = [dec 4 1]
  /\ fill_amounts "buy-ETHBTC-1" (emitted st1 (user_stream_event st1 trade_report))
     = [dec 4 1].
Proof. split; reflexivity. Qed.

(** ** The executed amount and the requested amount *)

Lemma poll_orders_untracked us : forall st order_id,
  dict_mem order_id (in_flight_orders st) = false ->
  poll_orders st order_id us = st.
Proof.
  induction us as [|u us IH]; intros st order_id Hmem; [reflexivity|].
  change (poll_orders st order_id (u :: us))
    with (poll_orders (poll_order st order_id u) order_id us).
  rewrite (poll_order_untracked _ _ u Hmem). apply IH, Hmem.
Qed.

Lemma poll_order_stored st o u o' :
  tracked st o ->
  dict_get (client_order_id o)
    (in_flight_orders (poll_order st (client_order_id o) u)) = Some o' ->
  o' = updated_order o u.
Proof.
  intros Htr Hget. rewrite (poll_order_tracked st o u Htr) in Hget.
  assert (Hlook := update_tracked_order_lookup st o u Htr). cbv zeta in Hlook.
  rewrite Hget in Hlook.
  destruct (dict_mem _ _); congruence.
Qed.

Lemma poll_orders_within_amount us : forall st o o',
  tracked st o ->
  Forall (fun u => (Dec.to_Q (upd_cumQuantity u) <= Dec.to_Q (amount o))%Q) us ->
  (Dec.to_Q (executed_amount_base o) <= Dec.to_Q (amount o))%Q ->
  dict_get (client_order_id o)
    (in_flight_orders (poll_orders st (client_order_id o) us)) = Some o' ->
  (Dec.to_Q (executed_amount_base o') <= Dec.to_Q (amount o'))%Q.
Proof.
  induction us as [|u us IH]; intros st o o' Htr Hall Hle Hget.
  - unfold tracked in Htr. simpl in Hget. rewrite Htr in Hget.
    injection Hget as <-. exact Hle.
  - change (poll_orders st (client_order_id o) (u :: us))
      with (poll_orders (poll_order st (client_order_id o) u)
              (client_order_id o) us) in Hget.
    inversion Hall as [|u' us' Hu Hrest]; subst.
    destruct (dict_mem (client_order_id o)
                (in_flight_orders (poll_order st (client_order_id o) u)))
      eqn:Hmem.
    + unfold dict_mem in Hmem.
      destruct (dict_get (client_order_id o)
                  (in_flight_orders (poll_order st (client_order_id o) u)))
        as [o1|] eqn:Hget1; [|discriminate].
      assert (Ho1 := poll_order_stored st o u o1 Htr Hget1). subst o1.
      rewrite <- (updated_order_id o u) in Hget, Hget1.
      revert Hget. apply IH.
      * exact Hget1.
      * rewrite updated_order_amount. exact Hrest.
      * rewrite updated_order_amount, updated_order_executed.
        destruct (Dec.gtb _ _); assumption.
    + rewrite (poll_orders_untracked us _ _ Hmem) in Hget.
      rewrite (dict_mem_false _ _ Hmem) in Hget. discriminate.
Qed.

(** C3, as the code has it.  A status update stores the reported cumulative
    quantity as it is whenever it exceeds the stored executed base amount,
    and leaves the stored amount alone otherwise; the requested amount plays
    no part.  So the executed base amount is within the requested amount
    after a sequence of status updates when it was before and every reported
    cumulative quantity is.  A message of the user stream does not change
    the executed base amount. *)
Theorem executed_amount_stored_as_reported (st : Market) (o : InFlightOrder) :
  tracked st o ->
  (forall u o',
     dict_get (client_order_id o)
       (in_flight_orders (poll_order st (client_order_id o) u)) = Some o' ->
     amount o' = amount o
     /\ executed_amount_base o'
        = if ((upd_cumQuantity u - executed_amount_base o) >? s_decimal_0)%dec
          then upd_cumQuantity u
          else executed_amount_base o)
  /\
  (forall updates o',
     Forall (fun u => (Dec.to_Q (upd_cumQuantity u) <= Dec.to_Q (amount o))%Q)
       updates ->
     (Dec.to_Q (executed_amount_base o) <= Dec.to_Q (amount o))%Q ->
     dict_get (client_order_id o)
       (in_flight_orders (poll_orders st (client_order_id o) updates))
     = Some o' ->
     (Dec.to_Q (executed_amount_base o') <= Dec.to_Q (amount o'))%Q)
  /\
  (forall m o',
     msg_clientOrderId m = client_order_id o ->
     dict_get (client_order_id o) (in_flight_orders (user_stream_event st m))
     = Some o' ->
     amount o' = amount o
     /\ executed_amount_base o' = executed_amount_base o).
Proof.
  intros Htr. split; [|split].
  - intros u o' Hget. rewrite (poll_order_stored st o u o' Htr Hget).
    split; [apply updated_order_amount | apply updated_order_executed].
  - intros updates o' Hall Hle Hget.
    exact (poll_orders_within_amount updates st o o' Htr Hall Hle Hget).
  - intros m o' Hid Hget.
    rewrite (user_stream_event_registry st o m Htr Hid) in Hget.
    destruct (is_done (streamed_order o m)); [discriminate|].
    injection Hget as <-. split; reflexivity.
Qed.

Lemma executed_amount_stored_as_reported_witness :
  tracked scenario_market scenario_order
  /\ Forall (fun u => (Dec.to_Q (upd_cumQuantity u)
                       <= Dec.to_Q (amount scenario_order))%Q)
       [partial_fill]
  /\ (Dec.to_Q (executed_amount_base scenario_order)
      <= Dec.to_Q (amount scenario_order))%Q
  /\ dict_get (client_order_id scenario_order)
       (in_flight_orders
          (poll_orders scenario_market (client_order_id scenario_order)
             [partial_fill]))
     = Some (updated_order scenario_order partial_fill)
  /\ (Dec.to_Q (executed_amount_base (updated_order scenario_order partial_fill))
      <= Dec.to_Q (amount (updated_order scenario_order partial_fill)))%Q.
Proof.
  assert (H1 : tracked scenario_market scenario_order) by reflexivity.
  assert (H2 : Forall (fun u => (Dec.to_Q (upd_cumQuantity u)
                                 <= Dec.to_Q (amount scenario_order))%Q)
                 [partial_fill])
    by (repeat constructor; vm_compute; discriminate).
  assert (H3 : (Dec.to_Q (executed_amount_base scenario_order)
                <= Dec.to_Q (amount scenario_order))%Q)
    by (vm_compute; discriminate).
  assert (H4 : dict_get (client_order_id scenario_order)
                 (in_flight_orders
                    (poll_orders scenario_market
                       (client_order_id scenario_order) [partial_fill]))
               = Some (updated_order scenario_order partial_fill))
    by reflexivity.
  split; [exact H1|]. split; [exact H2|]. split; [exact H3|].
  split; [exact H4|].
  exact (proj1 (proj2 (executed_amount_stored_as_reported scenario_market
                         scenario_order H1)) [partial_fill] _ H2 H3 H4).
Defined.

(** C3 fails: the report of 2.0 executed for the order of 1.0 is stored, and
    the fill event carries 2.0. *)
Lemma overfill_is_stored :
  exists o',
    dict_get "buy-ETHBTC-1"
      (in_flight_orders (poll_order scenario_market "buy-ETHBTC-1" overfill))
    = Some o'
    /\ amount o' = dec 10 1
    /\ executed_amount_base o' = dec 20 1
    /\ (amount o' <? executed_amount_base o')%dec = true
    /\ fill_amounts "buy-ETHBTC-1"
         (emitted scenario_market
            (poll_order scenario_market "buy-ETHBTC-1" overfill))
       = [dec 20 1].
Proof. eexists. repeat split; reflexivity. Qed.

(** ** Unrecognized states *)

Lemma unrecognized_not_open o :
  recognized (last_state o) = false -> is_open o = false.
Proof.
  unfold recognized, is_open, recognized_states. simpl.
  intros H. repeat (apply orb_false_iff in H; destruct H as [? H]).
  repeat (apply orb_false_iff; split); assumption.
Qed.

Lemma unrecognized_not_done o :
  recognized (last_state o) = false -> is_done o = false.
Proof.
  unfold recognized, is_done, recognized_states. simpl.
  intros H. repeat (apply orb_false_iff in H; destruct H as [? H]).
  repeat (apply orb_false_iff; split); assumption.
Qed.

Lemma unrecognized_update_log st o u :
  recognized (upd_status u) = false ->
  exists rest,
    log (update_tracked_order st o u)
    = log st ++ mkLog DEBUG UnrecognizedOrderUpdate (client_order_id o) :: rest.
Proof.
  intros Hrec. unfold update_tracked_order. rewrite Hrec. cbv zeta.
  cbn [negb].
  destruct (Dec.gtb _ _); destruct (is_open _); try destruct (is_done _);
    try destruct (negb (is_cancelled _)); try destruct (trade_type _);
    autorewrite with market; rewrite <- ?app_assoc; cbn [app];
    eexists; reflexivity.
Qed.

Lemma unrecognized_message_log st o m :
  dict_get (msg_clientOrderId m) (in_flight_orders st) = Some o ->
  recognized (msg_status m) = false ->
  exists rest,
    log (user_stream_event st m)
    = log st ++ mkLog DEBUG UnrecognizedOrderUpdate (msg_clientOrderId m) :: rest.
Proof.
  intros Hget Hrec. unfold user_stream_event. rewrite Hget, Hrec. cbv zeta.
  cbn [negb].
  destruct (_ && _); destruct (is_done _);
    try destruct (negb (is_cancelled _)); try destruct (trade_type _);
    autorewrite with market; rewrite <- ?app_assoc; cbn [app];
    eexists; reflexivity.
Qed.

(** C4, as the code has it.  An update whose status string is not one of the
    six recognized states is logged at debug level and then processed like
    any other: the fill computation runs and the unrecognized string is
    stored as the order's last state.  The string being neither an open nor
    a terminal state, the order stays in the registry and no completion or
    cancellation event is emitted.  Both channels behave so. *)
Theorem unrecognized_state_is_stored (st : Market) (o : InFlightOrder) :
  tracked st o ->
  (forall u,
     recognized (upd_status u) = false ->
     let st' := poll_order st (client_order_id o) u in
     (exists rest,
        log st'
        = log st
            ++ mkLog DEBUG UnrecognizedOrderUpdate (client_order_id o) :: rest)
     /\ dict_get (client_order_id o) (in_flight_orders st')
        = Some (updated_order o u)
     /\ last_state (updated_order o u) = upd_status u
     /\ emitted st st' = fill_events st o u)
  /\
  (forall m,
     msg_clientOrderId m = client_order_id o ->
     recognized (msg_status m) = false ->
     let st' := user_stream_event st m in
     (exists rest,
        log st'
        = log st
            ++ mkLog DEBUG UnrecognizedOrderUpdate (client_order_id o) :: rest)
     /\ dict_get (client_order_id o) (in_flight_orders st')
        = Some (streamed_order o m)
     /\ last_state (streamed_order o m) = msg_status m
     /\ emitted st st' = stream_fill_events st o m).
Proof.
  intros Htr. split.
  - intros u Hrec st'. subst st'. rewrite (poll_order_tracked st o u Htr).
    assert (Hst : recognized (last_state (updated_order o u)) = false)
      by (rewrite updated_order_state; exact Hrec).
    assert (Hopen := unrecognized_not_open _ Hst).
    assert (Hdone := unrecognized_not_done _ Hst).
    split; [apply unrecognized_update_log, Hrec|].
    split.
    + rewrite (update_tracked_order_registry st o u (dict_mem_get _ _ _ Htr)).
      cbv zeta. rewrite Hopen, Hdone.
      apply dict_get_set_same, (dict_mem_get _ _ _ Htr).
    + split; [apply updated_order_state|].
      apply emitted_app. rewrite update_tracked_order_events.
      unfold closing_events. rewrite Hopen, Hdone, app_nil_r. reflexivity.
  - intros m Hid Hrec st'. subst st'.
    assert (Hget : dict_get (msg_clientOrderId m) (in_flight_orders st) = Some o)
      by (rewrite Hid; exact Htr).
    assert (Hdone : is_done (streamed_order o m) = false)
      by (apply unrecognized_not_done; exact Hrec).
    split.
    + rewrite <- Hid. exact (unrecognized_message_log st o m Hget Hrec).
    + split.
      * rewrite (user_stream_event_registry st o m Htr Hid), Hdone. reflexivity.
      * split; [reflexivity|].
        apply emitted_app. rewrite (user_stream_event_events st o m Hget).
        unfold stream_closing_events. rewrite Hdone, app_nil_r. reflexivity.
Qed.

Lemma unrecognized_state_is_stored_witness :
  tracked scenario_market scenario_order
  /\ recognized (upd_status odd_update) = false
  /\ dict_get (client_order_id scenario_order)
       (in_flight_orders
          (poll_order scenario_market (client_order_id scenario_order)
             odd_update))
     = Some (updated_order scenario_order odd_update)
  /\ msg_clientOrderId odd_message = client_order_id scenario_order
  /\ recognized (msg_status odd_message) = false
  /\ last_state (streamed_order scenario_order odd_message)
     = msg_status odd_message.
Proof.
  assert (H1 : tracked scenario_market scenario_order) by reflexivity.
  assert (H2 : recognized (upd_status odd_update) = false) by reflexivity.
  assert (H3 : msg_clientOrderId odd_message = client_order_id scenario_order)
    by reflexivity.
  assert (H4 : recognized (msg_status odd_message) = false) by reflexivity.
  split; [exact H1|]. split; [exact H2|]. split.
  - exact (proj1 (proj2 (proj1 (unrecognized_state_is_stored scenario_market
                                  scenario_order H1) odd_update H2))).
  - split; [exact H3|]. split; [exact H4|].
    exact (proj1 (proj2 (proj2 (proj2 (unrecognized_state_is_stored
             scenario_market scenario_order H1) odd_message H3 H4)))).
Defined.

(** C4 fails: after the update with the unrecognized status the order's last
    state is that status, no longer the state it had. *)
Lemma unrecognized_state_replaces_last_state :
  last_state scenario_order = "new"
  /\ recognized (upd_status odd_update) = false
  /\ option_map last_state
       (dict_get "buy-ETHBTC-1"
          (in_flight_orders
             (poll_order scenario_market "buy-ETHBTC-1" odd_update)))
     = Some "pendingCancel"
  /\ option_map last_state
       (dict_get "buy-ETHBTC-1"
          (in_flight_orders (user_stream_event scenario_market odd_message)))
     = Some "pendingCancel".
Proof. repeat split; reflexivity. Qed.

(** ** Cancelling an order the venue does not know *)

Lemma api_response_error http_status items :
  (http_status =? 200)%Z = false ->
  api_response http_status (Some (JDict items))
  = Failure (HitBTCAPIError (JDict items)).
Proof.
  intros H. unfold api_response. rewrite H. cbn [negb].
  unfold HitBTCAPIError_init. simpl. reflexivity.
Qed.

(** The branch [execute_cancel] has for the unknown order: when the error
    payload has a key ["20002"], the order leaves the registry and one
    cancellation event is emitted. *)
Lemma order_unknown_branch_cancels st o pair items :
  tracked st o ->
  existsb (fun kv => String.eqb (fst kv) "20002") items = true ->
  let result :=
    execute_cancel st pair (client_order_id o)
      (Resolved (Failure (HitBTCAPIError (JDict items)))) in
  snd result = Returned (Some (client_order_id o))
  /\ dict_get (client_order_id o) (in_flight_orders (fst result)) = None
  /\ emitted st (fst result)
     = [OrderCancelledEvent (current_timestamp st) (client_order_id o)].
Proof.
  intros Htr Hkey result. subst result. unfold execute_cancel.
  unfold tracked in Htr. rewrite Htr. unfold py_in. rewrite Hkey.
  cbn [fst snd]. split; [reflexivity|]. split.
  - autorewrite with market. apply dict_get_del_same.
  - apply emitted_app. autorewrite with market. reflexivity.
Qed.

(** An answer that confirms the cancellation, decoded from JSON, is not
    taken for one by the identity test on its status: the order stays. *)
Lemma decoded_confirmation_keeps_order st o pair :
  tracked st o ->
  execute_cancel st pair (client_order_id o)
    (cancel_reply_of 200 (Some (JDict [("status", JStr "canceled")])))
  = (api_request st (cancel_request (client_order_id o)),
     Returned (Some (client_order_id o))).
Proof.
  intros Htr. unfold execute_cancel. unfold tracked in Htr. rewrite Htr.
  reflexivity.
Qed.

(** C5 on the code.  When the venue answers a cancel request with an error
    status and an error object, [execute_cancel] looks for the key ["20002"]
    in that object.  The object the venue sends has the one key ["error"],
    under which the code 20002 lies, as has every object without a key
    ["20002"]: the order stays in the registry and no event is emitted. *)
Theorem order_unknown_cancel_keeps_order (st : Market) (o : InFlightOrder)
  (pair : string) (http_status : Z) (items : list (string * Json)) :
  tracked st o ->
  (http_status =? 200)%Z = false ->
  existsb (fun kv => String.eqb (fst kv) "20002") items = false ->
  let result :=
    execute_cancel st pair (client_order_id o)
      (cancel_reply_of http_status (Some (JDict items))) in
  result = (api_request st (cancel_request (client_order_id o)),
            Returned (Some (client_order_id o)))
  /\ tracked (fst result) o
  /\ emitted st (fst result) = [].
Proof.
  intros Htr Hstatus Hkey result.
  assert (Hres : result = (api_request st (cancel_request (client_order_id o)),
                           Returned (Some (client_order_id o)))).
  { subst result. unfold execute_cancel, cancel_reply_of.
    unfold tracked in Htr. rewrite Htr, (api_response_error _ _ Hstatus).
    unfold py_in. rewrite Hkey. reflexivity. }
  rewrite Hres. cbn [fst]. split; [reflexivity|]. split.
  - exact Htr.
  - apply emitted_app. rewrite events_api_request, app_nil_r. reflexivity.
Qed.

Lemma order_unknown_cancel_keeps_order_witness :
  tracked scenario_market scenario_order
  /\ (400 =? 200)%Z = false
  /\ existsb (fun kv => String.eqb (fst kv) "20002") order_not_found_items
     = false
  /\ json_get "error" order_not_found_body
     = Ok (JDict [("code", JNum 20002);
                  ("message", JStr "Order not found");
                  ("description", JStr "")])
  /\ execute_cancel scenario_market "ETHBTC" "buy-ETHBTC-1"
       (cancel_reply_of 400 (Some order_not_found_body))
     = (api_request scenario_market (cancel_request "buy-ETHBTC-1"),
        Returned (Some "buy-ETHBTC-1")).
Proof.
  assert (H1 : tracked scenario_market scenario_order) by reflexivity.
  assert (H2 : (400 =? 200)%Z = false) by reflexivity.
  assert (H3 : existsb (fun kv => String.eqb (fst kv) "20002")
                 order_not_found_items = false) by reflexivity.
  split; [exact H1|]. split; [exact H2|]. split; [exact H3|].
  split; [reflexivity|].
  exact (proj1 (order_unknown_cancel_keeps_order scenario_market scenario_order
                  "ETHBTC" 400 order_not_found_items H1 H2 H3)).
Defined.

(** ** Cancelling all open orders *)

Lemma dict_mem_del_other {V : Type} k k' (d : list (string * V)) :
  k' <> k -> dict_mem k' (dict_del k d) = dict_mem k' d.
Proof. intros H. unfold dict_mem. rewrite dict_get_del_other by exact H. reflexivity. Qed.

(** The task of a registered order: one request, the result the answer
    decides, and no other order touched. *)
Lemma execute_cancel_registered st pair order_id reply :
  dict_mem order_id (in_flight_orders st) = true ->
  let result := execute_cancel st pair order_id reply in
  snd result = task_result order_id reply
  /\ requests (fst result) = requests st ++ [cancel_request order_id]
  /\ (forall k, k <> order_id ->
        dict_mem k (in_flight_orders (fst result))
        = dict_mem k (in_flight_orders st)).
Proof.
  intros Hmem. unfold dict_mem in Hmem. unfold execute_cancel, task_result.
  destruct (dict_get order_id (in_flight_orders st)) as [o|]; [|discriminate].
  destruct reply as [[status|e]|]; cbv zeta.
  - destruct (py_is status "canceled"); cbn [fst snd];
      autorewrite with market; repeat split; try reflexivity;
      intros k Hk; rewrite ?dict_mem_del_other by exact Hk; reflexivity.
  - destruct e; cbn [fst snd]; autorewrite with market;
      try (repeat split; try reflexivity; intros k Hk; reflexivity).
    destruct (py_in "20002" error_payload) as [[|]|e]; cbn [fst snd];
      autorewrite with market; repeat split; try reflexivity;
      intros k Hk; rewrite ?dict_mem_del_other by exact Hk; reflexivity.
  - cbn [fst snd]. autorewrite with market. repeat split; reflexivity.
Qed.

Lemma run_cancel_tasks_registered replies : forall open_orders st,
  Forall (fun o => dict_mem (client_order_id o) (in_flight_orders st) = true)
    open_orders ->
  NoDup (map client_order_id open_orders) ->
  snd (run_cancel_tasks st open_orders replies)
  = map (fun o => task_result (client_order_id o)
                    (replies (client_order_id o))) open_orders
  /\ requests (fst (run_cancel_tasks st open_orders replies))
     = requests st ++ map cancel_request (map client_order_id open_orders).
Proof.
  induction open_orders as [|o rest IH]; intros st Hall Hnd.
  - simpl. rewrite app_nil_r. split; reflexivity.
  - inversion Hall as [|o' rest' Ho Hrest]; subst.
    inversion Hnd as [|i ids Hnotin Hnd']; subst.
    destruct (execute_cancel_registered st (trading_pair o) (client_order_id o)
                (replies (client_order_id o)) Ho) as (Hres & Hreq & Hkeep).
    simpl.
    destruct (execute_cancel st (trading_pair o) (client_order_id o)
                (replies (client_order_id o))) as [st1 r] eqn:E.
    cbn [fst snd] in Hres, Hreq, Hkeep.
    assert (Hall1 : Forall (fun o' => dict_mem (client_order_id o')
                                        (in_flight_orders st1) = true) rest).
    { rewrite Forall_forall in Hrest |- *. intros o' Hin.
      rewrite Hkeep; [apply Hrest, Hin|].
      intros Heq. apply Hnotin. rewrite <- Heq. apply in_map, Hin. }
    destruct (IH st1 Hall1 Hnd') as [IH1 IH2].
    destruct (run_cancel_tasks st1 rest replies) as [st2 rs].
    cbn [fst snd] in *. split.
    + rewrite Hres, IH1. reflexivity.
    + rewrite IH2, Hreq, <- app_assoc. reflexivity.
Qed.

Lemma filter_all {A : Type} (p : A -> bool) (l : list A) :
  (forall x, In x l -> p x = true) -> filter p l = l.
Proof.
  intros H. apply forallb_filter_id, forallb_forall. exact H.
Qed.

Lemma filter_twice (keep also : string -> bool) (ids : list string) :
  filter also (filter keep ids) = filter (fun i => andb (keep i) (also i)) ids.
Proof.
  induction ids as [|i ids IH]; [reflexivity|]. simpl.
  destruct (keep i); simpl; [destruct (also i)|]; rewrite IH; reflexivity.
Qed.

Lemma list_remove_nodup x : forall ids,
  NoDup ids -> In x ids ->
  list_remove x ids = Some (filter (fun i => negb (String.eqb i x)) ids).
Proof.
  induction ids as [|y ids IH]; intros Hnd Hin; [destruct Hin|].
  inversion Hnd as [|y' ids' Hnotin Hnd']; subst. simpl.
  destruct (String.eqb y x) eqn:E.
  - apply String.eqb_eq in E. subst y. simpl. f_equal. symmetry.
    apply filter_all. intros i Hi.
    destruct (String.eqb i x) eqn:E'; [|reflexivity].
    apply String.eqb_eq in E'. subst i. contradiction.
  - destruct Hin as [Heq|Hin].
    + subst y. rewrite String.eqb_refl in E. discriminate.
    + rewrite (IH Hnd' Hin). reflexivity.
Qed.

Lemma task_result_confirmed i reply :
  venue_confirmed reply = true -> task_result i reply = Returned (Some i).
Proof.
  destruct reply as [[[status|]|e]|]; simpl; try discriminate. reflexivity.
Qed.

Lemma task_result_failed i reply :
  request_failed reply = true ->
  task_result i reply = Returned None
  \/ task_result i reply = Raised CancelledError.
Proof.
  destruct reply as [[status|e]|]; simpl; try discriminate.
  destruct e; try discriminate; auto.
Qed.

Lemma task_result_waiting i reply :
  is_waiting (task_result i reply) = is_unresolved reply.
Proof.
  destruct reply as [[status|e]|]; simpl; try reflexivity.
  destruct e; try reflexivity.
  destruct (py_in "20002" error_payload); reflexivity.
Qed.

Lemma report_results_failed st r rest ids acc :
  r = Returned None \/ r = Raised CancelledError ->
  report_results st (r :: rest) ids acc
  = report_results (logger st WARNING FailedToCancelAllOrders "") rest ids acc.
Proof. intros [-> | ->]; reflexivity. Qed.

(** The loop over the results when every task ended confirmed or failed: the
    confirmed ids leave the list of ids and are reported successful. *)
Lemma report_results_confirmed replies : forall todo st ids acc,
  NoDup ids -> NoDup todo ->
  (forall i, In i todo -> In i ids) ->
  forallb (fun i => venue_confirmed (replies i) || request_failed (replies i))
    todo = true ->
  exists st',
    report_results st (map (fun i => task_result i (replies i)) todo) ids acc
    = (st',
       filter (fun i => negb (existsb (String.eqb i)
                                (filter (fun j => venue_confirmed (replies j))
                                   todo))) ids,
       acc ++ map (fun i => mkCancellationResult i true)
                (filter (fun j => venue_confirmed (replies j)) todo),
       false)
    /\ requests st' = requests st.
Proof.
  induction todo as [|i todo IH]; intros st ids acc Hnd Hnd2 Hincl Hall.
  - exists st. simpl. rewrite app_nil_r, filter_all by reflexivity.
    split; reflexivity.
  - inversion Hnd2 as [|i' todo' Hnotin Hnd2']; subst.
    simpl in Hall. apply andb_true_iff in Hall. destruct Hall as [Hi Hall].
    simpl map. simpl filter.
    destruct (venue_confirmed (replies i)) eqn:Hc.
    + rewrite (task_result_confirmed i _ Hc). simpl report_results.
      rewrite (list_remove_nodup i ids Hnd (Hincl i (or_introl eq_refl))).
      destruct (IH st (filter (fun j => negb (String.eqb j i)) ids)
                  (acc ++ [mkCancellationResult i true]))
        as [st' [Hrep Hreq]].
      * apply NoDup_filter, Hnd.
      * exact Hnd2'.
      * intros j Hj. apply filter_In. split; [apply Hincl; right; exact Hj|].
        destruct (String.eqb j i) eqn:E; [|reflexivity].
        apply String.eqb_eq in E. subst j. contradiction.
      * exact Hall.
      * exists st'. split; [|exact Hreq].
        rewrite Hrep, filter_twice, <- app_assoc. simpl.
        rewrite (filter_ext _
                   (fun j => negb (String.eqb j i
                                   || existsb (String.eqb j)
                                        (filter (fun k => venue_confirmed (replies k))
                                           todo)))); [reflexivity|].
        intros j. rewrite negb_orb. reflexivity.
    + simpl in Hi. destruct (task_result_failed i _ Hi) as [Hr|Hr].
      all: destruct (IH (logger st WARNING FailedToCancelAllOrders "") ids acc
                       Hnd Hnd2' (fun j Hj => Hincl j (or_intror Hj)) Hall)
             as [st' [Hrep Hreq]].
      all: exists st'; split; [|exact Hreq].
      all: rewrite Hr; simpl report_results; exact Hrep.
Qed.

Lemma dict_mem_in {V : Type} k (v : V) d : In (k, v) d -> dict_mem k d = true.
Proof.
  unfold dict_mem. induction d as [|[k' v'] d IH]; intros Hin; [destruct Hin|].
  simpl. destruct (String.eqb k' k) eqn:E; [reflexivity|].
  destruct Hin as [Heq|Hin]; [|apply IH, Hin].
  injection Heq as -> ->. rewrite String.eqb_refl in E. discriminate.
Qed.

Lemma kept_ids_distinct (keep : InFlightOrder -> bool) :
  forall orders : list InFlightOrder,
    NoDup (map client_order_id orders) ->
    NoDup (map client_order_id (filter keep orders)).
Proof.
  intros orders. induction orders as [|o orders IH]; intros Hnd; [constructor|].
  simpl in Hnd. inversion Hnd as [|i ids Hfresh Hnd']; subst. simpl.
  destruct (keep o); [|apply IH, Hnd'].
  simpl. constructor; [|apply IH, Hnd'].
  intros Hin. apply Hfresh. apply in_map_iff in Hin.
  destruct Hin as (o' & Hid & Hin). apply filter_In in Hin.
  apply in_map_iff. exists o'. tauto.
Qed.

Lemma registry_ok_open st :
  registry_ok st ->
  NoDup (open_order_ids st)
  /\ Forall (fun o => dict_mem (client_order_id o) (in_flight_orders st) = true)
       (filter is_open (dict_values (in_flight_orders st))).
Proof.
  intros [Hnd Hkeyed]. rewrite Forall_forall in Hkeyed. split.
  - unfold open_order_ids. apply kept_ids_distinct.
    unfold dict_values. rewrite map_map.
    rewrite (map_ext_in _ fst); [exact Hnd|]. exact Hkeyed.
  - apply Forall_forall. intros o Hin. apply filter_In in Hin.
    destruct Hin as [Hin _]. unfold dict_values in Hin.
    apply in_map_iff in Hin. destruct Hin as ([k o'] & Heq & Hin).
    simpl in Heq. subst o'. assert (Hk := Hkeyed _ Hin). simpl in Hk.
    rewrite Hk. exact (dict_mem_in _ _ _ Hin).
Qed.

Lemma existsb_of_map {A B : Type} (test : B -> bool) (g : A -> B) :
  forall l, existsb test (map g l) = existsb (fun a => test (g a)) l.
Proof.
  intros l. induction l as [|a l IH]; simpl; [|rewrite IH]; reflexivity.
Qed.

Lemma existsb_pointwise {A : Type} (f g : A -> bool) (l : list A) :
  (forall x, f x = g x) -> existsb f l = existsb g l.
Proof.
  intros H. induction l as [|x l IH]; simpl; [|rewrite H, IH]; reflexivity.
Qed.

Lemma confirmed_or_failed_resolved (replies : string -> CancelReply)
  (ids : list string) :
  forallb (fun i => venue_confirmed (replies i) || request_failed (replies i))
    ids = true ->
  existsb (fun i => is_unresolved (replies i)) ids = false.
Proof.
  induction ids as [|i ids IH]; [reflexivity|]. simpl.
  intros H. apply andb_true_iff in H. destruct H as [Hi H].
  rewrite (IH H), orb_false_r.
  destruct (replies i) as [r|]; [reflexivity|discriminate].
Qed.

Lemma filter_not_in_filter (p : string -> bool) (ids : list string) :
  filter (fun i => negb (existsb (String.eqb i) (filter p ids))) ids
  = filter (fun i => negb (p i)) ids.
Proof.
  apply filter_ext_in. intros i Hin. f_equal.
  destruct (p i) eqn:Hp.
  - apply existsb_exists. exists i. split; [|apply String.eqb_refl].
    apply filter_In. split; assumption.
  - destruct (existsb (String.eqb i) (filter p ids)) eqn:E; [|reflexivity].
    apply existsb_exists in E. destruct E as (j & Hj & Heq).
    apply String.eqb_eq in Heq. subst j. apply filter_In in Hj.
    destruct Hj as [_ Hj]. congruence.
Qed.

(** C6, as the code has it.  [cancel_all] issues one cancel request for each
    open order.  When the timeout expires while a task still waits for its
    answer, every open order is reported as failed, the confirmed ones
    included: with N open orders and no answer in time, N requests and N
    failed results.  When every task has ended, with the cancellation
    confirmed by the venue or the request failed in the request layer, the
    confirmed orders are reported as successful and the others as failed. *)
Theorem cancel_all_reports (st : Market) (replies : string -> CancelReply) :
  registry_ok st ->
  requests (fst (cancel_all st replies))
  = requests st ++ map cancel_request (open_order_ids st)
  /\ (existsb (fun i => is_unresolved (replies i)) (open_order_ids st) = true ->
      snd (cancel_all st replies)
      = map (fun i => mkCancellationResult i false) (open_order_ids st))
  /\ (forallb (fun i => venue_confirmed (replies i) || request_failed (replies i))
        (open_order_ids st) = true ->
      snd (cancel_all st replies)
      = map (fun i => mkCancellationResult i true)
          (filter (fun i => venue_confirmed (replies i)) (open_order_ids st))
        ++ map (fun i => mkCancellationResult i false)
             (filter (fun i => negb (venue_confirmed (replies i)))
                (open_order_ids st))).
Proof.
  intros Hok. destruct (registry_ok_open st Hok) as [Hnd Hmem].
  unfold cancel_all, open_order_ids in *.
  set (open_orders := filter is_open (dict_values (in_flight_orders st))) in *.
  destruct open_orders as [|o rest] eqn:Hopen.
  - simpl. rewrite app_nil_r. repeat split; reflexivity.
  - cbn [List.length Nat.eqb]. clear Hopen.
    remember (o :: rest) as opened eqn:Hoo. clear Hoo o rest.
    assert (Hmem' : Forall (fun o => dict_mem (client_order_id o)
               (in_flight_orders (logger st DEBUG CancelOrderIds "")) = true)
               opened) by exact Hmem.
    destruct (run_cancel_tasks_registered replies opened
                (logger st DEBUG CancelOrderIds "") Hmem' Hnd)
      as [Hres Hreq].
    destruct (run_cancel_tasks (logger st DEBUG CancelOrderIds "")
                opened replies) as [st1 results].
    cbn [fst snd] in Hres, Hreq. rewrite requests_logger in Hreq.
    assert (Hwait : existsb is_waiting results
                    = existsb (fun i => is_unresolved (replies i))
                        (map client_order_id opened)).
    { rewrite Hres, !existsb_of_map. apply existsb_pointwise.
      intros o. apply task_result_waiting. }
    rewrite Hwait.
    destruct (existsb (fun i => is_unresolved (replies i))
                (map client_order_id opened)) eqn:Hun.
    + cbn [fst snd]. rewrite requests_logger. split; [exact Hreq|].
      split; [intros _; reflexivity|].
      intros Hall. rewrite (confirmed_or_failed_resolved _ _ Hall) in Hun.
      discriminate.
    + assert (Hres' : results
                      = map (fun i => task_result i (replies i))
                          (map client_order_id opened))
        by (rewrite Hres, map_map; reflexivity).
      rewrite Hres'. split; [|split; [intros H; discriminate H|]].
      * destruct (report_results st1
                    (map (fun i => task_result i (replies i))
                       (map client_order_id opened))
                    (map client_order_id opened) [])
          as [[[st2 ids] reported] raised] eqn:E.
        assert (Hreq2 : requests st2 = requests st1).
        { clear - E. revert st1 E.
          generalize (map client_order_id opened) at 2 as cur.
          generalize (@nil CancellationResult) as acc.
          induction (map (fun i => task_result i (replies i))
                       (map client_order_id opened)) as [|r rs IH];
            intros acc cur st1 E.
          - simpl in E. injection E as <- _ _ _. reflexivity.
          - simpl in E. destruct r as [[i|]|e|].
            + destruct (list_remove i cur).
              * apply IH in E. exact E.
              * injection E as <- _ _ _. reflexivity.
            + apply IH in E. rewrite E. reflexivity.
            + apply IH in E. rewrite E. reflexivity.
            + apply IH in E. rewrite E. reflexivity. }
        cbn [fst snd]. destruct raised; rewrite ?requests_logger, Hreq2;
          exact Hreq.
      * intros Hall.
        destruct (report_results_confirmed replies
                    (map client_order_id opened) st1
                    (map client_order_id opened) [] Hnd Hnd
                    (fun i H => H) Hall) as [st' [Hrep _]].
        rewrite Hrep. cbn [fst snd app].
        rewrite filter_not_in_filter. reflexivity.
Qed.

Lemma cancel_all_reports_witness :
  registry_ok two_open_orders
  /\ existsb (fun i => is_unresolved (confirmed_then_silent i))
       (open_order_ids two_open_orders) = true
  /\ snd (cancel_all two_open_orders confirmed_then_silent)
     = map (fun i => mkCancellationResult i false)
         (open_order_ids two_open_orders)
  /\ forallb (fun i => venue_confirmed (all_confirmed i)
                       || request_failed (all_confirmed i))
       (open_order_ids two_open_orders) = true
  /\ snd (cancel_all two_open_orders all_confirmed)
     = map (fun i => mkCancellationResult i true)
         (filter (fun i => venue_confirmed (all_confirmed i))
            (open_order_ids two_open_orders))
       ++ map (fun i => mkCancellationResult i false)
            (filter (fun i => negb (venue_confirmed (all_confirmed i)))
               (open_order_ids two_open_orders)).
Proof.
  assert (H1 : registry_ok two_open_orders).
  { split.
    - simpl. repeat constructor; simpl; intuition discriminate.
    - repeat constructor. }
  assert (H2 : existsb (fun i => is_unresolved (confirmed_then_silent i))
                 (open_order_ids two_open_orders) = true) by reflexivity.
  assert (H3 : forallb (fun i => venue_confirmed (all_confirmed i)
                                 || request_failed (all_confirmed i))
                 (open_order_ids two_open_orders) = true) by reflexivity.
  split; [exact H1|]. split; [exact H2|]. split.
  - exact (proj1 (proj2 (cancel_all_reports two_open_orders
                           confirmed_then_silent H1)) H2).
  - split; [exact H3|].
    exact (proj2 (proj2 (cancel_all_reports two_open_orders all_confirmed H1))
             H3).
Defined.

(** C6 fails.  With two open orders, the cancellation of the first confirmed
    and the second unanswered at the timeout, both are reported as failed.
    And an order whose cancel request the venue rejected is reported as
    successful while it is still registered. *)
Lemma cancel_all_misreports :
  (venue_confirmed (confirmed_then_silent "buy-ETHBTC-1") = true
   /\ snd (cancel_all two_open_orders confirmed_then_silent)
      = [mkCancellationResult "buy-ETHBTC-1" false;
         mkCancellationResult "sell-ETHBTC-2" false])
  /\ (snd (cancel_all scenario_market all_rejected)
      = [mkCancellationResult "buy-ETHBTC-1" true]
      /\ tracked (fst (cancel_all scenario_market all_rejected)) scenario_order
      /\ events (fst (cancel_all scenario_market all_rejected)) = []).
Proof. repeat split; reflexivity. Qed.

(** ** Submission *)

(** C7.  When the quantized amount of a buy or a sell is strictly below the
    minimum order size of the pair, the submission raises before
    [place_order] is reached and leaves the connector as it was: no request,
    no registered order, no event.  The exception is the [ValueError] of the
    size check whenever the rounding of the price has returned. *)
Theorem small_amount_fails_before_request {base : MarketBase}
  (side : TradeType) (st : Market) (order_id symbol : string)
  (amount : Decimal) (order_type : OrderType) (price : Decimal)
  (reply : PlaceReply) (trading_rule : TradingRule) (decimal_amount : Decimal) :
  dict_get symbol (trading_rules st) = Some trading_rule ->
  quantize_order_amount st symbol amount = Ok decimal_amount ->
  (decimal_amount <? min_order_size trading_rule)%dec = true ->
  exists e,
    submit_order side st order_id symbol amount order_type price reply
    = (st, Raise e)
    /\ (forall decimal_price,
          submitted_price st symbol order_type price = Ok decimal_price ->
          e = ValueError).
Proof.
  intros Hrule Hq Hlt.
  destruct side; unfold submit_order, execute_buy, execute_sell, dict_index,
    submitted_price; rewrite Hrule, Hq; destruct order_type;
    try destruct (c_quantize_order_price st symbol price) as [p|e];
    rewrite ?Hlt;
    first [ exists ValueError; split; [reflexivity|]; intros; reflexivity
          | exists e; split; [reflexivity|]; intros p H; discriminate H ].
Qed.

Lemma small_amount_fails_before_request_witness :
  dict_get "ETHBTC" (trading_rules ruled_market) = Some ETHBTC_rule
  /\ quantize_order_amount (base := plain_host) ruled_market "ETHBTC" (dec 4 4)
     = Ok s_decimal_0
  /\ (s_decimal_0 <? min_order_size ETHBTC_rule)%dec = true
  /\ exists e,
       execute_buy (base := plain_host) ruled_market "buy-ETHBTC-1" "ETHBTC"
         (dec 4 4) LIMIT (dec 100 0) (Response (Some "77"))
       = (ruled_market, Raise e)
       /\ (forall decimal_price,
             submitted_price (base := plain_host) ruled_market "ETHBTC" LIMIT
               (dec 100 0) = Ok decimal_price ->
             e = ValueError).
Proof.
  assert (H1 : dict_get "ETHBTC" (trading_rules ruled_market) = Some ETHBTC_rule)
    by reflexivity.
  assert (H2 : quantize_order_amount (base := plain_host) ruled_market "ETHBTC"
                 (dec 4 4) = Ok s_decimal_0) by reflexivity.
  assert (H3 : (s_decimal_0 <? min_order_size ETHBTC_rule)%dec = true)
    by reflexivity.
  split; [exact H1|]. split; [exact H2|]. split; [exact H3|].
  exact (small_amount_fails_before_request (base := plain_host) BUY
           ruled_market "buy-ETHBTC-1" "ETHBTC" (dec 4 4) LIMIT (dec 100 0)
           (Response (Some "77")) ETHBTC_rule s_decimal_0 H1 H2 H3).
Defined.

(** C9.  A buy or a sell that passes the size check sends its placement
    request; when [place_order] then raises, for any exception but the
    task-cancellation signal the submission returns, the order id is absent
    from the registry afterwards and exactly one event is emitted, the order
    failure; the task-cancellation signal propagates to the caller, no event
    is emitted and the registry is left as it was. *)
Theorem failed_placement_rolls_back {base : MarketBase}
  (side : TradeType) (st : Market) (order_id symbol : string)
  (amount : Decimal) (order_type : OrderType) (price : Decimal)
  (reply : PlaceReply) (e : Exn) (rule : TradingRule) (q p : Decimal) :
  dict_get symbol (trading_rules st) = Some rule ->
  quantize_order_amount st symbol amount = Ok q ->
  submitted_price st symbol order_type price = Ok p ->
  (q <? min_order_size rule)%dec = false ->
  reply_error reply = Some e ->
  let result :=
    submit_order side st order_id symbol amount order_type price reply in
  requests (fst result)
  = requests st
      ++ [place_order_request order_id symbol q
            (match side with BUY => true | SELL => false end) order_type p]
  /\ match e with
     | CancelledError =>
         snd result = Raise CancelledError
         /\ emitted st (fst result) = []
         /\ in_flight_orders (fst result) = in_flight_orders st
     | _ =>
         snd result = Ok tt
         /\ dict_get order_id (in_flight_orders (fst result)) = None
         /\ emitted st (fst result)
            = [MarketOrderFailureEvent (current_timestamp st) order_id
                 order_type]
     end.
Proof.
  intros Hrule Hq Hp Hmin Herr result. subst result.
  unfold submitted_price in Hp.
  destruct side; unfold submit_order, execute_buy, execute_sell, dict_index;
    rewrite Hrule, Hq, Hp, Hmin; unfold place_order; cbv zeta.
  all: destruct reply as [[id|]|e1]; simpl in Herr; [discriminate| |];
    injection Herr as <-.
  all: try destruct e1; cbn [fst snd].
  all: split; [autorewrite with market; reflexivity|].
  all: split; [reflexivity|]; split.
  all: try solve [autorewrite with market; apply dict_get_del_same].
  all: try solve [apply emitted_app; autorewrite with market;
                  rewrite ?app_nil_r; reflexivity].
  all: reflexivity.
Qed.

Lemma failed_placement_rolls_back_witness :
  dict_get "ETHBTC" (trading_rules ruled_market) = Some ETHBTC_rule
  /\ quantize_order_amount (base := plain_host) ruled_market "ETHBTC"
       (dec 10 1) = Ok (dec 10 1)
  /\ submitted_price (base := plain_host) ruled_market "ETHBTC" LIMIT
       (dec 100 0) = Ok (dec 100 0)
  /\ (dec 10 1 <? min_order_size ETHBTC_rule)%dec = false
  /\ reply_error (Failure IOError) = Some IOError
  /\ reply_error (Failure CancelledError) = Some CancelledError
  /\ (snd (execute_buy (base := plain_host) ruled_market "buy-ETHBTC-1"
             "ETHBTC" (dec 10 1) LIMIT (dec 100 0) (Failure IOError)) = Ok tt
      /\ dict_get "buy-ETHBTC-1"
           (in_flight_orders
              (fst (execute_buy (base := plain_host) ruled_market
                      "buy-ETHBTC-1" "ETHBTC" (dec 10 1) LIMIT (dec 100 0)
                      (Failure IOError))))
         = None
      /\ emitted ruled_market
           (fst (execute_buy (base := plain_host) ruled_market "buy-ETHBTC-1"
                   "ETHBTC" (dec 10 1) LIMIT (dec 100 0) (Failure IOError)))
         = [MarketOrderFailureEvent 0 "buy-ETHBTC-1" LIMIT])
  /\ (snd (execute_sell (base := plain_host) ruled_market "sell-ETHBTC-1"
             "ETHBTC" (dec 10 1) LIMIT (dec 100 0) (Failure CancelledError))
      = Raise CancelledError
      /\ emitted ruled_market
           (fst (execute_sell (base := plain_host) ruled_market
                   "sell-ETHBTC-1" "ETHBTC" (dec 10 1) LIMIT (dec 100 0)
                   (Failure CancelledError)))
         = []
      /\ in_flight_orders
           (fst (execute_sell (base := plain_host) ruled_market
                   "sell-ETHBTC-1" "ETHBTC" (dec 10 1) LIMIT (dec 100 0)
                   (Failure CancelledError)))
         = in_flight_orders ruled_market).
Proof.
  assert (H1 : dict_get "ETHBTC" (trading_rules ruled_market) = Some ETHBTC_rule)
    by reflexivity.
  assert (H2 : quantize_order_amount (base := plain_host) ruled_market "ETHBTC"
                 (dec 10 1) = Ok (dec 10 1)) by reflexivity.
  assert (H3 : submitted_price (base := plain_host) ruled_market "ETHBTC" LIMIT
                 (dec 100 0) = Ok (dec 100 0)) by reflexivity.
  assert (H4 : (dec 10 1 <? min_order_size ETHBTC_rule)%dec = false)
    by reflexivity.
  assert (H5 : reply_error (Failure IOError) = Some IOError) by reflexivity.
  assert (H6 : reply_error (Failure CancelledError) = Some CancelledError)
    by reflexivity.
  split; [exact H1|]. split; [exact H2|]. split; [exact H3|].
  split; [exact H4|]. split; [exact H5|]. split; [exact H6|]. split.
  - exact (proj2 (failed_placement_rolls_back (base := plain_host) BUY
                    ruled_market "buy-ETHBTC-1" "ETHBTC" (dec 10 1) LIMIT
                    (dec 100 0) (Failure IOError) IOError ETHBTC_rule
                    (dec 10 1) (dec 100 0) H1 H2 H3 H4 H5)).
  - exact (proj2 (failed_placement_rolls_back (base := plain_host) SELL
                    ruled_market "sell-ETHBTC-1" "ETHBTC" (dec 10 1) LIMIT
                    (dec 100 0) (Failure CancelledError) CancelledError
                    ETHBTC_rule (dec 10 1) (dec 100 0) H1 H2 H3 H4 H6)).
Defined.

(** ** Client order ids *)

Lemma string_of_Z_inj z1 z2 : string_of_Z z1 = string_of_Z z2 -> z1 = z2.
Proof.
  unfold string_of_Z. intros H.
  apply (f_equal NilEmpty.int_of_string) in H.
  rewrite !NilEmpty.isi in H. injection H as H.
  apply (f_equal Z.of_int) in H. rewrite !DecimalZ.of_to in H. exact H.
Qed.

Lemma append_inj_l (s a b : string) : (s ++ a)%string = (s ++ b)%string -> a = b.
Proof.
  induction s as [|c s IH]; simpl; intros H; [exact H|].
  injection H as H. apply IH, H.
Qed.

(** C8, as the code has it.  The client order id is the side, the pair and
    the integer part of the float product of the clock reading and [1e6];
    there is no counter.  Two buys of a pair, or two sells, get the same id
    exactly when these integers are the same, as they are whenever the two
    calls read the same clock value, whatever else the calls ask for; a buy
    and a sell never share an id. *)
Theorem order_id_is_side_pair_clock_product (trading_pair : string)
  (amount1 amount2 : Decimal) (order_type1 order_type2 : OrderType)
  (price1 price2 : Decimal) (now1 now2 : spec_float) :
  fst (c_buy trading_pair amount1 order_type1 price1 now1)
  = ("buy-" ++ trading_pair ++ "-"
     ++ string_of_Z (int_of_float (float_mul now1 (float_of_Z 1000000))))%string
  /\ fst (c_sell trading_pair amount1 order_type1 price1 now1)
     = ("sell-" ++ trading_pair ++ "-"
        ++ string_of_Z
             (int_of_float (float_mul now1 (float_of_Z 1000000))))%string
  /\ (fst (c_buy trading_pair amount1 order_type1 price1 now1)
      = fst (c_buy trading_pair amount2 order_type2 price2 now2)
      <-> tracking_nonce now1 = tracking_nonce now2)
  /\ (fst (c_sell trading_pair amount1 order_type1 price1 now1)
      = fst (c_sell trading_pair amount2 order_type2 price2 now2)
      <-> tracking_nonce now1 = tracking_nonce now2)
  /\ fst (c_buy trading_pair amount1 order_type1 price1 now1)
     = fst (c_buy trading_pair amount2 order_type2 price2 now1)
  /\ (forall other_pair,
        fst (c_buy trading_pair amount1 order_type1 price1 now1)
        <> fst (c_sell other_pair amount2 order_type2 price2 now2)).
Proof.
  unfold c_buy, c_sell. cbn [fst].
  split; [reflexivity|]. split; [reflexivity|]. repeat split.
  - intros H. apply string_of_Z_inj.
    apply (append_inj_l "-"), (append_inj_l trading_pair), (append_inj_l "buy-").
    exact H.
  - intros ->. reflexivity.
  - intros H. apply string_of_Z_inj.
    apply (append_inj_l "-"), (append_inj_l trading_pair), (append_inj_l "sell-").
    exact H.
  - intros ->. reflexivity.
  - intros other_pair H. simpl in H. discriminate H.
Qed.

(** C8 fails: two buys of a pair at two different readings of the clock,
    both floats of the format and some 0.5 microseconds apart, get the same
    client order id; so do two buys at one reading. *)
Lemma close_readings_same_order_id :
  valid_binary 53 1024 early_reading = true
  /\ valid_binary 53 1024 late_reading = true
  /\ SFltb early_reading late_reading = true
  /\ fst (c_buy "ETHBTC" (dec 10 1) LIMIT (dec 100 0) early_reading)
     = "buy-ETHBTC-1700000000123456"
  /\ fst (c_buy "ETHBTC" (dec 5 1) LIMIT (dec 101 0) late_reading)
     = "buy-ETHBTC-1700000000123456"
  /\ fst (c_buy "ETHBTC" (dec 5 1) MARKET s_decimal_0 early_reading)
     = "buy-ETHBTC-1700000000123456".
Proof. repeat split; vm_compute; reflexivity. Qed.

(** The integer in the id is not the whole microseconds of the reading: the
    float product rounds, here across a microsecond. *)
Lemma clock_product_rounds_up :
  valid_binary 53 1024 later_reading = true
  /\ whole_microseconds later_reading = 1700000000123456
  /\ tracking_nonce later_reading = 1700000000123457.
Proof. repeat split; vm_compute; reflexivity. Qed.

(** ** Quote amount and fee after a fill *)

(** C10.  A status update that raises the executed base amount overwrites
    the executed quote amount with the price of the update times the new
    cumulative base amount, and the fee paid with that quote amount times
    0.0007.  When the update also reports the order filled, the completion
    event carries these values: the whole executed amount is valued at the
    price of the last update. *)
Theorem quote_and_fee_at_last_price (st : Market) (o : InFlightOrder)
  (u : OrderUpdate) :
  tracked st o ->
  ((upd_cumQuantity u - executed_amount_base o) >? s_decimal_0)%dec = true ->
  let st' := poll_order st (client_order_id o) u in
  let quote_amount := (upd_price u * upd_cumQuantity u)%dec in
  (forall o',
     dict_get (client_order_id o) (in_flight_orders st') = Some o' ->
     executed_amount_base o' = upd_cumQuantity u
     /\ executed_amount_quote o' = quote_amount
     /\ fee_paid o' = (quote_amount * dec 7 4)%dec)
  /\ (upd_status u = "filled" ->
      emitted st st'
      = [fill_event st o u;
         match trade_type o with
         | BUY =>
             BuyOrderCompletedEvent (current_timestamp st) (client_order_id o)
               (base_asset o) (quote_asset o) (fee_asset_or o (base_asset o))
               (upd_cumQuantity u) quote_amount (quote_amount * dec 7 4)%dec
               (order_type o)
         | SELL =>
             SellOrderCompletedEvent (current_timestamp st) (client_order_id o)
               (base_asset o) (quote_asset o) (fee_asset_or o (quote_asset o))
               (upd_cumQuantity u) quote_amount (quote_amount * dec 7 4)%dec
               (order_type o)
         end]).
Proof.
  intros Htr Hdiff st' quote_amount. subst st' quote_amount. split.
  - intros o' Hget. rewrite (poll_order_stored st o u o' Htr Hget).
    unfold updated_order. cbv zeta.
    cbn [executed_amount_base set_last_state]. rewrite Hdiff.
    repeat split; reflexivity.
  - intros Hfilled. rewrite (poll_order_tracked st o u Htr).
    apply emitted_app. rewrite update_tracked_order_events. f_equal.
    unfold fill_events. rewrite Hdiff.
    unfold closing_events, is_open, is_done, is_cancelled.
    rewrite updated_order_state, Hfilled. cbn [existsb String.eqb Ascii.eqb
      Bool.eqb orb negb app].
    unfold completed_event, updated_order. cbv zeta.
    cbn [executed_amount_base set_last_state]. rewrite Hdiff.
    destruct (trade_type o) eqn:Hside; cbn; rewrite ?Hside; reflexivity.
Qed.

Lemma quote_and_fee_at_last_price_witness :
  tracked half_filled_market half_filled_order
  /\ ((upd_cumQuantity full_fill - executed_amount_base half_filled_order)
      >? s_decimal_0)%dec = true
  /\ upd_status full_fill = "filled"
  /\ emitted half_filled_market
       (poll_order half_filled_market (client_order_id half_filled_order)
          full_fill)
     = [OrderFilledEvent 0 "buy-ETHBTC-1" "ETHBTC" BUY LIMIT
          (dec 101 0) (dec 6 1) (mkTradeFee (dec 7 4)) "77";
        BuyOrderCompletedEvent 0 "buy-ETHBTC-1" (BaseOf "ETHBTC")
          (QuoteOf "ETHBTC") (BaseOf "ETHBTC")
          (dec 10 1) (dec 101 0 * dec 10 1)%dec
          ((dec 101 0 * dec 10 1) * dec 7 4)%dec LIMIT].
Proof.
  assert (H1 : tracked half_filled_market half_filled_order) by reflexivity.
  assert (H2 : ((upd_cumQuantity full_fill
                 - executed_amount_base half_filled_order)
                >? s_decimal_0)%dec = true) by reflexivity.
  assert (H3 : upd_status full_fill = "filled") by reflexivity.
  split; [exact H1|]. split; [exact H2|]. split; [exact H3|].
  exact (proj2 (quote_and_fee_at_last_price half_filled_market
                  half_filled_order full_fill H1 H2) H3).
Defined.

(** * Further properties of the connector *)

(** ** The registry *)

Section RegistryFacts.
Implicit Types (d : list (string * InFlightOrder)) (k : string).

Lemma dict_get_set_eq k (o : InFlightOrder) d :
  dict_get k (dict_set k o d) = Some o.
Proof.
  induction d as [|[k' o'] d IH]; simpl.
  - rewrite String.eqb_refl. reflexivity.
  - destruct (String.eqb k' k) eqn:E; simpl; rewrite E; auto.
Qed.

Lemma keys_dict_set k (o : InFlightOrder) d :
  map fst (dict_set k o d)
  = if dict_mem k d then map fst d else map fst d ++ [k].
Proof.
  unfold dict_mem. induction d as [|[k' o'] d IH]; simpl; [reflexivity|].
  destruct (String.eqb k' k) eqn:E; simpl; [reflexivity|].
  rewrite IH. destruct (dict_get k d); reflexivity.
Qed.

Lemma keys_dict_del k d :
  map fst (dict_del k d)
  = filter (fun i => negb (String.eqb i k)) (map fst d).
Proof.
  unfold dict_del. induction d as [|[k' o'] d IH]; simpl; [reflexivity|].
  destruct (String.eqb k' k); simpl; rewrite IH; reflexivity.
Qed.

Lemma dict_mem_keys k d : dict_mem k d = true <-> In k (map fst d).
Proof.
  unfold dict_mem. induction d as [|[k' o'] d IH]; simpl.
  - split; [discriminate|tauto].
  - destruct (String.eqb k' k) eqn:E.
    + apply String.eqb_eq in E. split; auto.
    + apply String.eqb_neq in E. rewrite IH. split; [auto|].
      intros [H|H]; [contradiction|exact H].
Qed.

Lemma dict_del_absent k d : dict_mem k d = false -> dict_del k d = d.
Proof.
  intros H. unfold dict_del. apply filter_all. intros [k' o'] Hin. simpl.
  destruct (String.eqb k' k) eqn:E; [|reflexivity].
  apply String.eqb_eq in E. subst k'.
  rewrite (dict_mem_in _ _ _ Hin) in H. discriminate.
Qed.

Lemma dict_del_set_fresh k (o : InFlightOrder) d :
  dict_mem k d = false -> dict_del k (dict_set k o d) = d.
Proof.
  unfold dict_mem, dict_del. induction d as [|[k' o'] d IH]; simpl; intros H.
  - rewrite String.eqb_refl. reflexivity.
  - destruct (String.eqb k' k) eqn:E; [discriminate|].
    simpl. rewrite E. simpl. rewrite (IH H). reflexivity.
Qed.

(** A dict of orders, each under its own client order id. *)
Lemma registry_ok_set st k (o : InFlightOrder) :
  registry_ok st -> client_order_id o = k ->
  registry_ok (set_in_flight_orders st (dict_set k o (in_flight_orders st))).
Proof.
  intros [Hnd Hkeyed] Hk. unfold registry_ok. cbn [in_flight_orders
    set_in_flight_orders]. split.
  - rewrite keys_dict_set. destruct (dict_mem k (in_flight_orders st)) eqn:E;
      [exact Hnd|].
    apply NoDup_app; [exact Hnd|repeat constructor; intros []|].
    intros i Hi [Heq|[]]. subst i. apply dict_mem_keys in Hi. congruence.
  - revert Hkeyed. generalize (in_flight_orders st) as d.
    induction d as [|[k' o'] d IH]; simpl; intros Hall.
    + repeat constructor. exact Hk.
    + apply Forall_cons_iff in Hall. destruct Hall as [Hkv Hrest].
      destruct (String.eqb k' k) eqn:E.
      * apply String.eqb_eq in E. subst k'. constructor; assumption.
      * constructor; [exact Hkv|apply IH, Hrest].
Qed.

Lemma registry_ok_del st k :
  registry_ok st ->
  registry_ok (set_in_flight_orders st (dict_del k (in_flight_orders st))).
Proof.
  intros [Hnd Hkeyed]. unfold registry_ok. cbn [in_flight_orders
    set_in_flight_orders]. split.
  - rewrite keys_dict_del. apply NoDup_filter, Hnd.
  - unfold dict_del. rewrite Forall_forall in *. intros kv Hin.
    apply filter_In in Hin. apply Hkeyed, Hin.
Qed.

End RegistryFacts.

(** X1.  [c_start_tracking_order] enters a new order, in the state new and
    with nothing executed, under the client order id: a lookup of the id
    finds it, the other ids are untouched, and an order already held under
    the id is replaced in its place.  The registry stays a dict of orders
    under their own ids. *)
Theorem start_tracking_registers (st : Market)
  (order_id exchange_id pair : string) (kind : OrderType) (side : TradeType)
  (order_price order_amount : Decimal) :
  let o :=
    HitBTCInFlightOrder order_id exchange_id pair kind side order_price
      order_amount in
  let st' :=
    c_start_tracking_order st order_id exchange_id pair kind side order_price
      order_amount in
  dict_get order_id (in_flight_orders st') = Some o
  /\ (forall k, k <> order_id ->
        dict_get k (in_flight_orders st') = dict_get k (in_flight_orders st))
  /\ registry_keys st'
     = (if dict_mem order_id (in_flight_orders st) then registry_keys st
        else registry_keys st ++ [order_id])
  /\ (registry_ok st -> registry_ok st' /\ tracked st' o).
Proof.
  intros o st'. subst o st'. unfold c_start_tracking_order, registry_keys.
  cbn [in_flight_orders set_in_flight_orders].
  split; [apply dict_get_set_eq|]. split.
  - intros k Hk. apply dict_get_set_other. exact Hk.
  - split; [apply keys_dict_set|]. intros Hok. split.
    + apply registry_ok_set; [exact Hok|reflexivity].
    + unfold tracked. cbn [in_flight_orders set_in_flight_orders
        client_order_id HitBTCInFlightOrder]. apply dict_get_set_eq.
Qed.

Lemma start_tracking_registers_witness :
  registry_ok scenario_market
  /\ registry_ok two_open_orders
  /\ tracked two_open_orders
       (HitBTCInFlightOrder "sell-ETHBTC-2" "78" "ETHBTC" LIMIT SELL
          (dec 120 0) (dec 5 1)).
Proof.
  assert (H : registry_ok scenario_market).
  { split; [repeat constructor; intros []|repeat constructor]. }
  split; [exact H|].
  exact (proj2 (proj2 (proj2 (start_tracking_registers scenario_market
           "sell-ETHBTC-2" "78" "ETHBTC" LIMIT SELL (dec 120 0) (dec 5 1))))
           H).
Defined.

Lemma stop_tracking_absent st order_id :
  dict_mem order_id (in_flight_orders st) = false ->
  c_stop_tracking_order st order_id = st.
Proof. unfold c_stop_tracking_order. intros ->. reflexivity. Qed.

(** X2.  [c_stop_tracking_order] removes the id and nothing else; it does
    nothing for an id that is not registered, so that a second call changes
    nothing; removing an order right after it was entered under a new id
    gives the registry back.  The registry stays a dict of orders under
    their own ids. *)
Theorem stop_tracking_removes (st : Market) (order_id : string) :
  let st' := c_stop_tracking_order st order_id in
  dict_get order_id (in_flight_orders st') = None
  /\ (forall k, k <> order_id ->
        dict_get k (in_flight_orders st') = dict_get k (in_flight_orders st))
  /\ c_stop_tracking_order st' order_id = st'
  /\ (dict_mem order_id (in_flight_orders st) = false ->
      st' = st
      /\ forall exchange_id pair kind side order_price order_amount,
           c_stop_tracking_order
             (c_start_tracking_order st order_id exchange_id pair kind side
                order_price order_amount) order_id
           = st)
  /\ (registry_ok st -> registry_ok st').
Proof.
  intros st'. subst st'.
  assert (Hnone : dict_get order_id
                    (in_flight_orders (c_stop_tracking_order st order_id))
                  = None)
    by (rewrite registry_stop; apply dict_get_del_same).
  split; [exact Hnone|]. split.
  - intros k Hk. rewrite registry_stop. apply dict_get_del_other, Hk.
  - split.
    + apply stop_tracking_absent. unfold dict_mem. rewrite Hnone. reflexivity.
    + split.
      * intros Habs. split; [apply stop_tracking_absent, Habs|].
        intros exchange_id pair kind side order_price order_amount.
        unfold c_stop_tracking_order, c_start_tracking_order.
        cbn [in_flight_orders set_in_flight_orders].
        unfold dict_mem at 1. rewrite dict_get_set_eq.
        rewrite (dict_del_set_fresh _ _ _ Habs). destruct st; reflexivity.
      * intros Hok. unfold c_stop_tracking_order.
        destruct (dict_mem order_id (in_flight_orders st));
          [apply registry_ok_del, Hok|exact Hok].
Qed.

Lemma stop_tracking_removes_witness :
  dict_mem "sell-ETHBTC-2" (in_flight_orders scenario_market) = false
  /\ c_stop_tracking_order two_open_orders "sell-ETHBTC-2" = scenario_market
  /\ registry_ok scenario_market
  /\ registry_ok (c_stop_tracking_order scenario_market "buy-ETHBTC-1").
Proof.
  assert (H1 : dict_mem "sell-ETHBTC-2" (in_flight_orders scenario_market)
               = false) by reflexivity.
  assert (H2 : registry_ok scenario_market).
  { split; [repeat constructor; intros []|repeat constructor]. }
  split; [exact H1|]. split.
  - exact (proj2 (proj1 (proj2 (proj2 (proj2 (stop_tracking_removes
             scenario_market "sell-ETHBTC-2")))) H1)
             "78" "ETHBTC" LIMIT SELL (dec 120 0) (dec 5 1)).
  - split; [exact H2|].
    exact (proj2 (proj2 (proj2 (proj2 (stop_tracking_removes scenario_market
             "buy-ETHBTC-1")))) H2).
Defined.

(** ** What reconciliation and cancellation leave of the registry *)

Lemma keeps_refl st : keeps_registry st st.
Proof. split; [trivial|apply incl_refl]. Qed.

Lemma keeps_trans st1 st2 st3 :
  keeps_registry st1 st2 -> keeps_registry st2 st3 -> keeps_registry st1 st3.
Proof.
  intros [H1 I1] [H2 I2]. split; [auto|].
  eapply incl_tran; eassumption.
Qed.

Lemma keeps_same_registry st st' :
  in_flight_orders st' = in_flight_orders st -> keeps_registry st st'.
Proof.
  intros H. unfold keeps_registry, registry_ok, registry_keys. rewrite H.
  split; [trivial|apply incl_refl].
Qed.

Lemma keeps_trigger st e : keeps_registry st (c_trigger_event st e).
Proof. apply keeps_same_registry. reflexivity. Qed.

Lemma keeps_logger st l m a : keeps_registry st (logger st l m a).
Proof. apply keeps_same_registry. reflexivity. Qed.

Lemma keeps_api_request st r : keeps_registry st (api_request st r).
Proof. apply keeps_same_registry. reflexivity. Qed.

Lemma keeps_stop st k : keeps_registry st (c_stop_tracking_order st k).
Proof.
  split.
  - intros Hok. exact (proj2 (proj2 (proj2 (proj2 (stop_tracking_removes st k))))
                         Hok).
  - unfold registry_keys. rewrite registry_stop, keys_dict_del.
    intros i Hi. apply filter_In in Hi. tauto.
Qed.

Lemma keeps_write_through st o : keeps_registry st (write_through st o).
Proof.
  unfold write_through.
  destruct (dict_mem (client_order_id o) (in_flight_orders st)) eqn:E;
    [|apply keeps_refl].
  split.
  - intros Hok. apply registry_ok_set; [exact Hok|reflexivity].
  - unfold registry_keys. cbn [in_flight_orders set_in_flight_orders].
    rewrite keys_dict_set, E. apply incl_refl.
Qed.

Ltac keeps_steps :=
  repeat first
    [ apply keeps_refl
    | eapply keeps_trans; [|apply keeps_trigger]
    | eapply keeps_trans; [|apply keeps_logger]
    | eapply keeps_trans; [|apply keeps_api_request]
    | eapply keeps_trans; [|apply keeps_stop]
    | eapply keeps_trans; [|apply keeps_write_through] ].

Lemma keeps_update_tracked_order st o u :
  keeps_registry st (update_tracked_order st o u).
Proof.
  unfold update_tracked_order. cbv zeta.
  destruct (negb (recognized (upd_status u)));
  destruct (Dec.gtb _ _); destruct (is_open _); try destruct (is_done _);
  try destruct (negb (is_cancelled _)); try destruct (trade_type _);
  keeps_steps.
Qed.

Lemma keeps_poll_tracked_order st o reply :
  keeps_registry st (fst (poll_tracked_order st o reply)).
Proof.
  unfold poll_tracked_order. cbv zeta.
  destruct reply as [[|[u|] rest]|e]; cbn [fst].
  - keeps_steps.
  - eapply keeps_trans; [|apply keeps_update_tracked_order]. keeps_steps.
  - keeps_steps.
  - destruct e; cbn [fst]; try solve [keeps_steps].
    destruct (bind _ _); cbn [fst]; keeps_steps.
Qed.

Lemma keeps_poll_tracked_orders replies : forall orders st,
  keeps_registry st (fst (poll_tracked_orders st orders replies)).
Proof.
  induction orders as [|o orders IH]; intros st; simpl; [apply keeps_refl|].
  assert (H := keeps_poll_tracked_order st o (replies (client_order_id o))).
  destruct (poll_tracked_order st o (replies (client_order_id o)))
    as [st1 [[]|e]]; cbn [fst] in *.
  - eapply keeps_trans; [exact H|apply IH].
  - exact H.
Qed.

Lemma keeps_user_stream_event st m :
  keeps_registry st (user_stream_event st m).
Proof.
  unfold user_stream_event.
  destruct (dict_get (msg_clientOrderId m) (in_flight_orders st)) as [o|];
    [|apply keeps_refl].
  cbv zeta.
  destruct (negb (recognized (msg_status m))); destruct (_ && _);
  destruct (is_done _); try destruct (negb (is_cancelled _));
  try destruct (trade_type _); keeps_steps.
Qed.

Lemma keeps_execute_cancel st pair order_id reply :
  keeps_registry st (fst (execute_cancel st pair order_id reply)).
Proof.
  unfold execute_cancel.
  destruct (dict_get order_id (in_flight_orders st)) as [o|]; cbn [fst];
    [|keeps_steps].
  destruct reply as [[status|e]|]; cbv zeta; cbn [fst].
  - destruct (py_is status "canceled"); keeps_steps.
  - destruct e; cbn [fst]; try solve [keeps_steps].
    destruct (py_in "20002" error_payload) as [[|]|e]; cbn [fst]; keeps_steps.
  - keeps_steps.
Qed.

Lemma keeps_run_cancel_tasks replies : forall orders st,
  keeps_registry st (fst (run_cancel_tasks st orders replies)).
Proof.
  induction orders as [|o orders IH]; intros st; simpl; [apply keeps_refl|].
  assert (H := keeps_execute_cancel st (trading_pair o) (client_order_id o)
                 (replies (client_order_id o))).
  destruct (execute_cancel st (trading_pair o) (client_order_id o)
              (replies (client_order_id o))) as [st1 r]. cbn [fst] in H.
  assert (H2 := IH st1).
  destruct (run_cancel_tasks st1 orders replies) as [st2 rs]. cbn [fst] in *.
  eapply keeps_trans; eassumption.
Qed.

Lemma report_results_registry : forall results st ids acc,
  in_flight_orders (fst (fst (fst (report_results st results ids acc))))
  = in_flight_orders st
  /\ events (fst (fst (fst (report_results st results ids acc)))) = events st.
Proof.
  induction results as [|r results IH]; intros st ids acc; simpl.
  - split; reflexivity.
  - destruct r as [[i|]|e|].
    + destruct (list_remove i ids); [apply IH|split; reflexivity].
    + apply (IH (logger st WARNING FailedToCancelAllOrders "")).
    + apply (IH (logger st WARNING FailedToCancelAllOrders "")).
    + apply (IH (logger st WARNING FailedToCancelAllOrders "")).
Qed.

Lemma keeps_cancel_all st replies :
  keeps_registry st (fst (cancel_all st replies)).
Proof.
  unfold cancel_all.
  destruct (List.length _ =? 0)%nat; [apply keeps_refl|]. cbv zeta.
  assert (H := keeps_run_cancel_tasks replies
                 (filter is_open (dict_values (in_flight_orders st)))
                 (logger st DEBUG CancelOrderIds "")).
  destruct (run_cancel_tasks (logger st DEBUG CancelOrderIds "")
              (filter is_open (dict_values (in_flight_orders st))) replies)
    as [st1 results]. cbn [fst] in H.
  assert (H1 : keeps_registry st st1)
    by (eapply keeps_trans; [apply keeps_logger|exact H]).
  destruct (existsb is_waiting results); cbn [fst].
  - eapply keeps_trans; [exact H1|apply keeps_logger].
  - assert (Hr := report_results_registry results st1
                    (map client_order_id
                       (filter is_open (dict_values (in_flight_orders st))))
                    []).
    destruct (report_results st1 results _ []) as [[[st2 ids] reported] raised].
    cbn [fst] in *. destruct Hr as [Hr _].
    eapply keeps_trans; [exact H1|].
    destruct raised; apply keeps_same_registry; exact Hr.
Qed.

(** X3.  Polling, the user stream and cancellation never enter an order
    into the registry: the ids it holds afterwards were there before.  And
    they keep it a dict of orders under their own client order ids. *)
Theorem reconciliation_adds_no_order (st : Market)
  (status_replies : string -> StatusReply) (m : StreamMessage)
  (pair order_id : string) (reply : CancelReply)
  (cancel_replies : string -> CancelReply) :
  (incl (registry_keys (fst (update_order_status st status_replies)))
     (registry_keys st)
   /\ incl (registry_keys (user_stream_event st m)) (registry_keys st)
   /\ incl (registry_keys (fst (execute_cancel st pair order_id reply)))
        (registry_keys st)
   /\ incl (registry_keys (fst (cancel_all st cancel_replies)))
        (registry_keys st))
  /\ (registry_ok st ->
      registry_ok (fst (update_order_status st status_replies))
      /\ registry_ok (user_stream_event st m)
      /\ registry_ok (fst (execute_cancel st pair order_id reply))
      /\ registry_ok (fst (cancel_all st cancel_replies))).
Proof.
  assert (H1 : keeps_registry st (fst (update_order_status st status_replies))).
  { unfold update_order_status. cbv zeta.
    destruct (_ && _); [apply keeps_poll_tracked_orders|apply keeps_refl]. }
  assert (H2 := keeps_user_stream_event st m).
  assert (H3 := keeps_execute_cancel st pair order_id reply).
  assert (H4 := keeps_cancel_all st cancel_replies).
  destruct H1 as [A1 B1], H2 as [A2 B2], H3 as [A3 B3], H4 as [A4 B4].
  split; [tauto|]. intros Hok. auto.
Qed.

Lemma reconciliation_adds_no_order_witness :
  registry_ok scenario_market
  /\ registry_ok (user_stream_event scenario_market trade_report)
  /\ registry_ok (fst (cancel_all scenario_market all_confirmed)).
Proof.
  assert (H : registry_ok scenario_market).
  { split; [repeat constructor; intros []|repeat constructor]. }
  split; [exact H|].
  assert (T := proj2 (reconciliation_adds_no_order scenario_market
                        (fun _ => Response []) trade_report "ETHBTC"
                        "buy-ETHBTC-1" Unresolved all_confirmed) H).
  split; [exact (proj1 (proj2 T))|exact (proj2 (proj2 (proj2 T)))].
Defined.

(** ** The polling cycle *)

Lemma poll_tracked_order_requests st o reply :
  requests (fst (poll_tracked_order st o reply))
  = requests st ++ [get_order_status_request (client_order_id o)].
Proof.
  assert (Hupd : forall s u,
            requests (update_tracked_order s o u) = requests s).
  { intros s u. unfold update_tracked_order. cbv zeta.
    destruct (negb (recognized (upd_status u)));
    destruct (Dec.gtb _ _); destruct (is_open _); try destruct (is_done _);
    try destruct (negb (is_cancelled _)); try destruct (trade_type _);
    autorewrite with market;
    unfold write_through; try destruct (dict_mem _ _); reflexivity. }
  unfold poll_tracked_order. cbv zeta.
  destruct reply as [[|[u|] rest]|e]; cbn [fst];
    rewrite ?Hupd; autorewrite with market; try reflexivity.
  destruct e; cbn [fst]; autorewrite with market; try reflexivity.
  destruct (bind _ _); cbn [fst]; autorewrite with market; reflexivity.
Qed.

Lemma poll_tracked_order_outcome st o reply :
  snd (poll_tracked_order st o reply)
  = if reply_aborts reply
    then snd (poll_tracked_order st o reply)
    else Ok tt.
Proof.
  unfold poll_tracked_order, reply_aborts. cbv zeta.
  destruct reply as [[|[u|] rest]|e]; cbn [snd]; try reflexivity.
  destruct e; cbn [snd]; try reflexivity.
  destruct (bind _ _); reflexivity.
Qed.

Lemma poll_tracked_order_aborts st o reply :
  reply_aborts reply = true ->
  exists e, snd (poll_tracked_order st o reply) = Raise e.
Proof.
  unfold poll_tracked_order, reply_aborts. cbv zeta.
  destruct reply as [[|[u|] rest]|e]; cbn [snd]; try discriminate;
    intros H; try (eexists; reflexivity).
  destruct e; cbn [snd]; try (eexists; reflexivity).
  destruct (bind _ _); [discriminate|eexists; reflexivity].
Qed.

Lemma poll_tracked_orders_requests replies : forall orders st,
  requests (fst (poll_tracked_orders st orders replies))
  = requests st
      ++ map get_order_status_request
           (through_first (fun i => reply_aborts (replies i))
              (map client_order_id orders))
  /\ (snd (poll_tracked_orders st orders replies) = Ok tt
      <-> forallb (fun i => negb (reply_aborts (replies i)))
            (map client_order_id orders) = true).
Proof.
  induction orders as [|o orders IH]; intros st; simpl.
  - rewrite app_nil_r. split; [reflexivity|tauto].
  - assert (Hreq := poll_tracked_order_requests st o
                      (replies (client_order_id o))).
    assert (Hout := poll_tracked_order_outcome st o
                      (replies (client_order_id o))).
    assert (Hab := poll_tracked_order_aborts st o
                     (replies (client_order_id o))).
    destruct (poll_tracked_order st o (replies (client_order_id o)))
      as [st1 r]. cbn [fst snd] in *.
    destruct (reply_aborts (replies (client_order_id o))) eqn:E.
    + destruct (Hab eq_refl) as [e ->]. cbn [fst snd negb andb].
      split; [exact Hreq|]. split; discriminate.
    + subst r. cbn [negb andb]. destruct (IH st1) as [IH1 IH2].
      split; [|exact IH2].
      rewrite IH1, Hreq, <- app_assoc. reflexivity.
Qed.

(** X4.  A polling cycle issues its status requests in the order of the
    registry, one for each order, and stops at the first request whose
    answer makes it raise (an exception other than an API error, an API
    error without an error object, an empty list): the orders after that
    one are not polled in the cycle.  It returns normally exactly when no
    answer makes it raise.  When the poll is not due, by the ten-second
    tick or for want of orders, no request is issued. *)
Theorem polling_cycle_requests (st : Market) (replies : string -> StatusReply) :
  requests (fst (update_order_status st replies))
  = requests st
      ++ (if status_poll_due st
          then map get_order_status_request
                 (through_first (fun i => reply_aborts (replies i))
                    (registry_keys_of_values st))
          else [])
  /\ (snd (update_order_status st replies) = Ok tt
      <-> status_poll_due st = false
          \/ forallb (fun i => negb (reply_aborts (replies i)))
               (registry_keys_of_values st) = true).
Proof.
  unfold update_order_status, status_poll_due, registry_keys_of_values.
  cbv zeta.
  destruct (_ && _).
  - destruct (poll_tracked_orders_requests replies
                (dict_values (in_flight_orders st)) st) as [H1 H2].
    split; [exact H1|]. rewrite H2. split; [auto|].
    intros [H|H]; [discriminate|exact H].
  - cbn [fst snd]. rewrite app_nil_r. split; [reflexivity|]. split; auto.
Qed.

(** X5.  When the status request of a tracked order is answered with an
    API error that carries an error object, the order is removed from the
    registry and exactly one order-failure event is emitted, whatever the
    error code; the cycle goes on.  When the error has no error object (a
    null body), the handler itself raises: the order stays registered and no
    event is emitted.  A null first entry in the answer leaves the order and
    the events as they are. *)
Theorem failed_status_request_fails_order (st : Market) (o : InFlightOrder) :
  tracked st o ->
  (forall error_payload code,
     (err <- json_get "error" error_payload ;; json_get "code" err) = Ok code ->
     let result :=
       poll_tracked_order st o (Failure (HitBTCAPIError error_payload)) in
     snd result = Ok tt
     /\ dict_get (client_order_id o) (in_flight_orders (fst result)) = None
     /\ emitted st (fst result)
        = [MarketOrderFailureEvent (current_timestamp st) (client_order_id o)
             (order_type o)])
  /\ (let result := poll_tracked_order st o (Failure (HitBTCAPIError JNull)) in
      snd result = Raise AttributeError
      /\ tracked (fst result) o
      /\ emitted st (fst result) = [])
  /\ (forall rest,
        let result := poll_tracked_order st o (Response (None :: rest)) in
        snd result = Ok tt
        /\ in_flight_orders (fst result) = in_flight_orders st
        /\ emitted st (fst result) = []).
Proof.
  intros Htr. split; [|split].
  - intros error_payload code Hcode result. subst result.
    unfold poll_tracked_order. cbv zeta. rewrite Hcode. cbn [fst snd].
    split; [reflexivity|]. split.
    + autorewrite with market. apply dict_get_del_same.
    + apply emitted_app. autorewrite with market. reflexivity.
  - cbn [poll_tracked_order json_get bind fst snd].
    split; [reflexivity|]. split; [exact Htr|].
    apply emitted_app. cbn. rewrite app_nil_r. reflexivity.
  - intros rest result. subst result. cbn [poll_tracked_order fst snd].
    split; [reflexivity|]. split; [reflexivity|].
    apply emitted_app. cbn. rewrite app_nil_r. reflexivity.
Qed.

Lemma failed_status_request_fails_order_witness :
  tracked scenario_market scenario_order
  /\ (err <- json_get "error" order_not_found_body ;; json_get "code" err)
     = Ok (JNum 20002)
  /\ dict_get (client_order_id scenario_order)
       (in_flight_orders
          (fst (poll_tracked_order scenario_market scenario_order
                  (Failure (HitBTCAPIError order_not_found_body)))))
     = None.
Proof.
  assert (H1 : tracked scenario_market scenario_order) by reflexivity.
  assert (H2 : (err <- json_get "error" order_not_found_body ;;
                json_get "code" err) = Ok (JNum 20002)) by reflexivity.
  split; [exact H1|]. split; [exact H2|].
  exact (proj1 (proj2 (proj1 (failed_status_request_fails_order
           scenario_market scenario_order H1) order_not_found_body
           (JNum 20002) H2))).
Defined.

(** ** The two channels together *)

Lemma stream_fill_events_amounts st o m :
  fill_amounts (client_order_id o) (stream_fill_events st o m)
  = if (decimal_or_zero (msg_tradeQuantity m) >? s_decimal_0)%dec
       && py_is (msg_reportType m) "trade"
    then [decimal_or_zero (msg_tradeQuantity m)]
    else [].
Proof.
  unfold stream_fill_events. destruct (_ && _); [|reflexivity].
  simpl. rewrite String.eqb_refl. reflexivity.
Qed.

Lemma fill_amounts_stream_closing order_id st o :
  fill_amounts order_id (stream_closing_events st o) = [].
Proof.
  unfold stream_closing_events, completed_event.
  destruct (is_done o); [|reflexivity].
  destruct (is_cancelled o); [reflexivity|].
  destruct (trade_type o); reflexivity.
Qed.

(** X6.  A message of the user stream that keeps the order open leaves its
    executed base amount as it is, so the next status update computes its
    fill against the amount stored before the message and emits the fill it
    would have emitted without the message.  The stream itself emits a fill
    only for a positive [tradeQuantity] in a message whose [reportType] is
    the string object of the literal; for a message as it is delivered, its
    [reportType] decoded, the stream emits none and the execution is
    emitted once, by the poll. *)
Theorem stream_does_not_advance_polling (st : Market) (o : InFlightOrder)
  (m : StreamMessage) (u : OrderUpdate) :
  tracked st o ->
  msg_clientOrderId m = client_order_id o ->
  is_done (streamed_order o m) = false ->
  let st1 := user_stream_event st m in
  option_map executed_amount_base
    (dict_get (client_order_id o) (in_flight_orders st1))
  = Some (executed_amount_base o)
  /\ fill_amounts (client_order_id o) (emitted st st1)
     = (if (decimal_or_zero (msg_tradeQuantity m) >? s_decimal_0)%dec
           && py_is (msg_reportType m) "trade"
        then [decimal_or_zero (msg_tradeQuantity m)]
        else [])
  /\ (if decoded (msg_reportType m)
      then fill_amounts (client_order_id o) (emitted st st1)
      else [])
     = []
  /\ fill_amounts (client_order_id o)
       (emitted st1 (poll_order st1 (client_order_id o) u))
     = (if ((upd_cumQuantity u - executed_amount_base o) >? s_decimal_0)%dec
        then [(upd_cumQuantity u - executed_amount_base o)%dec]
        else []).
Proof.
  intros Htr Hid Hdone st1.
  assert (Hget : dict_get (msg_clientOrderId m) (in_flight_orders st) = Some o)
    by (rewrite Hid; exact Htr).
  assert (Hreg := user_stream_event_registry st o m Htr Hid).
  rewrite Hdone in Hreg. fold st1 in Hreg.
  assert (Hfill :
            fill_amounts (client_order_id o) (emitted st st1)
            = (if (decimal_or_zero (msg_tradeQuantity m) >? s_decimal_0)%dec
                  && py_is (msg_reportType m) "trade"
               then [decimal_or_zero (msg_tradeQuantity m)]
               else [])).
  { subst st1.
    rewrite (emitted_app _ _ _ (user_stream_event_events st o m Hget)).
    rewrite fill_amounts_app, fill_amounts_stream_closing, app_nil_r.
    apply stream_fill_events_amounts. }
  split; [rewrite Hreg; reflexivity|]. split; [exact Hfill|]. split.
  - destruct (decoded (msg_reportType m)) eqn:Hdec; [|reflexivity].
    rewrite Hfill, (decoded_is_not_the_literal _ "trade" Hdec), andb_false_r.
    reflexivity.
  - assert (Htr1 : tracked st1 (streamed_order o m)) by exact Hreg.
    change (client_order_id o) with (client_order_id (streamed_order o m)).
    rewrite (poll_order_tracked st1 _ u Htr1).
    rewrite update_tracked_order_fill_amounts. reflexivity.
Qed.

Lemma stream_does_not_advance_polling_witness :
  tracked scenario_market scenario_order
  /\ msg_clientOrderId decoded_trade_report = client_order_id scenario_order
  /\ is_done (streamed_order scenario_order decoded_trade_report) = false
  /\ fill_amounts "buy-ETHBTC-1"
       (emitted scenario_market
          (user_stream_event scenario_market decoded_trade_report))
     = []
  /\ fill_amounts "buy-ETHBTC-1"
       (emitted (user_stream_event scenario_market decoded_trade_report)
          (poll_order (user_stream_event scenario_market decoded_trade_report)
             "buy-ETHBTC-1" partial_fill))
     = [dec 4 1].
Proof.
  assert (H1 : tracked scenario_market scenario_order) by reflexivity.
  assert (H2 : msg_clientOrderId decoded_trade_report
               = client_order_id scenario_order) by reflexivity.
  assert (H3 : is_done (streamed_order scenario_order decoded_trade_report)
               = false) by reflexivity.
  split; [exact H1|]. split; [exact H2|]. split; [exact H3|].
  pose proof (stream_does_not_advance_polling scenario_market scenario_order
                decoded_trade_report partial_fill H1 H2 H3)
    as (_ & Hstream & _ & Hpoll).
  split; [exact Hstream|exact Hpoll].
Defined.

(** X7.  A message of the user stream that reports the order filled removes
    it and emits, after the fill event of the message if it is a trade
    report, one completion event for the side of the order.  The event
    carries the executed base and quote amounts as they were stored before
    the message, which the stream never writes, and as fee the [tradeFee] of
    this one message. *)
Theorem stream_completion_reports_stored_amounts (st : Market)
  (o : InFlightOrder) (m : StreamMessage) :
  tracked st o ->
  msg_clientOrderId m = client_order_id o ->
  msg_status m = "filled" ->
  let st1 := user_stream_event st m in
  dict_get (client_order_id o) (in_flight_orders st1) = None
  /\ emitted st st1
     = stream_fill_events st o m
         ++ [match trade_type o with
             | BUY =>
                 BuyOrderCompletedEvent (current_timestamp st)
                   (client_order_id o) (base_asset o) (quote_asset o)
                   (fee_asset_or o (base_asset o))
                   (executed_amount_base o) (executed_amount_quote o)
                   (decimal_or_zero (msg_tradeFee m)) (order_type o)
             | SELL =>
                 SellOrderCompletedEvent (current_timestamp st)
                   (client_order_id o) (base_asset o) (quote_asset o)
                   (fee_asset_or o (quote_asset o))
                   (executed_amount_base o) (executed_amount_quote o)
                   (decimal_or_zero (msg_tradeFee m)) (order_type o)
             end].
Proof.
  intros Htr Hid Hfilled st1. subst st1.
  assert (Hget : dict_get (msg_clientOrderId m) (in_flight_orders st) = Some o)
    by (rewrite Hid; exact Htr).
  assert (Hdone : is_done (streamed_order o m) = true)
    by (unfold is_done, streamed_order; cbn [last_state set_fee_paid
          set_last_state]; rewrite Hfilled; reflexivity).
  assert (Hcan : is_cancelled (streamed_order o m) = false)
    by (unfold is_cancelled, streamed_order; cbn [last_state set_fee_paid
          set_last_state]; rewrite Hfilled; reflexivity).
  split.
  - rewrite (user_stream_event_registry st o m Htr Hid), Hdone. reflexivity.
  - apply emitted_app. rewrite (user_stream_event_events st o m Hget).
    unfold stream_closing_events. rewrite Hdone, Hcan. cbn [negb].
    unfold completed_event, streamed_order.
    cbn [trade_type set_fee_paid set_last_state]. destruct (trade_type o);
      reflexivity.
Qed.

Lemma stream_completion_reports_stored_amounts_witness :
  tracked scenario_market scenario_order
  /\ msg_clientOrderId filled_report = client_order_id scenario_order
  /\ msg_status filled_report = "filled"
  /\ emitted scenario_market (user_stream_event scenario_market filled_report)
     = [OrderFilledEvent 0 "buy-ETHBTC-1" "ETHBTC" BUY LIMIT (dec 100 0)
          (dec 10 1) (mkTradeFee (dec 7 4)) "77";
        BuyOrderCompletedEvent 0 "buy-ETHBTC-1" (BaseOf "ETHBTC")
          (QuoteOf "ETHBTC") (BaseOf "ETHBTC") s_decimal_0 s_decimal_0
          (dec 7 2) LIMIT].
Proof.
  assert (H1 : tracked scenario_market scenario_order) by reflexivity.
  assert (H2 : msg_clientOrderId filled_report = client_order_id scenario_order)
    by reflexivity.
  assert (H3 : msg_status filled_report = "filled") by reflexivity.
  split; [exact H1|]. split; [exact H2|]. split; [exact H3|].
  exact (proj2 (stream_completion_reports_stored_amounts scenario_market
                  scenario_order filled_report H1 H2 H3)).
Defined.

(** ** Cancellation, whatever the answers *)

(** X8.  [execute_cancel] issues one request, the DELETE of the order, when
    the order is registered, and none when it is not, in which case it
    returns nothing.  It emits no event and leaves the registry alone, or it
    emits the one cancellation event of the order, removes the order and
    returns its id: it never emits another event and never touches another
    order. *)
Theorem cancel_touches_one_order (st : Market) (pair order_id : string)
  (reply : CancelReply) :
  let result := execute_cancel st pair order_id reply in
  requests (fst result)
  = requests st
      ++ (if dict_mem order_id (in_flight_orders st)
          then [cancel_request order_id]
          else [])
  /\ (dict_mem order_id (in_flight_orders st) = true
      \/ snd result = Returned None)
  /\ ((emitted st (fst result) = []
       /\ in_flight_orders (fst result) = in_flight_orders st)
      \/ (emitted st (fst result)
          = [OrderCancelledEvent (current_timestamp st) order_id]
          /\ in_flight_orders (fst result)
             = dict_del order_id (in_flight_orders st)
          /\ snd result = Returned (Some order_id))).
Proof.
  intros result. subst result. unfold execute_cancel, dict_mem.
  destruct (dict_get order_id (in_flight_orders st)) as [o|]; cbn [fst snd].
  - assert (Hnone : forall s : Market,
              events s = events st ->
              in_flight_orders s = in_flight_orders st ->
              emitted st s = [] /\ in_flight_orders s = in_flight_orders st).
    { intros s He Hr. split; [|exact Hr].
      apply emitted_app. rewrite app_nil_r. exact He. }
    assert (Hone : forall s : Market,
              events s = events st ->
              current_timestamp s = current_timestamp st ->
              in_flight_orders s = in_flight_orders st ->
              emitted st
                (c_trigger_event (c_stop_tracking_order s order_id)
                   (OrderCancelledEvent
                      (current_timestamp (c_stop_tracking_order s order_id))
                      order_id))
              = [OrderCancelledEvent (current_timestamp st) order_id]
              /\ in_flight_orders
                   (c_trigger_event (c_stop_tracking_order s order_id)
                      (OrderCancelledEvent
                         (current_timestamp (c_stop_tracking_order s order_id))
                         order_id))
                 = dict_del order_id (in_flight_orders st)).
    { intros s He Ht Hr. split.
      - apply emitted_app. autorewrite with market. rewrite He, Ht.
        reflexivity.
      - autorewrite with market. rewrite Hr. reflexivity. }
    destruct reply as [[status|e]|]; cbv zeta; cbn [fst snd].
    + destruct (py_is status "canceled"); cbn [fst snd];
        (split; [autorewrite with market; reflexivity|]); (split; [auto|]).
      * right. destruct (Hone (api_request st (cancel_request order_id))
                           eq_refl eq_refl eq_refl) as [A B].
        split; [exact A|]. split; [exact B|reflexivity].
      * left. apply Hnone; reflexivity.
    + destruct e; cbn [fst snd];
        try (split; [autorewrite with market; reflexivity|]; split; [auto|];
             left; apply Hnone; reflexivity).
      destruct (py_in "20002" error_payload) as [[|]|e]; cbn [fst snd];
        (split; [autorewrite with market; reflexivity|]); (split; [auto|]).
      * right. destruct (Hone (logger (api_request st (cancel_request order_id))
                                  INFO OrderDoesNotExist order_id)
                           eq_refl eq_refl eq_refl) as [A B].
        split; [exact A|]. split; [exact B|reflexivity].
      * left. apply Hnone; reflexivity.
      * left. apply Hnone; reflexivity.
    + split; [autorewrite with market; reflexivity|]. split; [auto|].
      left. apply Hnone; reflexivity.
  - rewrite app_nil_r. split; [reflexivity|]. split; [auto|].
    left. split; [|reflexivity]. apply emitted_app. rewrite app_nil_r.
    reflexivity.
Qed.

Lemma task_result_returns_id i reply :
  returns_id (task_result i reply) = venue_answered reply
  /\ (venue_answered reply = true -> task_result i reply = Returned (Some i)).
Proof.
  destruct reply as [[status|e]|]; simpl; try (split; [reflexivity|];
    first [reflexivity | discriminate]).
  destruct e; simpl; try (split; [reflexivity|discriminate]).
  destruct (py_in "20002" error_payload); simpl;
    (split; [reflexivity|]); first [reflexivity | discriminate].
Qed.

Lemma report_results_skips st r rest ids acc :
  returns_id r = false ->
  report_results st (r :: rest) ids acc
  = report_results (logger st WARNING FailedToCancelAllOrders "") rest ids acc.
Proof. destruct r as [[i|]|e|]; simpl; [discriminate| | |]; reflexivity. Qed.

(** The loop over the results of tasks that all ended: the ids the venue
    answered for leave the list of ids and are reported successful. *)
Lemma report_results_answered replies : forall todo st ids acc,
  NoDup ids -> NoDup todo ->
  (forall i, In i todo -> In i ids) ->
  exists st',
    report_results st (map (fun i => task_result i (replies i)) todo) ids acc
    = (st',
       filter (fun i => negb (existsb (String.eqb i)
                                (filter (fun j => venue_answered (replies j))
                                   todo))) ids,
       acc ++ map (fun i => mkCancellationResult i true)
                (filter (fun j => venue_answered (replies j)) todo),
       false).
Proof.
  induction todo as [|i todo IH]; intros st ids acc Hnd Hnd2 Hincl.
  - exists st. simpl. rewrite app_nil_r, filter_all by reflexivity.
    reflexivity.
  - inversion Hnd2 as [|i' todo' Hfresh Hnd2']; subst.
    simpl map. simpl filter.
    destruct (task_result_returns_id i (replies i)) as [Hret Hsome].
    destruct (venue_answered (replies i)) eqn:Hc.
    + rewrite (Hsome eq_refl). simpl report_results.
      rewrite (list_remove_nodup i ids Hnd (Hincl i (or_introl eq_refl))).
      destruct (IH st (filter (fun j => negb (String.eqb j i)) ids)
                  (acc ++ [mkCancellationResult i true])) as [st' Hrep].
      * apply NoDup_filter, Hnd.
      * exact Hnd2'.
      * intros j Hj. apply filter_In. split; [apply Hincl; right; exact Hj|].
        destruct (String.eqb j i) eqn:E; [|reflexivity].
        apply String.eqb_eq in E. subst j. contradiction.
      * exists st'. rewrite Hrep, filter_twice, <- app_assoc. simpl.
        rewrite (filter_ext _
                   (fun j => negb (String.eqb j i
                                   || existsb (String.eqb j)
                                        (filter (fun k => venue_answered (replies k))
                                           todo)))); [reflexivity|].
        intros j. rewrite negb_orb. reflexivity.
    + rewrite (report_results_skips st _ _ ids acc Hret).
      apply IH; [exact Hnd|exact Hnd2'|].
      intros j Hj. apply Hincl. right. exact Hj.
Qed.

Lemma split_by_test_permutation (test : string -> bool) (ids : list string) :
  Permutation (filter test ids ++ filter (fun i => negb (test i)) ids) ids.
Proof.
  induction ids as [|i ids IH]; simpl; [constructor|].
  destruct (test i); simpl.
  - constructor. exact IH.
  - apply Permutation_sym, Permutation_cons_app, Permutation_sym, IH.
Qed.

Lemma cancel_all_results_shape st replies :
  registry_ok st ->
  snd (cancel_all st replies)
  = if existsb (fun i => is_unresolved (replies i)) (open_order_ids st)
    then map (fun i => mkCancellationResult i false) (open_order_ids st)
    else map (fun i => mkCancellationResult i true)
           (filter (fun i => venue_answered (replies i)) (open_order_ids st))
         ++ map (fun i => mkCancellationResult i false)
              (filter (fun i => negb (venue_answered (replies i)))
                 (open_order_ids st)).
Proof.
  intros Hok. destruct (registry_ok_open st Hok) as [Hnd Hmem].
  unfold cancel_all, open_order_ids in *.
  destruct (filter is_open (dict_values (in_flight_orders st)))
    as [|o rest] eqn:Hopen; [reflexivity|].
  cbn [List.length Nat.eqb].
  remember (o :: rest) as opened eqn:Hoo. clear Hoo Hopen o rest.
  assert (Hmem' : Forall (fun o => dict_mem (client_order_id o)
             (in_flight_orders (logger st DEBUG CancelOrderIds "")) = true)
             opened) by exact Hmem.
  destruct (run_cancel_tasks_registered replies opened
              (logger st DEBUG CancelOrderIds "") Hmem' Hnd) as [Hres _].
  destruct (run_cancel_tasks (logger st DEBUG CancelOrderIds "")
              opened replies) as [st1 results].
  cbn [fst snd] in Hres.
  assert (Hwait : existsb is_waiting results
                  = existsb (fun i => is_unresolved (replies i))
                      (map client_order_id opened)).
  { rewrite Hres, !existsb_of_map. apply existsb_pointwise.
    intros o. apply task_result_waiting. }
  rewrite Hwait.
  destruct (existsb (fun i => is_unresolved (replies i))
              (map client_order_id opened)); [reflexivity|].
  assert (Hres' : results
                  = map (fun i => task_result i (replies i))
                      (map client_order_id opened))
    by (rewrite Hres, map_map; reflexivity).
  rewrite Hres'.
  destruct (report_results_answered replies (map client_order_id opened) st1
              (map client_order_id opened) [] Hnd Hnd (fun i H => H))
    as [st' Hrep].
  rewrite Hrep. cbn [fst snd app]. rewrite filter_not_in_filter. reflexivity.
Qed.

(** X9.  Whatever the venue answers and whether or not the timeout expires,
    [cancel_all] returns one result for each order that was open when it
    was called, and no other result: the ids of the results are the ids of
    the open orders, each once. *)
Theorem cancel_all_one_result_per_open_order (st : Market)
  (replies : string -> CancelReply) :
  registry_ok st ->
  Permutation (map result_order_id (snd (cancel_all st replies)))
    (open_order_ids st).
Proof.
  intros Hok. rewrite (cancel_all_results_shape st replies Hok).
  destruct (existsb _ _).
  - rewrite map_map. simpl. rewrite map_id. apply Permutation_refl.
  - rewrite map_app, !map_map. simpl. rewrite !map_id.
    apply split_by_test_permutation.
Qed.

Lemma cancel_all_one_result_per_open_order_witness :
  registry_ok two_open_orders
  /\ Permutation
       (map result_order_id (snd (cancel_all two_open_orders all_rejected)))
       (open_order_ids two_open_orders).
Proof.
  assert (H1 : registry_ok two_open_orders).
  { split.
    - simpl. repeat constructor; simpl; intuition discriminate.
    - repeat constructor. }
  split; [exact H1|].
  exact (cancel_all_one_result_per_open_order two_open_orders all_rejected H1).
Defined.

(** X10.  When every cancel task has ended before the timeout, [cancel_all]
    reports as successful the orders for whose request the venue sent an
    answer, be it the order or an error object, in the order of the
    registry, and after them as failed the orders whose request ended
    without an answer of the venue. *)
Theorem cancel_all_success_means_answered (st : Market)
  (replies : string -> CancelReply) :
  registry_ok st ->
  existsb (fun i => is_unresolved (replies i)) (open_order_ids st) = false ->
  snd (cancel_all st replies)
  = map (fun i => mkCancellationResult i true)
      (filter (fun i => venue_answered (replies i)) (open_order_ids st))
    ++ map (fun i => mkCancellationResult i false)
         (filter (fun i => negb (venue_answered (replies i)))
            (open_order_ids st)).
Proof.
  intros Hok Hres. rewrite (cancel_all_results_shape st replies Hok), Hres.
  reflexivity.
Qed.

Lemma cancel_all_success_means_answered_witness :
  registry_ok two_open_orders
  /\ existsb (fun i => is_unresolved (rejected_then_dropped i))
       (open_order_ids two_open_orders) = false
  /\ snd (cancel_all two_open_orders rejected_then_dropped)
     = [mkCancellationResult "buy-ETHBTC-1" true;
        mkCancellationResult "sell-ETHBTC-2" false].
Proof.
  assert (H1 : registry_ok two_open_orders).
  { split.
    - simpl. repeat constructor; simpl; intuition discriminate.
    - repeat constructor. }
  assert (H2 : existsb (fun i => is_unresolved (rejected_then_dropped i))
                 (open_order_ids two_open_orders) = false) by reflexivity.
  split; [exact H1|]. split; [exact H2|].
  exact (cancel_all_success_means_answered two_open_orders
           rejected_then_dropped H1 H2).
Defined.

(** ** Submission, on success and on failure *)

Lemma leb_of_gtb_false (a b : Decimal) :
  (a >? b)%dec = false -> (Dec.to_Q a <= Dec.to_Q b)%Q.
Proof. unfold Dec.gtb. apply ltb_to_Q_false. Qed.

Lemma quantized_amount_bounded {base : MarketBase} st symbol amount rule q :
  dict_get symbol (trading_rules st) = Some rule ->
  quantize_order_amount st symbol amount = Ok q ->
  (Dec.to_Q q <= Dec.to_Q (max_order_size rule))%Q \/ q = s_decimal_0.
Proof.
  unfold quantize_order_amount, c_quantize_order_amount, dict_index.
  intros ->. simpl.
  destruct (MarketBase_c_quantize_order_amount st symbol amount) as [q0|e];
    simpl; [|discriminate].
  destruct (c_get_price st symbol false) as [cp|e]; simpl; [|discriminate].
  destruct (q0 <? min_order_size rule)%dec.
  - intros [= <-]. right. reflexivity.
  - destruct (q0 >? max_order_size rule)%dec eqn:E; intros [= <-]; left.
    + apply Qle_refl.
    + apply leb_of_gtb_false, E.
Qed.

(** X11.  When the submission passes the size check and the venue accepts
    the placement, [execute_buy] and [execute_sell] have issued one request,
    the PUT of the order with the quantized amount and the submitted price;
    the order is registered under the client order id with the id the venue
    gave, in the state new and with nothing executed; and exactly one event
    is emitted, the creation event of the side. *)
Theorem accepted_placement_registers {base : MarketBase}
  (side : TradeType) (st : Market) (order_id symbol : string)
  (amount : Decimal) (order_type : OrderType) (price : Decimal)
  (exchange_id : string) (rule : TradingRule) (q p : Decimal) :
  dict_get symbol (trading_rules st) = Some rule ->
  quantize_order_amount st symbol amount = Ok q ->
  submitted_price st symbol order_type price = Ok p ->
  (q <? min_order_size rule)%dec = false ->
  let result :=
    submit_order side st order_id symbol amount order_type price
      (Response (Some exchange_id)) in
  snd result = Ok tt
  /\ requests (fst result)
     = requests st
         ++ [place_order_request order_id symbol q
               (match side with BUY => true | SELL => false end)
               order_type p]
  /\ dict_get order_id (in_flight_orders (fst result))
     = Some (HitBTCInFlightOrder order_id exchange_id symbol order_type side
               p q)
  /\ emitted st (fst result)
     = [match side with
        | BUY =>
            BuyOrderCreatedEvent (current_timestamp st) order_type symbol q p
              order_id
        | SELL =>
            SellOrderCreatedEvent (current_timestamp st) order_type symbol q p
              order_id
        end].
Proof.
  intros Hrule Hq Hp Hmin result. subst result.
  unfold submitted_price in Hp.
  assert (Hnew : forall s side',
            dict_get order_id
              (in_flight_orders
                 (c_start_tracking_order s order_id exchange_id symbol
                    order_type side' p q))
            = Some (HitBTCInFlightOrder order_id exchange_id symbol order_type
                      side' p q))
    by (intros s side'; apply dict_get_set_eq).
  destruct side; unfold submit_order, execute_buy, execute_sell, dict_index;
    rewrite Hrule, Hq, Hp, Hmin; unfold place_order; cbv zeta;
    rewrite Hnew; cbn [fst snd].
  all: split; [reflexivity|].
  all: split; [autorewrite with market; reflexivity|].
  all: split; [autorewrite with market; apply Hnew|].
  all: apply emitted_app; autorewrite with market; reflexivity.
Qed.

Lemma accepted_placement_registers_witness :
  dict_get "ETHBTC" (trading_rules ruled_market) = Some ETHBTC_rule
  /\ quantize_order_amount (base := plain_host) ruled_market "ETHBTC"
       (dec 10 1) = Ok (dec 10 1)
  /\ submitted_price (base := plain_host) ruled_market "ETHBTC" LIMIT
       (dec 100 0) = Ok (dec 100 0)
  /\ (dec 10 1 <? min_order_size ETHBTC_rule)%dec = false
  /\ dict_get "buy-ETHBTC-1"
       (in_flight_orders
          (fst (execute_buy (base := plain_host) ruled_market "buy-ETHBTC-1"
                  "ETHBTC" (dec 10 1) LIMIT (dec 100 0) (Response (Some "77")))))
     = Some scenario_order.
Proof.
  assert (H1 : dict_get "ETHBTC" (trading_rules ruled_market) = Some ETHBTC_rule)
    by reflexivity.
  assert (H2 : quantize_order_amount (base := plain_host) ruled_market "ETHBTC"
                 (dec 10 1) = Ok (dec 10 1)) by reflexivity.
  assert (H3 : submitted_price (base := plain_host) ruled_market "ETHBTC" LIMIT
                 (dec 100 0) = Ok (dec 100 0)) by reflexivity.
  assert (H4 : (dec 10 1 <? min_order_size ETHBTC_rule)%dec = false)
    by reflexivity.
  split; [exact H1|]. split; [exact H2|]. split; [exact H3|].
  split; [exact H4|].
  exact (proj1 (proj2 (proj2 (accepted_placement_registers
           (base := plain_host) BUY ruled_market "buy-ETHBTC-1" "ETHBTC"
           (dec 10 1) LIMIT (dec 100 0) "77" ETHBTC_rule (dec 10 1)
           (dec 100 0) H1 H2 H3 H4)))).
Defined.

(** X12.  Whatever the host's rounding does, a submission issues at most one
    request, and the quantity of a placement request that it issues is not
    below the minimum order size of the pair and, unless it is zero, not
    above the maximum. *)
Theorem placed_quantity_within_bounds {base : MarketBase}
  (side : TradeType) (st : Market) (order_id symbol : string)
  (amount : Decimal) (order_type : OrderType) (price : Decimal)
  (reply : PlaceReply) :
  let result :=
    submit_order side st order_id symbol amount order_type price reply in
  requests (fst result) = requests st
  \/ exists rule q p,
       dict_get symbol (trading_rules st) = Some rule
       /\ requests (fst result)
          = requests st
              ++ [place_order_request order_id symbol q
                    (match side with BUY => true | SELL => false end)
                    order_type p]
       /\ (Dec.to_Q (min_order_size rule) <= Dec.to_Q q)%Q
       /\ ((Dec.to_Q q <= Dec.to_Q (max_order_size rule))%Q
           \/ q = s_decimal_0).
Proof.
  intros result. subst result.
  destruct (dict_get symbol (trading_rules st)) as [rule|] eqn:Hrule.
  2:{ left. destruct side; unfold submit_order, execute_buy, execute_sell,
        dict_index; rewrite Hrule; reflexivity. }
  destruct (quantize_order_amount st symbol amount) as [q|e] eqn:Hq.
  2:{ left. destruct side; unfold submit_order, execute_buy, execute_sell,
        dict_index; rewrite Hrule, Hq; reflexivity. }
  assert (Hmax := quantized_amount_bounded st symbol amount rule q Hrule Hq).
  destruct (submitted_price st symbol order_type price) as [p|e] eqn:Hp;
    unfold submitted_price in Hp.
  2:{ left. destruct side; unfold submit_order, execute_buy, execute_sell,
        dict_index; rewrite Hrule, Hq, Hp; reflexivity. }
  destruct (q <? min_order_size rule)%dec eqn:Hmin.
  { left. destruct side; unfold submit_order, execute_buy, execute_sell,
      dict_index; rewrite Hrule, Hq, Hp, Hmin; reflexivity. }
  right. exists rule, q, p. split; [reflexivity|]. split.
  - destruct side; unfold submit_order, execute_buy, execute_sell,
      dict_index; rewrite Hrule, Hq, Hp, Hmin; unfold place_order;
      cbv zeta; destruct reply as [[id|]|e]; try destruct e; cbn [fst];
      try destruct (dict_get order_id _);
      autorewrite with market; reflexivity.
  - split; [apply ltb_to_Q_false, Hmin|exact Hmax].
Qed.

(** X13.  A submission that raises has registered nothing and emitted
    nothing; unless the exception is the task-cancellation signal it has
    issued no request either, the connector being as it was.  A missing
    trading rule is a [KeyError].  A submission that returns has emitted
    exactly one event, the creation of the order or its failure. *)
Theorem submission_raises_or_emits_one_event {base : MarketBase}
  (side : TradeType) (st : Market) (order_id symbol : string)
  (amount : Decimal) (order_type : OrderType) (price : Decimal)
  (reply : PlaceReply) :
  let result :=
    submit_order side st order_id symbol amount order_type price reply in
  match snd result with
  | Raise e =>
      in_flight_orders (fst result) = in_flight_orders st
      /\ events (fst result) = events st
      /\ (e = CancelledError \/ fst result = st)
  | Ok _ =>
      exists event, emitted st (fst result) = [event]
  end
  /\ (dict_get symbol (trading_rules st) <> None
      \/ result = (st, Raise KeyError)).
Proof.
  intros result. subst result. split.
  - destruct side; unfold submit_order, execute_buy, execute_sell.
    all: destruct (dict_index symbol (trading_rules st)) as [rule|e0];
      [|cbn [fst snd]; auto].
    all: destruct (quantize_order_amount st symbol amount) as [q|e0];
      [|cbn [fst snd]; auto].
    all: destruct (match order_type with
                   | LIMIT => c_quantize_order_price st symbol price
                   | MARKET => Ok s_decimal_0
                   end) as [p|e0]; [|cbn [fst snd]; auto].
    all: destruct (q <? min_order_size rule)%dec; [cbn [fst snd]; auto|].
    all: unfold place_order; cbv zeta.
    all: destruct reply as [[id|]|e1]; cbn [fst snd].
    all: try (eexists; apply emitted_app;
              try destruct (dict_get order_id _);
              autorewrite with market; reflexivity).
    all: destruct e1; cbn [fst snd];
      try (eexists; apply emitted_app; autorewrite with market; reflexivity).
    all: auto.
  - destruct (dict_get symbol (trading_rules st)) eqn:Hrule.
    + left. discriminate.
    + right. destruct side; unfold submit_order, execute_buy, execute_sell,
        dict_index; rewrite Hrule; reflexivity.
Qed.

(** ** Trading rules *)

Section DictSetFacts.
Context {V : Type}.

Lemma dict_get_set (k k' : string) (v : V) (d : list (string * V)) :
  dict_get k (dict_set k' v d)
  = if String.eqb k' k then Some v else dict_get k d.
Proof.
  induction d as [|[k0 v0] d IH]; simpl.
  - reflexivity.
  - destruct (String.eqb k0 k') eqn:E0; simpl.
    + apply String.eqb_eq in E0. subst k0.
      destruct (String.eqb k' k); reflexivity.
    + rewrite IH. destruct (String.eqb k0 k) eqn:E1; [|reflexivity].
      apply String.eqb_eq in E1. subst k0. rewrite String.eqb_sym, E0.
      reflexivity.
Qed.

End DictSetFacts.

Lemma find_in_app (test : TradingRule -> bool) (l1 l2 : list TradingRule) :
  find test (l1 ++ l2)
  = match find test l1 with
    | Some r => Some r
    | None => find test l2
    end.
Proof.
  induction l1 as [|r l1 IH]; simpl; [reflexivity|].
  destruct (test r); [reflexivity|exact IH].
Qed.

Lemma rule_table_lookup (pair : string) : forall rules table,
  dict_get pair
    (fold_left (fun t r => dict_set (rule_trading_pair r) r t) rules table)
  = match last_rule_for pair rules with
    | Some r => Some r
    | None => dict_get pair table
    end.
Proof.
  induction rules as [|r rules IH]; intros table; [reflexivity|].
  simpl fold_left. rewrite IH. unfold last_rule_for. simpl rev.
  rewrite find_in_app. destruct (find _ (rev rules)); [reflexivity|].
  simpl. rewrite dict_get_set. destruct (String.eqb _ _); reflexivity.
Qed.

Lemma formatted_rule_fields default_max infos rule :
  In rule (fst (format_trading_rules default_max infos)) ->
  min_order_size rule = min_base_amount_increment rule
  /\ min_price_increment rule = min_quote_amount_increment rule
  /\ max_order_size rule = default_max
  /\ exists info, In info infos /\ rule_of_info default_max info = Some rule.
Proof.
  induction infos as [|info infos IH]; simpl; [intros []|].
  destruct (format_trading_rules default_max infos) as [rules skipped].
  destruct (rule_of_info default_max info) as [r|] eqn:E; simpl; intros Hin.
  - destruct Hin as [<-|Hin].
    + assert (Hfields : min_order_size r = min_base_amount_increment r
                        /\ min_price_increment r = min_quote_amount_increment r
                        /\ max_order_size r = default_max).
      { unfold rule_of_info in E.
        destruct (info_id info), (info_quantityIncrement info),
          (info_tickSize info); try discriminate.
        injection E as <-. repeat split; reflexivity. }
      destruct Hfields as (A & B & C). repeat split; try assumption.
      exists info. split; [left; reflexivity|exact E].
    + destruct (IH Hin) as (A & B & C & info' & Hi & Hr).
      repeat split; try assumption. exists info'. split; [right|]; assumption.
  - destruct (IH Hin) as (A & B & C & info' & Hi & Hr).
    repeat split; try assumption. exists info'. split; [right|]; assumption.
Qed.

Lemma last_rule_in pair rules rule :
  last_rule_for pair rules = Some rule ->
  In rule rules /\ rule_trading_pair rule = pair.
Proof.
  unfold last_rule_for. intros H. apply find_some in H. destruct H as [Hin Heq].
  split; [apply in_rev; exact Hin|apply String.eqb_eq; exact Heq].
Qed.

(** X14.  What [_update_trading_rules] leaves behind.  It sends the symbol
    request exactly when the tick of the current timestamp is past that of
    the last one or the table is empty, and it touches neither the orders
    nor the events.  After an answer the table is rebuilt from the answer
    alone: a pair maps to the rule of its last parsable entry, and nothing of
    the old table is kept.  Without a request, or when the request fails,
    the table is as it was, and only the failure is passed on. *)
Theorem rules_table_after_refresh st last default_max reply pair :
  let due := trading_rules_due st last in
  let '(st', out) := update_trading_rules st last default_max reply in
  in_flight_orders st' = in_flight_orders st
  /\ events st' = events st
  /\ requests st' = requests st ++ (if due then [symbol_request] else [])
  /\ dict_get pair (trading_rules st')
     = match reply with
       | Response infos =>
           if due
           then last_rule_for pair (fst (format_trading_rules default_max infos))
           else dict_get pair (trading_rules st)
       | Failure _ => dict_get pair (trading_rules st)
       end
  /\ out = match reply with
           | Response _ => Ok tt
           | Failure e => if due then Raise e else Ok tt
           end.
Proof.
  unfold update_trading_rules.
  destruct (trading_rules_due st last) eqn:Hdue; cbv zeta.
  - destruct reply as [infos|e]; simpl.
    + repeat split; try reflexivity.
      rewrite rule_table_lookup. simpl.
      destruct (last_rule_for pair _); reflexivity.
    + repeat split; reflexivity.
  - rewrite app_nil_r. destruct reply; repeat split; reflexivity.
Qed.

(** X15.  Every rule found in the table after a refresh was built from an
    entry of the answer that carries all three fields: it is filed under the
    [id] of that entry, its minimum order size and its base increment are
    both the entry's [quantityIncrement], its two price increments are both
    the entry's [tickSize], and its maximum order size is the default of the
    rule class. *)
Theorem stored_rule_comes_from_an_entry st last default_max infos pair rule :
  trading_rules_due st last = true ->
  dict_get pair
    (trading_rules
       (fst (update_trading_rules st last default_max (Response infos))))
  = Some rule ->
  exists info,
    In info infos
    /\ info_id info = Some pair
    /\ rule_trading_pair rule = pair
    /\ info_quantityIncrement info = Some (min_order_size rule)
    /\ min_base_amount_increment rule = min_order_size rule
    /\ info_tickSize info = Some (min_price_increment rule)
    /\ min_quote_amount_increment rule = min_price_increment rule
    /\ max_order_size rule = default_max.
Proof.
  intros Hdue Hget. unfold update_trading_rules in Hget. rewrite Hdue in Hget.
  simpl in Hget. rewrite rule_table_lookup in Hget. simpl in Hget.
  destruct (last_rule_for pair _) as [r|] eqn:Hlast; [|discriminate].
  injection Hget as ->.
  apply last_rule_in in Hlast. destruct Hlast as [Hin Hpair].
  apply formatted_rule_fields in Hin.
  destruct Hin as (_ & _ & _ & info & Hinfo & Hrule).
  exists info. split; [exact Hinfo|].
  unfold rule_of_info in Hrule.
  destruct (info_id info), (info_quantityIncrement info), (info_tickSize info);
    try discriminate.
  injection Hrule as <-. simpl in Hpair. subst pair. simpl.
  repeat split; reflexivity.
Qed.

Lemma stored_rule_comes_from_an_entry_witness :
  exists info,
    In info scenario_symbols
    /\ info_id info = Some "ETHBTC"
    /\ rule_trading_pair
         (mkTradingRule "ETHBTC" (dec 1 4) scenario_max_order_size (dec 1 5)
            (dec 1 4) (dec 1 5)) = "ETHBTC"
    /\ info_quantityIncrement info = Some (dec 1 4)
    /\ dec 1 4 = dec 1 4
    /\ info_tickSize info = Some (dec 1 5)
    /\ dec 1 5 = dec 1 5
    /\ scenario_max_order_size = scenario_max_order_size.
Proof.
  apply (stored_rule_comes_from_an_entry idle_market 0 scenario_max_order_size
           scenario_symbols "ETHBTC"
           (mkTradingRule "ETHBTC" (dec 1 4) scenario_max_order_size (dec 1 5)
              (dec 1 4) (dec 1 5))).
  - reflexivity.
  - reflexivity.
Defined.

(** X16.  Once the table holds a rule, a refresh that starts with the last
    and the current timestamp equal does nothing: no request is sent and the
    state is returned as it is. *)
Theorem no_refresh_between_ticks st default_max reply :
  trading_rules st <> [] ->
  update_trading_rules st (current_timestamp st) default_max reply
  = (st, Ok tt).
Proof.
  intros Hrules. unfold update_trading_rules, trading_rules_due.
  rewrite Z.gtb_ltb, Z.ltb_irrefl.
  destruct (trading_rules st) as [|r rules]; [congruence|]. reflexivity.
Qed.

Lemma no_refresh_between_ticks_witness :
  update_trading_rules ruled_market (current_timestamp ruled_market)
    scenario_max_order_size (Response scenario_symbols)
  = (ruled_market, Ok tt).
Proof.
  apply (no_refresh_between_ticks ruled_market scenario_max_order_size
           (Response scenario_symbols)).
  discriminate.
Defined.

(** ** Balances *)

Lemma dict_get_after_entry (asset name : string) (x : Decimal)
  (d : list (string * Decimal)) :
  dict_get asset
    (dict_increase name x
       (if dict_mem name d then d else dict_set name s_decimal_0 d))
  = if String.eqb name asset
    then Some (match dict_get name d with
               | Some v => v
               | None => s_decimal_0
               end + x)%dec
    else dict_get asset d.
Proof.
  unfold dict_mem, dict_increase.
  destruct (dict_get name d) as [v|] eqn:Hname.
  - rewrite Hname, dict_get_set. reflexivity.
  - rewrite dict_get_set, String.eqb_refl, !dict_get_set.
    destruct (String.eqb name asset); reflexivity.
Qed.

Lemma running_total_step start x amounts :
  running_total
    (Some (match start with Some v => v | None => s_decimal_0 end + x)%dec)
    amounts
  = running_total start (x :: amounts).
Proof.
  destruct amounts; reflexivity.
Qed.

Lemma collect_balances_totals (asset : string) :
  forall balances new_available_balances new_balances,
    dict_get asset
      (fst (collect_balances balances new_available_balances new_balances))
    = running_total (dict_get asset new_available_balances)
        (map bal_available (counted_entries asset balances))
    /\ dict_get asset
         (snd (collect_balances balances new_available_balances new_balances))
       = running_total (dict_get asset new_balances)
           (map entry_total (counted_entries asset balances)).
Proof.
  induction balances as [|e rest IH]; intros av tot; [split; reflexivity|].
  simpl collect_balances. unfold counted_entries. simpl filter.
  fold (counted_entries asset rest).
  destruct (bal_available e + bal_reserved e ==? s_decimal_0)%dec eqn:Hzero.
  - rewrite andb_false_r. apply IH.
  - rewrite andb_true_r.
    match goal with
    | |- context [collect_balances rest ?a ?t] => destruct (IH a t) as [Ha Ht]
    end.
    rewrite Ha, Ht, !dict_get_after_entry.
    destruct (String.eqb (bal_currency e) asset) eqn:Hname.
    + apply String.eqb_eq in Hname. rewrite Hname. simpl map.
      rewrite <- !running_total_step. split; reflexivity.
    + split; reflexivity.
Qed.

Lemma collect_zero_balances :
  forall balances new_available_balances new_balances,
    forallb adds_to_zero balances = true ->
    collect_balances balances new_available_balances new_balances
    = (new_available_balances, new_balances).
Proof.
  induction balances as [|e rest IH]; intros av tot Hall; [reflexivity|].
  simpl in Hall. apply andb_true_iff in Hall. destruct Hall as [He Hrest].
  simpl. unfold adds_to_zero, entry_total in He. rewrite He.
  apply IH. exact Hrest.
Qed.

Lemma counted_entry_found e balances :
  In e balances -> adds_to_zero e = false ->
  counted_entries (bal_currency e) balances <> [].
Proof.
  intros Hin Hnz Hnone.
  assert (Hc : In e (counted_entries (bal_currency e) balances)).
  { unfold counted_entries. apply filter_In. split; [exact Hin|].
    rewrite String.eqb_refl. unfold adds_to_zero, entry_total in Hnz.
    rewrite Hnz. reflexivity. }
  rewrite Hnone in Hc. exact Hc.
Qed.

(** X17.  After a non-empty answer, [_update_balances] replaces both balance
    dicts by what the answer adds up to, whatever they held before.  For
    every asset the total is the sum, from zero and in the order of the
    answer, of available plus reserved over the entries of that asset that
    do not add up to zero, and the available balance is the sum of their
    available amounts; an asset without such an entry is in neither dict.
    One request is sent. *)
Theorem balances_are_sums_over_the_answer st account balances asset :
  balances <> [] ->
  let '(st', account', out) :=
    update_balances st account (Response balances) in
  out = Ok tt
  /\ requests st' = requests st ++ [balance_request]
  /\ dict_get asset (account_balances account')
     = added_up (map entry_total (counted_entries asset balances))
  /\ dict_get asset (account_available_balances account')
     = added_up (map bal_available (counted_entries asset balances)).
Proof.
  intros Hne. unfold update_balances.
  destruct balances as [|e rest]; [congruence|].
  change (0 <? List.length (e :: rest))%nat with true. cbv iota.
  destruct (collect_balances_totals asset (e :: rest) [] []) as [Ha Ht].
  destruct (collect_balances (e :: rest) [] []) as [av tot].
  simpl in Ha, Ht. simpl account_balances. simpl account_available_balances.
  rewrite Ha, Ht. repeat split.
Qed.

Lemma balances_are_sums_over_the_answer_witness :
  let '(st', account', out) :=
    update_balances idle_market empty_account (Response scenario_balances) in
  out = Ok tt
  /\ requests st' = requests idle_market ++ [balance_request]
  /\ dict_get "BTC" (account_balances account')
     = added_up (map entry_total (counted_entries "BTC" scenario_balances))
  /\ dict_get "BTC" (account_available_balances account')
     = added_up (map bal_available (counted_entries "BTC" scenario_balances)).
Proof.
  apply (balances_are_sums_over_the_answer idle_market empty_account
           scenario_balances "BTC").
  discriminate.
Defined.

(** X18.  When trading is required, the [account_balance] entry of
    [status_dict] after [_update_balances] has answered with a non-empty
    list says whether some entry of the answer does not add up to zero.  An
    account whose entries all add up to zero therefore leaves the connector
    not ready, whatever the order books and the trading rules are: [ready]
    and "all entries add up to zero" never hold together. *)
Theorem account_balance_flag_after_update
  order_books_ready st account balances :
  balances <> [] ->
  let '(st', account', _) :=
    update_balances st account (Response balances) in
  account_balance (status_dict order_books_ready true st' account')
  = negb (forallb adds_to_zero balances)
  /\ ready order_books_ready true st' account'
     && forallb adds_to_zero balances = false.
Proof.
  intros Hne. unfold update_balances.
  destruct balances as [|e0 rest0] eqn:Hb; [congruence|].
  change (0 <? List.length (e0 :: rest0))%nat with true. cbv iota.
  rewrite <- Hb in *. clear Hb.
  destruct (forallb adds_to_zero balances) eqn:Hall.
  - rewrite (collect_zero_balances _ _ _ Hall). simpl.
    split; [reflexivity|]. unfold ready. simpl.
    rewrite andb_true_r. apply andb_false_r.
  - assert (Hex : exists e, In e balances /\ adds_to_zero e = false).
    { clear -Hall. induction balances as [|e rest IH]; [discriminate|].
      simpl in Hall. apply andb_false_iff in Hall.
      destruct Hall as [He|Hrest].
      - exists e. split; [left; reflexivity|exact He].
      - destruct (IH Hrest) as (e' & Hin & He'). exists e'.
        split; [right; exact Hin|exact He']. }
    destruct Hex as (e & Hin & Hnz).
    destruct (collect_balances_totals (bal_currency e) balances [] [])
      as [_ Ht].
    destruct (collect_balances balances [] []) as [av tot].
    simpl in Ht. simpl.
    split; [|apply andb_false_r].
    destruct tot as [|kv tot]; [|reflexivity].
    exfalso. simpl in Ht.
    pose proof (counted_entry_found e balances Hin Hnz) as Hc.
    destruct (counted_entries (bal_currency e) balances); [congruence|].
    discriminate.
Qed.

Lemma account_balance_flag_after_update_witness :
  let '(st', account', _) :=
    update_balances idle_market empty_account (Response zero_balances) in
  account_balance (status_dict true true st' account')
  = negb (forallb adds_to_zero zero_balances)
  /\ ready true true st' account' && forallb adds_to_zero zero_balances
     = false.
Proof.
  apply (account_balance_flag_after_update true idle_market empty_account
           zero_balances).
  discriminate.
Defined.

(** ** The request layer and the network check *)

(** X19.  What the end of [_api_request] hands back for a status code and a
    body.  The body is returned only when it parsed, is not null and came
    with status 200.  A body that did not parse raises [IOError]; a null
    body, or any other status, raises [HitBTCAPIError] whose payload is the
    parsed body itself.  No other exception comes out of it. *)
Theorem api_response_cases http_status parsed_response :
  match api_response http_status parsed_response with
  | Response data =>
      parsed_response = Some data /\ data <> JNull /\ http_status = 200
  | Failure e =>
      (parsed_response = None /\ e = IOError)
      \/ (exists data,
            parsed_response = Some data
            /\ e = HitBTCAPIError data
            /\ (data = JNull \/ http_status <> 200))
  end.
Proof.
  unfold api_response. destruct parsed_response as [data|].
  - destruct (http_status =? 200)%Z eqn:Hs.
    + apply Z.eqb_eq in Hs.
      destruct data; simpl;
        try (repeat split; [discriminate|exact Hs]).
      right. exists JNull. repeat split. left. reflexivity.
    + apply Z.eqb_neq in Hs.
      destruct data; simpl; right; eexists; repeat split;
        solve [left; reflexivity | right; exact Hs].
  - left. split; reflexivity.
Qed.

(** X20.  [check_network] on top of the request layer: it sends one request
    for the BTC currency, never raises on an answer of the venue, and says
    [CONNECTED] exactly when the answer has status 200 and a body that
    parsed and is not null. *)
Theorem network_is_connected_on_a_good_answer st http_status parsed_response :
  let '(st', out) :=
    check_network st (api_response http_status parsed_response) in
  requests st' = requests st ++ [currency_request]
  /\ (out = Ok CONNECTED \/ out = Ok NOT_CONNECTED)
  /\ (out = Ok CONNECTED
      <-> http_status = 200
          /\ exists data, parsed_response = Some data /\ data <> JNull).
Proof.
  pose proof (api_response_cases http_status parsed_response) as Hc.
  unfold check_network.
  destruct (api_response http_status parsed_response) as [data|e].
  - destruct Hc as (Hp & Hd & Hs). repeat split; auto.
    exists data. split; assumption.
  - assert (He : e = IOError \/ exists d, e = HitBTCAPIError d).
    { destruct Hc as [[_ He]|(d & _ & He & _)]; [left|right; exists d];
        exact He. }
    assert (Hbad : ~ (http_status = 200
                      /\ exists data,
                           parsed_response = Some data /\ data <> JNull)).
    { intros (Hs & data & Hp & Hd).
      destruct Hc as [[Hnone _]|(d & Hp' & _ & [Hnull|Hstatus])].
      - congruence.
      - congruence.
      - contradiction. }
    destruct He as [->|[d ->]]; simpl; repeat split; auto;
      try discriminate; intros H; contradiction.
Qed.

(** ** Clock ticks *)

Lemma tick_is_floor (timestamp interval : Q) :
  (0 <= timestamp)%Q -> (0 < interval)%Q ->
  tick timestamp interval = Qfloor (timestamp / interval).
Proof.
  intros Ht Hi. unfold tick. cbv zeta.
  assert (Hq : (0 <= timestamp / interval)%Q).
  { apply Qle_shift_div_l; [exact Hi|]. rewrite Qmult_0_l. exact Ht. }
  destruct (timestamp / interval)%Q as [n d]. simpl.
  unfold Qle in Hq. simpl in Hq. rewrite Z.mul_1_r in Hq.
  apply Z.quot_div_nonneg; [exact Hq|reflexivity].
Qed.

(** X21.  A tick at least one poll interval after the last one sets the poll
    notifier and becomes the last timestamp.  The timestamps are taken
    non-negative, where the truncation of [<int64_t>] rounds down. *)
Theorem tick_after_an_interval_notifies poll_interval clock timestamp :
  (0 < poll_interval)%Q ->
  (0 <= last_timestamp clock)%Q ->
  (last_timestamp clock + poll_interval <= timestamp)%Q ->
  poll_notifier_set (c_tick poll_interval clock timestamp) = true
  /\ last_timestamp (c_tick poll_interval clock timestamp) = timestamp.
Proof.
  intros Hp Hl Ht. split; [|reflexivity].
  assert (Ht0 : (0 <= timestamp)%Q) by lra.
  unfold c_tick. cbv zeta. cbn [poll_notifier_set].
  rewrite (tick_is_floor _ _ Hl Hp), (tick_is_floor _ _ Ht0 Hp).
  set (a := (last_timestamp clock / poll_interval)%Q).
  set (b := (timestamp / poll_interval)%Q).
  assert (Hab : (a + 1 <= b)%Q).
  { unfold b. apply Qle_shift_div_l; [exact Hp|].
    assert (Ha : (a * poll_interval == last_timestamp clock)%Q).
    { unfold a. field. lra. }
    rewrite Qmult_plus_distr_l, Ha. lra. }
  assert (Hfl : (Qfloor a < Qfloor b)%Z).
  { pose proof (Qfloor_le a) as H1. pose proof (Qlt_floor b) as H2.
    assert (H3 : (inject_Z (Qfloor a) + 1 < inject_Z (Qfloor b + 1))%Q) by lra.
    rewrite inject_Z_plus in H3.
    assert (H4 : (inject_Z (Qfloor a) < inject_Z (Qfloor b))%Q).
    { change (inject_Z 1) with 1%Q in H3. lra. }
    rewrite <- Zlt_Qlt in H4. exact H4. }
  apply Z.gtb_lt in Hfl. rewrite Hfl. destruct (poll_notifier_set clock);
    reflexivity.
Qed.

Lemma tick_after_an_interval_notifies_witness :
  poll_notifier_set (c_tick (5 # 1) (mkPollClock (12 # 1) false) (17 # 1))
  = true
  /\ last_timestamp (c_tick (5 # 1) (mkPollClock (12 # 1) false) (17 # 1))
     = (17 # 1)%Q.
Proof.
  apply (tick_after_an_interval_notifies (5 # 1) (mkPollClock (12 # 1) false)
           (17 # 1)).
  - reflexivity.
  - discriminate.
  - discriminate.
Defined.




(** ** Saved tracking states *)

Section SavedStates.
Context {V : Type}.

Lemma dict_get_absent (k : string) (d : list (string * V)) :
  ~ In k (map fst d) -> dict_get k d = None.
Proof.
  induction d as [|[k' v'] d IH]; simpl; intros Hout; [reflexivity|].
  destruct (String.eqb k' k) eqn:E.
  - apply String.eqb_eq in E. tauto.
  - apply IH. tauto.
Qed.

Lemma dict_set_fresh (k : string) (v : V) (d : list (string * V)) :
  ~ In k (map fst d) -> dict_set k v d = d ++ [(k, v)].
Proof.
  induction d as [|[k' v'] d IH]; simpl; intros Hout; [reflexivity|].
  destruct (String.eqb k' k) eqn:E.
  - apply String.eqb_eq in E. tauto.
  - rewrite IH by tauto. reflexivity.
Qed.

Lemma dict_update_fresh : forall (other d : list (string * V)),
  NoDup (map fst (d ++ other)) -> dict_update d other = d ++ other.
Proof.
  unfold dict_update.
  induction other as [|[k v] other IH]; intros d Hnd; simpl.
  - rewrite app_nil_r. reflexivity.
  - assert (Hfresh : ~ In k (map fst d)).
    { rewrite map_app in Hnd. simpl in Hnd.
      apply NoDup_remove_2 in Hnd. intros Hin. apply Hnd.
      apply in_or_app. left. exact Hin. }
    rewrite (dict_set_fresh k v d Hfresh).
    change (d ++ (k, v) :: other) with (d ++ [(k, v)] ++ other).
    rewrite app_assoc. apply IH. rewrite <- app_assoc. exact Hnd.
Qed.

Lemma dict_update_lookup (k : string) : forall (other d : list (string * V)),
  NoDup (map fst other) ->
  dict_get k (dict_update d other)
  = match dict_get k other with
    | Some v => Some v
    | None => dict_get k d
    end.
Proof.
  unfold dict_update.
  induction other as [|[k0 v0] other IH]; intros d Hnd; [reflexivity|].
  simpl in Hnd. apply NoDup_cons_iff in Hnd. destruct Hnd as [Hfresh Hnd].
  simpl. rewrite (IH _ Hnd), dict_get_set.
  destruct (String.eqb k0 k) eqn:E.
  - apply String.eqb_eq in E. subst k0.
    rewrite (dict_get_absent k other Hfresh). reflexivity.
  - reflexivity.
Qed.

End SavedStates.

Lemma restored_orders_of_saved SavedState
  (to_json : InFlightOrder -> SavedState)
  (from_json : SavedState -> Outcome InFlightOrder) :
  (forall o, from_json (to_json o) = Ok o) ->
  forall d acc,
    restored_orders SavedState from_json
      (map (fun kv => (fst kv, to_json (snd kv))) d) acc
    = Ok (dict_update acc d).
Proof.
  intros Hround. induction d as [|[k o] d IH]; intros acc; [reflexivity|].
  simpl. rewrite Hround. simpl. apply IH.
Qed.

(** X23.  Saving the tracking states and restoring them brings every order
    back under its key.  When [from_json] reads back what [to_json] wrote,
    [restore_tracking_states] on the states saved from one connector does
    not raise, and in the connector that restores them each saved key maps
    to the saved order, while the keys that were not saved keep their
    orders: the restore merges, it does not replace.  Events and requests
    are untouched. *)
Theorem saved_states_restore SavedState
  (to_json : InFlightOrder -> SavedState)
  (from_json : SavedState -> Outcome InFlightOrder)
  (saved_from restoring : Market) (key : string) :
  (forall o, from_json (to_json o) = Ok o) ->
  NoDup (registry_keys saved_from) ->
  let '(st', out) :=
    restore_tracking_states SavedState from_json restoring
      (tracking_states SavedState to_json saved_from) in
  out = Ok tt
  /\ dict_get key (in_flight_orders st')
     = match dict_get key (in_flight_orders saved_from) with
       | Some o => Some o
       | None => dict_get key (in_flight_orders restoring)
       end
  /\ events st' = events restoring
  /\ requests st' = requests restoring.
Proof.
  intros Hround Hnd. unfold restore_tracking_states, tracking_states.
  rewrite (restored_orders_of_saved _ _ _ Hround).
  rewrite (dict_update_fresh (in_flight_orders saved_from) []) by exact Hnd.
  cbn [app in_flight_orders set_in_flight_orders events requests].
  repeat split. apply dict_update_lookup. exact Hnd.
Qed.

Lemma saved_states_restore_witness :
  let '(st', out) :=
    restore_tracking_states InFlightOrder (fun o => Ok o) scenario_market
      (tracking_states InFlightOrder (fun o => o) two_open_orders) in
  out = Ok tt
  /\ dict_get (client_order_id scenario_order) (in_flight_orders st')
     = match dict_get (client_order_id scenario_order)
               (in_flight_orders two_open_orders) with
       | Some o => Some o
       | None =>
           dict_get (client_order_id scenario_order)
             (in_flight_orders scenario_market)
       end
  /\ events st' = events scenario_market
  /\ requests st' = requests scenario_market.
Proof.
  apply (saved_states_restore InFlightOrder (fun o => o) (fun o => Ok o)
           two_open_orders scenario_market (client_order_id scenario_order)).
  - reflexivity.
  - unfold registry_keys. simpl.
    repeat constructor; simpl; intuition discriminate.
Defined.

(** X24.  [restore_tracking_states] is all or nothing.  If it raises, the
    exception is the one [from_json] raised on some saved state and the
    registry is left as it was; if it returns, every saved state was
    readable. *)
Theorem restore_is_all_or_nothing SavedState
  (from_json : SavedState -> Outcome InFlightOrder)
  (st : Market) (saved_states : list (string * SavedState)) :
  match restore_tracking_states SavedState from_json st saved_states with
  | (st', Raise e) =>
      st' = st
      /\ exists key value,
           In (key, value) saved_states /\ from_json value = Raise e
  | (st', Ok _) =>
      forall key value,
        In (key, value) saved_states -> exists o, from_json value = Ok o
  end.
Proof.
  unfold restore_tracking_states.
  assert (H : forall saved acc,
             match restored_orders SavedState from_json saved acc with
             | Raise e =>
                 exists key value,
                   In (key, value) saved /\ from_json value = Raise e
             | Ok _ =>
                 forall key value,
                   In (key, value) saved -> exists o, from_json value = Ok o
             end).
  { induction saved as [|[k v] saved IH]; intros acc; simpl.
    - intros key value [].
    - destruct (from_json v) as [o|e] eqn:Hv; simpl.
      + specialize (IH (dict_set k o acc)).
        destruct (restored_orders SavedState from_json saved _) as [d|e].
        * intros key value [Heq|Hin].
          -- injection Heq as <- <-. exists o. exact Hv.
          -- apply (IH key value Hin).
        * destruct IH as (key & value & Hin & Hr).
          exists key, value. split; [right; exact Hin|exact Hr].
      + exists k, v. split; [left; reflexivity|exact Hv]. }
  specialize (H saved_states []).
  destruct (restored_orders SavedState from_json saved_states []) as [d|e].
  - exact H.
  - split; [reflexivity|exact H].
Qed.

(** ** Pair names *)

Lemma convert_keeps_plain (s : string) :
  has_hyphen s = false -> convert_to_exchange_trading_pair s = s.
Proof.
  induction s as [|c s IH]; simpl; [reflexivity|].
  destruct (Ascii.eqb c "-"%char); simpl; [discriminate|].
  intros H. rewrite (IH H). reflexivity.
Qed.

Lemma convert_app (s1 s2 : string) :
  convert_to_exchange_trading_pair (s1 ++ s2)%string
  = (convert_to_exchange_trading_pair s1
     ++ convert_to_exchange_trading_pair s2)%string.
Proof.
  induction s1 as [|c s1 IH]; simpl; [reflexivity|].
  destruct (Ascii.eqb c "-"%char); simpl; rewrite IH; reflexivity.
Qed.

(** X25.  [convert_to_exchange_trading_pair] undoes the formatting of
    [convert_from_exchange_trading_pair]: for two asset names without a
    hyphen, the hyphenated pair goes back to their concatenation.  Its
    result never has a hyphen, so converting twice is converting once. *)
Theorem exchange_pair_of_hyphenated base_asset quote_asset :
  has_hyphen base_asset = false ->
  has_hyphen quote_asset = false ->
  convert_to_exchange_trading_pair (hyphenated base_asset quote_asset)
  = (base_asset ++ quote_asset)%string
  /\ forall trading_pair,
       has_hyphen (convert_to_exchange_trading_pair trading_pair) = false
       /\ convert_to_exchange_trading_pair
            (convert_to_exchange_trading_pair trading_pair)
          = convert_to_exchange_trading_pair trading_pair.
Proof.
  intros Hb Hq. split.
  - unfold hyphenated. rewrite !convert_app.
    rewrite (convert_keeps_plain _ Hb), (convert_keeps_plain _ Hq).
    reflexivity.
  - intros trading_pair.
    assert (Hplain :
              has_hyphen (convert_to_exchange_trading_pair trading_pair)
              = false).
    { induction trading_pair as [|c s IH]; simpl; [reflexivity|].
      destruct (Ascii.eqb c "-"%char) eqn:E; simpl; [exact IH|].
      rewrite E, IH. reflexivity. }
    split; [exact Hplain|apply convert_keeps_plain; exact Hplain].
Qed.

Lemma exchange_pair_of_hyphenated_witness :
  convert_to_exchange_trading_pair (hyphenated "ETH" "BTC") = "ETHBTC"
  /\ forall trading_pair,
       has_hyphen (convert_to_exchange_trading_pair trading_pair) = false
       /\ convert_to_exchange_trading_pair
            (convert_to_exchange_trading_pair trading_pair)
          = convert_to_exchange_trading_pair trading_pair.
Proof.
  apply (exchange_pair_of_hyphenated "ETH" "BTC"); reflexivity.
Defined.

(** ** Starting and stopping the network tasks *)

Lemma existsb_task_eq task tasks :
  existsb (Nat.eqb task) tasks = true <-> In task tasks.
Proof.
  rewrite existsb_exists. split.
  - intros (t & Hin & Heq). apply Nat.eqb_eq in Heq. subst t. exact Hin.
  - intros Hin. exists task. split; [exact Hin|apply Nat.eqb_refl].
Qed.

Lemma running_spec net task :
  running net task = true
  <-> (task < List.length (spawned net))%nat
      /\ ~ In task (cancel_requested net).
Proof.
  unfold running. rewrite andb_true_iff, negb_true_iff, Nat.ltb_lt.
  rewrite <- existsb_task_eq.
  destruct (existsb (Nat.eqb task) (cancel_requested net)); intuition congruence.
Qed.

Lemma not_running_spec net task :
  running net task = false
  <-> ((task < List.length (spawned net))%nat ->
       In task (cancel_requested net)).
Proof.
  destruct (running net task) eqn:Hr.
  - apply running_spec in Hr. split; [discriminate|]. intros H.
    destruct Hr as [Hlt Hout]. elim Hout. apply H. exact Hlt.
  - split; [|reflexivity]. intros _ Hlt.
    destruct (in_dec Nat.eq_dec task (cancel_requested net)) as [Hin|Hout];
      [exact Hin|].
    assert (Hr' : running net task = true) by (apply running_spec; auto).
    congruence.
Qed.

(** X26.  Stopping cancels what starting scheduled.  From a connector with
    no running task, [start_network] followed by [_stop_network] leaves no
    task running, with or without trading; the order book tracker is stopped
    and the handles of the status polling, user stream tracker and listener
    tasks are cleared. *)
Theorem stop_cancels_started_tasks trading_required net task :
  (forall t, running net t = false) ->
  let net' := stop_network (start_network trading_required net) in
  running net' task = false
  /\ order_book_tracker_started net' = false
  /\ status_polling_task net' = None
  /\ user_stream_tracker_task net' = None
  /\ user_stream_event_listener_task net' = None.
Proof.
  intros Hidle. cbv zeta. pose proof (Hidle task) as Ht.
  rewrite not_running_spec in Ht. rewrite not_running_spec.
  destruct net as [tasks cancels started status tracker listener rules].
  cbn [spawned cancel_requested] in Ht.
  destruct trading_required, status, tracker, listener;
    cbn [stop_network start_network safe_ensure_future cancel_if_set
         spawned cancel_requested order_book_tracker_started
         status_polling_task user_stream_tracker_task
         user_stream_event_listener_task trading_rules_polling_task];
    (split; [|repeat split; reflexivity]);
    rewrite ?length_app; cbn [List.length In]; intros Hlt.
  all: destruct (Nat.lt_ge_cases task (List.length tasks)) as [Hold|Hnew];
    [specialize (Ht Hold); tauto|].
  all: assert (Hcase : task = List.length tasks
                       \/ task = (List.length tasks + 1)%nat
                       \/ task = (List.length tasks + 1 + 1)%nat
                       \/ task = (List.length tasks + 1 + 1 + 1)%nat)
         by lia.
  all: destruct Hcase as [Hc|[Hc|[Hc|Hc]]]; try lia.
  all: repeat match goal with
              | |- _ \/ _ => first [left; lia | right]
              end.
Qed.

Lemma stop_cancels_started_tasks_witness :
  let net' := stop_network (start_network true no_network) in
  running net' 2 = false
  /\ order_book_tracker_started net' = false
  /\ status_polling_task net' = None
  /\ user_stream_tracker_task net' = None
  /\ user_stream_event_listener_task net' = None.
Proof.
  apply (stop_cancels_started_tasks true no_network 2).
  intros t. unfold running. simpl. destruct t; reflexivity.
Defined.

(** X27.  [start_network] does not look at the handles it overwrites.
    Started twice in a row from a connector with no running task and
    stopped once, the connector has cancelled the tasks of the second start
    and only those: the tasks of the first start, the trading rules polling
    loop and with trading the three others, are the ones still running, and
    the one handle left refers to the cancelled trading rules task of the
    second start.  The handles and the cancellations are taken
    to refer to tasks that were scheduled. *)
Theorem second_start_orphans_first_tasks (trading_required : bool)
  (net : Network) (task : nat) :
  tasks_were_spawned net = true ->
  (forall t, running net t = false) ->
  let first := List.length (spawned net) in
  let started := if trading_required then 4%nat else 1%nat in
  let net' :=
    stop_network
      (start_network trading_required (start_network trading_required net)) in
  List.length (spawned net') = (first + started + started)%nat
  /\ running net' task
     = (first <=? task)%nat && (task <? first + started)%nat
  /\ held_tasks net' = [(first + started)%nat].
Proof.
  intros Hwf Hidle. cbv zeta.
  pose proof (Hidle task) as Ht. rewrite not_running_spec in Ht.
  assert (Hcancelled : forall t, In t (cancel_requested net ++ held_tasks net)
                                 -> (t < List.length (spawned net))%nat).
  { unfold tasks_were_spawned in Hwf. rewrite forallb_forall in Hwf.
    intros t Hin. apply Nat.ltb_lt. apply Hwf. exact Hin. }
  clear Hwf Hidle.
  destruct net as [tasks cancels started status tracker listener rules].
  unfold held_tasks in Hcancelled |- *.
  cbn [spawned cancel_requested status_polling_task user_stream_tracker_task
       user_stream_event_listener_task trading_rules_polling_task]
    in Ht, Hcancelled |- *.
  setoid_rewrite in_app_iff in Hcancelled.
  assert (Hc : In task cancels <-> (task < List.length tasks)%nat)
    by (split; [intros Hin; apply Hcancelled; left; exact Hin|exact Ht]).
  pose proof (Hcancelled task) as Hk. clear Ht Hcancelled.
  destruct trading_required;
    [|destruct status, tracker, listener];
    (split; [|split]).
  all: try (apply eq_iff_eq_true;
            rewrite running_spec, andb_true_iff, Nat.leb_le, Nat.ltb_lt).
  all: cbn [stop_network start_network safe_ensure_future cancel_if_set
         spawned cancel_requested order_book_tracker_started
         status_polling_task user_stream_tracker_task
         user_stream_event_listener_task trading_rules_polling_task
         flat_map app held_tasks] in Hk |- *;
    rewrite ?length_app; cbn [List.length In] in Hk |- *.
  all: try lia.
  all: try (f_equal; lia).
  all: rewrite Hc in Hk |- *; clear Hc; intuition lia.
Qed.

Lemma second_start_orphans_first_tasks_witness :
  let net' :=
    stop_network (start_network true (start_network true no_network)) in
  List.length (spawned net') = 8%nat
  /\ running net' 2 = (0 <=? 2)%nat && (2 <? 0 + 4)%nat
  /\ held_tasks net' = [(0 + 4)%nat].
Proof.
  apply (second_start_orphans_first_tasks true no_network 2).
  - reflexivity.
  - intros t. unfold running. simpl. destruct t; reflexivity.
Defined.
